(** * fill1040: spreadsheet rows to tax-form field maps

    A shallow embedding of the parsers of the repository
    ([FormParser.ts], [F8949Parser.ts], [F1040Parser.ts], [ParserRegistry.ts]
    and the mapping tables of [config/mappings]) together with the
    properties of its specification.

    Modelling decisions.
    - A JavaScript object used as a map is an association list in
      [Object.keys] order: assigning to an existing key replaces the value
      in place, assigning to a new key appends.  Records and mapping tables
      are plain objects: reading a key they do not have themselves finds
      what [Object.prototype] gives under that key, if anything.
    - Strings are Rocq strings, the bytes of the UTF-8 form of a
      well-formed JavaScript string.  An ASCII text is included in a string
      of code units exactly when its bytes are included in the bytes.
      [trim] removes the white space and the line terminators of
      ECMAScript.  [toLowerCase] is modelled on the ASCII letters; of the
      other characters only U+212A (to [k]) and U+0130 (to [i] and U+0307)
      have an ASCII letter in their lower case, and none of the texts the
      code compares with has a [k] or ends in [i], so the comparisons of
      the code have the same result.
    - A JavaScript number is a value of an abstract type [number], with the
      operations the code uses, provided by a [Host]; nothing is assumed
      about rounding.  Time values of [Date] objects are integers of
      milliseconds or NaN, as ECMAScript defines them.
    - A cell of a record is null, undefined, a string, a number or a
      [Date]; reading a cell can also give a member of [Object.prototype]. *)

From Stdlib Require Import ZArith List String Ascii Bool Arith Lia.
From Stdlib Require Import DecimalString DecimalNat DecimalFacts.
Import ListNotations.
Open Scope string_scope.
Open Scope nat_scope.

Set Implicit Arguments.

(** ** JavaScript built-ins used by the code *)

Module Js.

(** *** Strings *)

(** [String.prototype.toLowerCase], on ASCII letters. *)
Definition lower_ascii (c : ascii) : ascii :=
  let n := nat_of_ascii c in
  if andb (65 <=? n) (n <=? 90) then ascii_of_nat (n + 32) else c.

Fixpoint toLowerCase (s : string) : string :=
  match s with
  | EmptyString => EmptyString
  | String c s' => String (lower_ascii c) (toLowerCase s')
  end.

(** What [String.prototype.trim] removes, the white space and the line
    terminators of ECMAScript, by the bytes of their UTF-8 form.  One byte:
    TAB, LF, VT, FF, CR and SPACE. *)
Definition is_space (c : ascii) : bool :=
  let n := nat_of_ascii c in
  orb (andb (9 <=? n) (n <=? 13)) (n =? 32).

(** Two bytes: U+00A0 (C2 A0). *)
Definition is_space2 (c1 c2 : ascii) : bool :=
  andb (nat_of_ascii c1 =? 194) (nat_of_ascii c2 =? 160).

(** Three bytes: U+1680 (E1 9A 80), U+2000 to U+200A (E2 80 80 to 8A),
    U+2028, U+2029 and U+202F (E2 80 A8, A9, AF), U+205F (E2 81 9F),
    U+3000 (E3 80 80) and U+FEFF (EF BB BF). *)
Definition is_space3 (c1 c2 c3 : ascii) : bool :=
  let a := nat_of_ascii c1 in
  let b := nat_of_ascii c2 in
  let c := nat_of_ascii c3 in
  orb (andb (a =? 225) (andb (b =? 154) (c =? 128)))
   (orb (andb (a =? 226)
           (andb (b =? 128)
              (orb (andb (128 <=? c) (c <=? 138))
                 (orb (c =? 168) (orb (c =? 169) (c =? 175))))))
    (orb (andb (a =? 226) (andb (b =? 129) (c =? 159)))
     (orb (andb (a =? 227) (andb (b =? 128) (c =? 128)))
          (andb (a =? 239) (andb (b =? 187) (c =? 191)))))).

Fixpoint trimStart (s : string) : string :=
  match s with
  | EmptyString => EmptyString
  | String c1 s1 =>
      if is_space c1 then trimStart s1
      else
        match s1 with
        | String c2 s2 =>
            if is_space2 c1 c2 then trimStart s2
            else
              match s2 with
              | String c3 s3 => if is_space3 c1 c2 c3 then trimStart s3 else s
              | EmptyString => s
              end
        | EmptyString => s
        end
  end.

(** A string of white space only. *)
Fixpoint blank (s : string) : bool :=
  match s with
  | EmptyString => true
  | String c1 s1 =>
      if is_space c1 then blank s1
      else
        match s1 with
        | String c2 s2 =>
            if is_space2 c1 c2 then blank s2
            else
              match s2 with
              | String c3 s3 => if is_space3 c1 c2 c3 then blank s3 else false
              | EmptyString => false
              end
        | EmptyString => false
        end
  end.

(** [trimEnd s] drops the trailing white space: a byte is kept unless
    there is only white space from it on. *)
Fixpoint trimEnd (s : string) : string :=
  match s with
  | EmptyString => EmptyString
  | String c s' => if blank s then EmptyString else String c (trimEnd s')
  end.

Definition trim (s : string) : string := trimEnd (trimStart s).

(** [String.prototype.includes]. *)
Fixpoint includes (s sub : string) : bool :=
  if String.prefix sub s then true
  else match s with
       | EmptyString => false
       | String _ s' => includes s' sub
       end.

(** [s.replace(/[$,]/g, '')]. *)
Fixpoint strip_currency (s : string) : string :=
  match s with
  | EmptyString => EmptyString
  | String c s' =>
      if orb (Ascii.eqb c "$") (Ascii.eqb c ",")
      then strip_currency s'
      else String c (strip_currency s')
  end.

(** [s.padStart(2, '0')]. *)
Definition padStart2 (s : string) : string :=
  match String.length s with
  | 0 => "00"
  | 1 => "0" ++ s
  | _ => s
  end.

(** Decimal text of an integer, as [String(n)] and template literals give
    it for an integral number. *)
Definition string_of_nat (n : nat) : string :=
  NilEmpty.string_of_uint (Nat.to_uint n).

Definition string_of_Z (z : Z) : string :=
  match z with
  | Z0 => "0"
  | Zpos _ => string_of_nat (Z.to_nat z)
  | Zneg _ => "-" ++ string_of_nat (Z.to_nat (- z))
  end.

(** *** Objects used as maps *)

Definition Obj (V : Type) : Type := list (string * V).

Definition empty {V} : Obj V := [].

(** [o[k]] among the properties [o] has itself; [None] when there is
    none.  This is all of [o[k]] when [k] is not a property of
    [Object.prototype]. *)
Fixpoint get {V} (o : Obj V) (k : string) : option V :=
  match o with
  | [] => None
  | (k', v) :: o' => if String.eqb k' k then Some v else get o' k
  end.

(** What a plain object inherits: the functions of [Object.prototype], by
    their names, and the prototype itself. *)
Inductive Member : Type :=
| MFunction (name : string)
| MPrototype.

(** The properties of [Object.prototype]. *)
Definition objectPrototype : Obj Member := [
  ("constructor", MFunction "Object");
  ("__defineGetter__", MFunction "__defineGetter__");
  ("__defineSetter__", MFunction "__defineSetter__");
  ("hasOwnProperty", MFunction "hasOwnProperty");
  ("__lookupGetter__", MFunction "__lookupGetter__");
  ("__lookupSetter__", MFunction "__lookupSetter__");
  ("isPrototypeOf", MFunction "isPrototypeOf");
  ("propertyIsEnumerable", MFunction "propertyIsEnumerable");
  ("toString", MFunction "toString");
  ("valueOf", MFunction "valueOf");
  ("__proto__", MPrototype);
  ("toLocaleString", MFunction "toLocaleString")
].

Definition inherited (k : string) : option Member := get objectPrototype k.

(** [o[k]] for a plain object [o]: a property of its own, or else one of
    [Object.prototype], or else [undefined]. *)
Inductive Lookup (V : Type) : Type :=
| Own (v : V)
| Inherited (m : Member)
| Absent.

Arguments Inherited {V} m.
Arguments Absent {V}.

Definition lookup {V} (o : Obj V) (k : string) : Lookup V :=
  match get o k with
  | Some v => Own v
  | None =>
      match inherited k with
      | Some m => Inherited m
      | None => Absent
      end
  end.

(** [o[k] = v]. *)
Fixpoint set {V} (o : Obj V) (k : string) (v : V) : Obj V :=
  match o with
  | [] => [(k, v)]
  | (k', v') :: o' =>
      if String.eqb k' k then (k, v) :: o' else (k', v') :: set o' k v
  end.

(** [Object.keys(o)], [Object.values(o)]. *)
Definition keys {V} (o : Obj V) : list string := map fst o.
Definition values {V} (o : Obj V) : list V := map snd o.

(** Assigning the entries of [source] to [target] in their order. *)
Definition assign {V} (target source : Obj V) : Obj V :=
  fold_left (fun acc kv => set acc (fst kv) (snd kv)) source target.

(** The object literal [{...a, ...b}]. *)
Definition spread {V} (a b : Obj V) : Obj V :=
  assign (assign empty a) b.

(** The property key an expression [o[x]] uses when [x] is a string or
    [undefined]. *)
Definition propertyKey (x : option string) : string :=
  match x with
  | Some s => s
  | None => "undefined"
  end.

(** [Array.prototype.slice(i, j)] for [0 <= i <= j]. *)
Definition slice {A} (i j : nat) (l : list A) : list A :=
  firstn (j - i) (skipn i l).

(** *** Dates *)

(** The time value of a [Date]: milliseconds since the epoch, or NaN
    ([None], an invalid date). *)
Definition TimeValue : Type := option Z.

Definition msPerDay : Z := 86400000%Z.

(** [TimeClip] of an integral number of milliseconds. *)
Definition TimeClip (t : Z) : TimeValue :=
  if (Z.abs t <=? 8640000000000000)%Z then Some t else None.

(** [Day(t)]. *)
Definition Day (t : Z) : Z := (t / msPerDay)%Z.

(** Year, month (1..12) and day of the month of the day number [z]
    (days since 1970-01-01) in the proleptic Gregorian calendar. *)
Definition civil_from_days (z : Z) : Z * Z * Z :=
  (let z := z + 719468 in
  let era := z / 146097 in
  let doe := z mod 146097 in
  let yoe := (doe - doe / 1460 + doe / 36524 - doe / 146096) / 365 in
  let doy := doe - (365 * yoe + yoe / 4 - yoe / 100) in
  let mp := (5 * doy + 2) / 153 in
  let d := doy - (153 * mp + 2) / 5 + 1 in
  let m := if mp <? 10 then mp + 3 else mp - 9 in
  let y := yoe + era * 400 + (if m <=? 2 then 1 else 0) in
  (y, m, d))%Z.

(** [YearFromTime], [MonthFromTime] + 1 and [DateFromTime]. *)
Definition YearFromTime (t : Z) : Z := fst (fst (civil_from_days (Day t))).
Definition MonthFromTime1 (t : Z) : Z := snd (fst (civil_from_days (Day t))).
Definition DateFromTime (t : Z) : Z := snd (civil_from_days (Day t)).

End Js.

(** ** The host: numbers and the implementation-defined parts of [Date] *)

(** The operations on JavaScript numbers that the code uses, and what
    ECMAScript leaves to the implementation.  [floor] is [Math.floor] and
    gives [None] when the result is not finite (NaN, an infinity).
    [functionText name] is the text [Function.prototype.toString] gives for
    the built-in function called [name].  Two laws are assumed:
    subtracting small integral numbers is exact, and the text of a
    built-in function has the form ECMAScript asks for,
    [function name() { [native code] }] up to spacing, of which only the
    first word is used. *)
Class Host (number : Type) : Type := {
  lit : Z -> number;
  add : number -> number -> number;
  sub : number -> number -> number;
  ltb : number -> number -> bool;
  isNaN : number -> bool;
  truthy : number -> bool;
  toString : number -> string;
  parseFloat : string -> number;
  floor : number -> option Z;
  Date_parse : string -> Js.TimeValue;
  Date_toString : Js.TimeValue -> string;
  LocalTZA : Z -> Z;
  functionText : string -> string;
  floor_sub_lit : forall a b : Z,
    (Z.abs a <= 2 ^ 52)%Z -> (Z.abs b <= 2 ^ 52)%Z ->
    floor (sub (lit a) (lit b)) = Some (a - b)%Z;
  functionText_function : forall name : string,
    String.prefix "function" (functionText name) = true
}.

(** A host whose numbers are the integers and NaN, and whose local time is
    UTC; it serves to run the definitions on concrete inputs. *)
Module IntegerHost.

Definition number : Type := option Z.

Definition lift2 (f : Z -> Z -> Z) (a b : number) : number :=
  match a, b with
  | Some x, Some y => Some (f x y)
  | _, _ => None
  end.

Definition ltb (a b : number) : bool :=
  match a, b with
  | Some x, Some y => (x <? y)%Z
  | _, _ => false
  end.

Definition isNaN (a : number) : bool :=
  match a with Some _ => false | None => true end.

Definition truthy (a : number) : bool :=
  match a with Some x => negb (x =? 0)%Z | None => false end.

Definition toString (a : number) : string :=
  match a with Some x => Js.string_of_Z x | None => "NaN" end.

Definition digit (c : ascii) : option Z :=
  let n := nat_of_ascii c in
  if andb (48 <=? n) (n <=? 57) then Some (Z.of_nat (n - 48)) else None.

(** The longest prefix of decimal digits, read as an integer. *)
Fixpoint digits (s : string) (acc : option Z) : option Z :=
  match s with
  | EmptyString => acc
  | String c s' =>
      match digit c with
      | Some d =>
          digits s' (Some (10 * match acc with Some a => a | None => 0 end + d)%Z)
      | None => acc
      end
  end.

(** An optional sign and the digits after it; a fraction is not read. *)
Definition parseFloat (s : string) : number :=
  match Js.trimStart s with
  | String "-" s' => option_map Z.opp (digits s' None)
  | String "+" s' => digits s' None
  | s' => digits s' None
  end.

Definition Date_toString (t : Js.TimeValue) : string :=
  match t with
  | Some ms => Js.string_of_Z ms
  | None => "Invalid Date"
  end.

(** The text of V8 and JavaScriptCore. *)
Definition functionText (name : string) : string :=
  "function " ++ name ++ "() { [native code] }".

End IntegerHost.

#[export, refine] Instance integerHost : Host IntegerHost.number := {
  lit := Some;
  add := IntegerHost.lift2 Z.add;
  sub := IntegerHost.lift2 Z.sub;
  ltb := IntegerHost.ltb;
  isNaN := IntegerHost.isNaN;
  truthy := IntegerHost.truthy;
  toString := IntegerHost.toString;
  parseFloat := IntegerHost.parseFloat;
  floor := fun a => a;
  Date_parse := fun _ => None;
  Date_toString := IntegerHost.Date_toString;
  LocalTZA := fun _ => 0%Z;
  functionText := IntegerHost.functionText
}.
Proof.
  - reflexivity.
  - reflexivity.
Defined.

(** ** types/index.ts *)

Module Types.
Section Types.

Variable number : Type.

(** A cell of a spreadsheet record; also what a field map holds. *)
Inductive Value : Type :=
| VNull
| VUndefined
| VString (s : string)
| VNumber (n : number)
| VDate (t : Js.TimeValue)
| VMember (m : Js.Member).

Definition VariableMap : Type := Js.Obj Value.
Definition FieldMapping : Type := Js.Obj string.
Definition FormsData : Type := Js.Obj VariableMap.
Definition ExcelRow : Type := Js.Obj Value.

Inductive Severity : Type := error | warning.

Record Issue : Type := { field : string; message : string }.

Record ValidationIssue : Type := {
  issue : Issue;
  severity : Severity
}.

Record ValidationResult : Type := {
  isValid : bool;
  errors : list ValidationIssue;
  warnings : list ValidationIssue
}.

Record ParseResult : Type := {
  formIds : list string;
  formsData : FormsData;
  validation : ValidationResult
}.

Record ParseOptions : Type := {
  year : number;
  validate : bool;
  skipEmptyRows : bool
}.

(** [row[k]]. *)
Definition cell (row : ExcelRow) (k : string) : Value :=
  match Js.lookup row k with
  | Js.Own v => v
  | Js.Inherited m => VMember m
  | Js.Absent => VUndefined
  end.

End Types.

Arguments VNull {number}.
Arguments VUndefined {number}.
Arguments VString {number} s.
Arguments VDate {number} t.
Arguments VMember {number} m.

End Types.
Export Types.

(** ** parsers/FormParser.ts *)

Module FormParser.
Section FormParser.

Context {number : Type} {host : Host number}.

Definition createParseResult (formIds : list string)
    (formsData : FormsData number) (validation : ValidationResult)
  : ParseResult number :=
  {| formIds := formIds; formsData := formsData; validation := validation |}.

Definition createValidationResult (isValid : bool)
    (errors warnings : list Issue) : ValidationResult :=
  {| isValid := isValid;
     errors := map (fun e => {| issue := e; severity := error |}) errors;
     warnings := map (fun w => {| issue := w; severity := warning |}) warnings |}.

Definition isEmpty (value : Value number) : bool :=
  match value with
  | VNull => true
  | VUndefined => true
  | VString s => String.eqb s ""
  | _ => false
  end.

(** [String(m)] for a member of [Object.prototype]; also the property
    key of [o[m]]. *)
Definition memberText (m : Js.Member) : string :=
  match m with
  | Js.MFunction name => functionText name
  | Js.MPrototype => "[object Object]"
  end.

(** [String(value)]. *)
Definition String_ (value : Value number) : string :=
  match value with
  | VNull => "null"
  | VUndefined => "undefined"
  | VString s => s
  | VNumber n => toString n
  | VDate t => Date_toString t
  | VMember m => memberText m
  end.

(** [ToBoolean(value)], as [value || d] and [if (value)] test it. *)
Definition truthyValue (value : Value number) : bool :=
  match value with
  | VNull => false
  | VUndefined => false
  | VString s => negb (String.eqb s "")
  | VNumber n => truthy n
  | VDate _ => true
  | VMember _ => true
  end.

(** [value || d]. *)
Definition orElse (value d : Value number) : Value number :=
  if truthyValue value then value else d.

(** [String(x)] for an integral number or NaN [x]. *)
Definition intString (x : option Z) : string :=
  match x with
  | Some z => Js.string_of_Z z
  | None => "NaN"
  end.

(** [new Date(Math.floor(serial - 25569) * 86400 * 1000)]. *)
Definition dateOfSerial (serial : number) : Js.TimeValue :=
  match floor (sub serial (lit 25569)) with
  | Some utc_days =>
      let utc_value := (utc_days * 86400)%Z in
      Js.TimeClip (utc_value * 1000)%Z
  | None => None
  end.

Definition getUTCMonth (d : Js.TimeValue) : option Z :=
  option_map (fun t => Js.MonthFromTime1 t - 1)%Z d.
Definition getUTCDate (d : Js.TimeValue) : option Z :=
  option_map Js.DateFromTime d.
Definition getUTCFullYear (d : Js.TimeValue) : option Z :=
  option_map Js.YearFromTime d.

(** [LocalTime(t)]. *)
Definition LocalTime (t : Z) : Z := (t + LocalTZA t)%Z.

Definition getMonth (d : Js.TimeValue) : option Z :=
  option_map (fun t => Js.MonthFromTime1 (LocalTime t) - 1)%Z d.
Definition getDate (d : Js.TimeValue) : option Z :=
  option_map (fun t => Js.DateFromTime (LocalTime t)) d.
Definition getFullYear (d : Js.TimeValue) : option Z :=
  option_map (fun t => Js.YearFromTime (LocalTime t)) d.

Definition excelDateToString (serial : number) : string :=
  let date_info := dateOfSerial serial in
  let mm := Js.padStart2 (intString (option_map (Z.add 1) (getUTCMonth date_info))) in
  let dd := Js.padStart2 (intString (getUTCDate date_info)) in
  let yyyy := getUTCFullYear date_info in
  mm ++ "/" ++ dd ++ "/" ++ intString yyyy.

Definition formatDate (value : Value number) : string :=
  match value with
  | VNumber n => excelDateToString n
  | VDate d =>
      let mm := Js.padStart2 (intString (option_map (Z.add 1) (getMonth d))) in
      let dd := Js.padStart2 (intString (getDate d)) in
      let yyyy := getFullYear d in
      mm ++ "/" ++ dd ++ "/" ++ intString yyyy
  | _ => String_ value
  end.

Definition parseNumber (value : Value number) (defaultValue : number) : number :=
  match value with
  | VNumber n => n
  | _ =>
      let parsed := parseFloat (Js.strip_currency (String_ value)) in
      if isNaN parsed then defaultValue else parsed
  end.

End FormParser.
End FormParser.

(** ** config/mappings *)

Module Mappings.
Section Mappings.

Context {number : Type} {host : Host number}.

(** *** Form 1040 *)

Definition f1040_2025 : FieldMapping := [
  ("Line 1a", "topmostSubform[0].Page1[0].f1_47[0]");
  ("Line 1b", "topmostSubform[0].Page1[0].f1_48[0]");
  ("Line 1c", "topmostSubform[0].Page1[0].f1_49[0]");
  ("Line 1d", "topmostSubform[0].Page1[0].f1_50[0]");
  ("Line 1e", "topmostSubform[0].Page1[0].f1_51[0]");
  ("Line 1f", "topmostSubform[0].Page1[0].f1_52[0]");
  ("Line 1g", "topmostSubform[0].Page1[0].f1_53[0]");
  ("Line 1ho", "topmostSubform[0].Page1[0].f1_54[0]");
  ("Line 1h", "topmostSubform[0].Page1[0].f1_55[0]");
  ("Line 1i", "topmostSubform[0].Page1[0].f1_56[0]");
  ("Line 1z", "topmostSubform[0].Page1[0].f1_57[0]");
  ("Line 2a", "topmostSubform[0].Page1[0].f1_58[0]");
  ("Line 2b", "topmostSubform[0].Page1[0].f1_59[0]");
  ("Line 3a", "topmostSubform[0].Page1[0].f1_60[0]");
  ("Line 3b", "topmostSubform[0].Page1[0].f1_61[0]");
  ("Line 4a", "topmostSubform[0].Page1[0].f1_62[0]");
  ("Line 4b", "topmostSubform[0].Page1[0].f1_63[0]");
  ("Line 5a", "topmostSubform[0].Page1[0].f1_65[0]");
  ("Line 5b", "topmostSubform[0].Page1[0].f1_66[0]");
  ("Line 6a", "topmostSubform[0].Page1[0].f1_68[0]");
  ("Line 6b", "topmostSubform[0].Page1[0].f1_69[0]");
  ("Line 7a", "topmostSubform[0].Page1[0].f1_70[0]");
  ("Line 7b", "topmostSubform[0].Page1[0].f1_71[0]");
  ("Line 8", "topmostSubform[0].Page1[0].f1_72[0]");
  ("Line 9", "topmostSubform[0].Page1[0].f1_73[0]");
  ("Line 10", "topmostSubform[0].Page1[0].f1_74[0]");
  ("Line 11a", "topmostSubform[0].Page1[0].f1_75[0]");
  ("Line 11b", "topmostSubform[0].Page2[0].f2_01[0]");
  ("Line 12e", "topmostSubform[0].Page2[0].f2_02[0]");
  ("Line 13a", "topmostSubform[0].Page2[0].f2_03[0]");
  ("Line 13b", "topmostSubform[0].Page2[0].f2_04[0]");
  ("Line 14", "topmostSubform[0].Page2[0].f2_05[0]");
  ("Line 15", "topmostSubform[0].Page2[0].f2_06[0]");
  ("Line 16", "topmostSubform[0].Page2[0].f2_08[0]");
  ("Line 17", "topmostSubform[0].Page2[0].f2_09[0]");
  ("Line 18", "topmostSubform[0].Page2[0].f2_10[0]");
  ("Line 19", "topmostSubform[0].Page2[0].f2_11[0]");
  ("Line 20", "topmostSubform[0].Page2[0].f2_12[0]");
  ("Line 21", "topmostSubform[0].Page2[0].f2_13[0]");
  ("Line 22", "topmostSubform[0].Page2[0].f2_14[0]");
  ("Line 23", "topmostSubform[0].Page2[0].f2_15[0]");
  ("Line 24", "topmostSubform[0].Page2[0].f2_16[0]");
  ("Line 25a", "topmostSubform[0].Page2[0].f2_17[0]");
  ("Line 25b", "topmostSubform[0].Page2[0].f2_18[0]");
  ("Line 25c", "topmostSubform[0].Page2[0].f2_19[0]");
  ("Line 25d", "topmostSubform[0].Page2[0].f2_20[0]");
  ("Line 26", "topmostSubform[0].Page2[0].f2_21[0]");
  ("Line 27a", "topmostSubform[0].Page2[0].f2_23[0]");
  ("Line 28", "topmostSubform[0].Page2[0].f2_24[0]");
  ("Line 29", "topmostSubform[0].Page2[0].f2_25[0]");
  ("Line 30", "topmostSubform[0].Page2[0].f2_26[0]");
  ("Line 31", "topmostSubform[0].Page2[0].f2_27[0]");
  ("Line 32", "topmostSubform[0].Page2[0].f2_28[0]");
  ("Line 33", "topmostSubform[0].Page2[0].f2_29[0]");
  ("Line 34", "topmostSubform[0].Page2[0].f2_30[0]");
  ("Line 35a", "topmostSubform[0].Page2[0].f2_31[0]");
  ("Line 36", "topmostSubform[0].Page2[0].f2_34[0]");
  ("Line 37", "topmostSubform[0].Page2[0].f2_35[0]");
  ("Line 38", "topmostSubform[0].Page2[0].f2_36[0]")
].

Definition f1040Mappings : Js.Obj FieldMapping := [("2025", f1040_2025)].

(** [f1040Mappings[year] || f1040Mappings[2025]]: a number used as a
    property key is converted to its text. *)
Definition getF1040Mapping (year : number) : FieldMapping :=
  match Js.get f1040Mappings (toString year) with
  | Some mapping => mapping
  | None => f1040_2025
  end.

(** *** Form 8949 *)

(** The type ['st' | 'lt'] of the prefix of a logical cell key. *)
Inductive TypePrefix : Type := st | lt.

Definition prefixText (p : TypePrefix) : string :=
  match p with st => "st" | lt => "lt" end.

(** [`${typePrefix}_r${i}_c${j}`] and the keys of the four totals. *)
Definition rowKey (p : TypePrefix) (i j : nat) : string :=
  prefixText p ++ "_r" ++ Js.string_of_nat i ++ "_c" ++ Js.string_of_nat j.

Definition totalKey (p : TypePrefix) (name : string) : string :=
  prefixText p ++ "_total_" ++ name.

(** The physical field of row [i], column [j], as the short-term and the
    long-term loops of [generateF8949Mapping] build it. *)
Definition rowField (p : TypePrefix) (i j : nat) : string :=
  let fieldNum := 8 * i + j + 3 in
  let paddedNum :=
    if fieldNum <? 10 then "0" ++ Js.string_of_nat fieldNum
    else Js.string_of_nat fieldNum in
  match p with
  | st =>
      "topmostSubform[0].Page1[0].Table_Line1_Part1[0].Row"
        ++ Js.string_of_nat (i + 1) ++ "[0].f1_" ++ paddedNum ++ "[0]"
  | lt =>
      "topmostSubform[0].Page2[0].Table_Line1_Part2[0].Row"
        ++ Js.string_of_nat (i + 1) ++ "[0].f2_" ++ paddedNum ++ "[0]"
  end.

(** [for (let j = 0; j < 8; j++) mapping[...] = ...], then the loop on [i]. *)
Definition columnsLoop (p : TypePrefix) (i : nat) (mapping : FieldMapping)
  : FieldMapping :=
  fold_left (fun m j => Js.set m (rowKey p i j) (rowField p i j))
    (seq 0 8) mapping.

Definition rowsLoop (p : TypePrefix) (mapping : FieldMapping) : FieldMapping :=
  fold_left (fun m i => columnsLoop p i m) (seq 0 14) mapping.

Definition generateF8949Mapping : FieldMapping :=
  let mapping := Js.empty in
  let mapping := rowsLoop st mapping in
  let mapping := Js.set mapping "st_total_proceed" "topmostSubform[0].Page1[0].f1_91[0]" in
  let mapping := Js.set mapping "st_total_cost" "topmostSubform[0].Page1[0].f1_92[0]" in
  let mapping := Js.set mapping "st_total_adj" "topmostSubform[0].Page1[0].f1_94[0]" in
  let mapping := Js.set mapping "st_total_gl" "topmostSubform[0].Page1[0].f1_95[0]" in
  let mapping := rowsLoop lt mapping in
  let mapping := Js.set mapping "lt_total_proceed" "topmostSubform[0].Page2[0].f2_91[0]" in
  let mapping := Js.set mapping "lt_total_cost" "topmostSubform[0].Page2[0].f2_92[0]" in
  let mapping := Js.set mapping "lt_total_adj" "topmostSubform[0].Page2[0].f2_94[0]" in
  let mapping := Js.set mapping "lt_total_gl" "topmostSubform[0].Page2[0].f2_95[0]" in
  mapping.

Definition f8949_2025 : FieldMapping := generateF8949Mapping.

Definition f8949Mappings : Js.Obj FieldMapping := [("2025", f8949_2025)].

Definition getF8949Mapping (year : number) : FieldMapping :=
  match Js.get f8949Mappings (toString year) with
  | Some mapping => mapping
  | None => f8949_2025
  end.

End Mappings.
End Mappings.

(** ** parsers/F8949Parser.ts *)

Module F8949Parser.
Section F8949Parser.

Import Mappings.
Import FormParser.

Context {number : Type} {host : Host number}.

Record CapitalTransaction : Type := {
  quantity : number;
  name : string;
  purchaseDate : string;
  sellDate : string;
  purchasePrice : number;
  sellPrice : number;
  code : string;
  adjustment : number;
  isShortTerm : bool
}.

Definition MAX_ROWS_PER_FORM : nat := 14.
Definition ONE_YEAR_MS : Z := (365 * 24 * 60 * 60 * 1000)%Z.

Definition EXPECTED_HEADERS : Js.Obj (list string) := [
  ("quantity", ["quantity"; "qty"; "shares"; "units"]);
  ("name", ["name"; "description"; "security"; "asset"]);
  ("purchaseDate", ["purchase date"; "acquired"; "buy date"; "date acquired"]);
  ("sellDate", ["sell date"; "sold"; "sale date"; "date sold"]);
  ("purchasePrice", ["purchase price"; "cost basis"; "basis"; "cost"]);
  ("sellPrice", ["sell price"; "proceeds"; "sale price"; "sales proceeds"]);
  ("code", ["code"; "code(s)"; "codes"]);
  ("adjustment", ["adjustment"; "amount of adjustment"; "adj"])
].

Definition canParse (sheetName : string) : bool :=
  orb (String.eqb (Js.toLowerCase sheetName) "f8949")
      (String.eqb (Js.toLowerCase sheetName) "8949").

Definition getFormConfig : string * string :=
  ("f8949", "Form 8949 - Sales and Dispositions of Capital Assets").

(** *** detectColumns *)

(** The test of a column header against the known headers of a role. *)
Definition headerMatches (possibleHeaders : list string) (col : string) : bool :=
  let normalized := Js.trim (Js.toLowerCase col) in
  existsb (fun ph => orb (Js.includes normalized ph) (Js.includes ph normalized))
    possibleHeaders.

Definition findColumn (firstRow : ExcelRow number) (key : string) : option string :=
  let possibleHeaders :=
    match Js.get EXPECTED_HEADERS key with Some l => l | None => [] end in
  find (headerMatches possibleHeaders) (Js.keys firstRow).

(** [if (found)]: the header found is a string that is not empty. *)
Definition foundColumn (found : option string) : option string :=
  match found with
  | Some col => if String.eqb col "" then None else Some col
  | None => None
  end.

Definition requiredColumns : list string :=
  ["quantity"; "name"; "purchaseDate"; "sellDate"; "purchasePrice"; "sellPrice"].

Definition optionalColumns : list string := ["code"; "adjustment"].

(** The loop on the required columns; [None] is [return null]. *)
Fixpoint requiredLoop (firstRow : ExcelRow number) (roles : list string)
    (columnMap : Js.Obj string) : option (Js.Obj string) :=
  match roles with
  | [] => Some columnMap
  | key :: roles' =>
      match foundColumn (findColumn firstRow key) with
      | Some found => requiredLoop firstRow roles' (Js.set columnMap key found)
      | None => None
      end
  end.

Definition optionalLoop (firstRow : ExcelRow number) (roles : list string)
    (columnMap : Js.Obj string) : Js.Obj string :=
  fold_left
    (fun columnMap key =>
       match foundColumn (findColumn firstRow key) with
       | Some found => Js.set columnMap key found
       | None => columnMap
       end)
    roles columnMap.

Definition detectColumns (firstRow : ExcelRow number) : option (Js.Obj string) :=
  match requiredLoop firstRow requiredColumns Js.empty with
  | Some columnMap => Some (optionalLoop firstRow optionalColumns columnMap)
  | None => None
  end.

(** *** Dates and the holding period *)

(** [new Date(value)] for a cell that is neither a [Date] nor a number;
    an object is first turned into its text. *)
Definition newDate (value : Value number) : Js.TimeValue :=
  match value with
  | VString s => Date_parse s
  | VNull => Js.TimeClip 0
  | VMember m => Date_parse (memberText m)
  | _ => None
  end.

Definition parseDate (value : Value number) : Js.TimeValue :=
  match value with
  | VDate d => d
  | VNumber n => dateOfSerial n
  | _ => newDate value
  end.

(** [sellDate.getTime() - purchaseDate.getTime()]; NaN when either date is
    invalid.  Both time values are integers of at most 8.64e15 in absolute
    value, so rounding the difference cannot change how it compares with
    [ONE_YEAR_MS]. *)
Definition timeDifference (sellDate purchaseDate : Js.TimeValue) : option Z :=
  match sellDate, purchaseDate with
  | Some s, Some p => Some (s - p)%Z
  | _, _ => None
  end.

Definition isShortTermGain (purchaseDate sellDate : Js.TimeValue) : bool :=
  match timeDifference sellDate purchaseDate with
  | Some diffMs => (diffMs <? ONE_YEAR_MS)%Z
  | None => false
  end.

(** *** parseTransactions *)

(** [row[columnMap.role]]. *)
Definition column (columnMap : Js.Obj string) (row : ExcelRow number)
    (role : string) : Value number :=
  cell row (Js.propertyKey (Js.get columnMap role)).

(** The body of the [try] block.  With the cells modelled nothing in it
    throws, so the [catch] branch is never taken. *)
Definition transactionOfRow (columnMap : Js.Obj string) (row : ExcelRow number)
  : CapitalTransaction :=
  let purchaseDate := parseDate (column columnMap row "purchaseDate") in
  let sellDate := parseDate (column columnMap row "sellDate") in
  let isShortTerm := isShortTermGain purchaseDate sellDate in
  {| quantity := parseNumber (column columnMap row "quantity") (lit 0);
     name := String_ (orElse (column columnMap row "name") (VString ""));
     purchaseDate := formatDate (column columnMap row "purchaseDate");
     sellDate := formatDate (column columnMap row "sellDate");
     purchasePrice := parseNumber (column columnMap row "purchasePrice") (lit 0);
     sellPrice := parseNumber (column columnMap row "sellPrice") (lit 0);
     code := String_ (orElse (column columnMap row "code") (VString ""));
     adjustment :=
       parseNumber (orElse (column columnMap row "adjustment") (VNumber (lit 0)))
         (lit 0);
     isShortTerm := isShortTerm |}.

(** [for (const row of rows)], with [transactions] the array built so far. *)
Fixpoint transactionsLoop (columnMap : Js.Obj string)
    (rows : list (ExcelRow number)) (transactions : list CapitalTransaction)
  : list CapitalTransaction :=
  match rows with
  | [] => transactions
  | row :: rows' =>
      if isEmpty (column columnMap row "quantity")
      then transactionsLoop columnMap rows' transactions
      else transactionsLoop columnMap rows'
             (transactions ++ [transactionOfRow columnMap row])%list
  end.

(** [None]: the [TypeError] of [Object.keys(undefined)] when there is no
    first row. *)
Definition parseTransactions (rows : list (ExcelRow number))
  : option (list CapitalTransaction) :=
  match rows with
  | [] => None
  | firstRow :: _ =>
      match detectColumns firstRow with
      | None => Some []
      | Some columnMap => Some (transactionsLoop columnMap rows [])
      end
  end.

(** *** chunkTransactions *)

Record Totals : Type := {
  totalProceeds : number;
  totalCost : number;
  totalGainLoss : number;
  totalAdjustment : number
}.

(** [formData[mapping[key]] = value]. *)
Definition put (mapping : FieldMapping) (formData : VariableMap number)
    (key : string) (value : Value number) : VariableMap number :=
  Js.set formData (Js.propertyKey (Js.get mapping key)) value.

(** The callback of [chunk.forEach]. *)
Definition rowStep (typePrefix : TypePrefix) (mapping : FieldMapping)
    (state : VariableMap number * Totals) (idx : nat)
    (transaction : CapitalTransaction) : VariableMap number * Totals :=
  let (formData, totals) := state in
  let gainLoss :=
    sub (sub (sellPrice transaction) (purchasePrice transaction))
      (adjustment transaction) in
  let col0Value :=
    toString (quantity transaction) ++ " sh. " ++ name transaction in
  let formData := put mapping formData (rowKey typePrefix idx 0) (VString col0Value) in
  let formData :=
    put mapping formData (rowKey typePrefix idx 1) (VString (purchaseDate transaction)) in
  let formData :=
    put mapping formData (rowKey typePrefix idx 2) (VString (sellDate transaction)) in
  let formData :=
    put mapping formData (rowKey typePrefix idx 3) (VNumber (sellPrice transaction)) in
  let formData :=
    put mapping formData (rowKey typePrefix idx 4) (VNumber (purchasePrice transaction)) in
  let formData :=
    if String.eqb (code transaction) "" then formData
    else put mapping formData (rowKey typePrefix idx 5) (VString (code transaction)) in
  let formData :=
    put mapping formData (rowKey typePrefix idx 6) (VNumber (adjustment transaction)) in
  let formData := put mapping formData (rowKey typePrefix idx 7) (VNumber gainLoss) in
  (formData,
   {| totalProceeds := add (totalProceeds totals) (sellPrice transaction);
      totalCost := add (totalCost totals) (purchasePrice transaction);
      totalGainLoss := add (totalGainLoss totals) gainLoss;
      totalAdjustment := add (totalAdjustment totals) (adjustment transaction) |}).

Fixpoint forEach (typePrefix : TypePrefix) (mapping : FieldMapping)
    (chunk : list CapitalTransaction) (idx : nat)
    (state : VariableMap number * Totals) : VariableMap number * Totals :=
  match chunk with
  | [] => state
  | transaction :: chunk' =>
      forEach typePrefix mapping chunk' (S idx)
        (rowStep typePrefix mapping state idx transaction)
  end.

(** The body of the [for] loop: the field map of one chunk. *)
Definition formOfChunk (typePrefix : TypePrefix) (mapping : FieldMapping)
    (chunk : list CapitalTransaction) : VariableMap number :=
  let zero :=
    {| totalProceeds := lit 0; totalCost := lit 0;
       totalGainLoss := lit 0; totalAdjustment := lit 0 |} in
  let (formData, totals) := forEach typePrefix mapping chunk 0 (Js.empty, zero) in
  let formData :=
    put mapping formData (totalKey typePrefix "proceed") (VNumber (totalProceeds totals)) in
  let formData :=
    put mapping formData (totalKey typePrefix "cost") (VNumber (totalCost totals)) in
  let formData :=
    put mapping formData (totalKey typePrefix "gl") (VNumber (totalGainLoss totals)) in
  let formData :=
    put mapping formData (totalKey typePrefix "adj") (VNumber (totalAdjustment totals)) in
  formData.

(** [for (let i = 0; i < transactions.length; i += MAX_ROWS_PER_FORM)];
    every turn moves [i] forward, so [transactions.length] turns are
    enough fuel. *)
Fixpoint chunkLoop (fuel i : nat) (transactions : list CapitalTransaction)
    (typePrefix : TypePrefix) (mapping : FieldMapping)
    (chunks : list (VariableMap number)) : list (VariableMap number) :=
  match fuel with
  | 0 => chunks
  | S fuel' =>
      if i <? List.length transactions then
        let chunk := Js.slice i (i + MAX_ROWS_PER_FORM) transactions in
        let formData := formOfChunk typePrefix mapping chunk in
        chunkLoop fuel' (i + MAX_ROWS_PER_FORM) transactions typePrefix mapping
          (chunks ++ [formData])%list
      else chunks
  end.

Definition chunkTransactions (transactions : list CapitalTransaction)
    (typePrefix : TypePrefix) (mapping : FieldMapping)
  : list (VariableMap number) :=
  chunkLoop (List.length transactions) 0 transactions typePrefix mapping [].

(** *** combineForms *)

(** [forms[i] || {}]. *)
Definition formAt (forms : list (VariableMap number)) (i : nat)
  : VariableMap number :=
  match nth_error forms i with
  | Some formData => formData
  | None => Js.empty
  end.

Definition combineForms (shortTermForms longTermForms : list (VariableMap number))
  : FormsData number :=
  let totalForms := Nat.max (List.length shortTermForms) (List.length longTermForms) in
  fold_left
    (fun result i =>
       Js.set result ("f8949_" ++ Js.string_of_nat (i + 1))
         (Js.spread (formAt shortTermForms i) (formAt longTermForms i)))
    (seq 0 totalForms) Js.empty.

(** *** validate *)

Definition negativeProceeds (formId : string) (entry : string * Value number)
  : list Issue :=
  let (key, value) := entry in
  if andb (Js.includes key "_c3")
          (match value with VNumber n => ltb n (lit 0) | _ => false end)
  then [{| field := formId ++ "." ++ key;
           message := "Negative proceeds amount detected" |}]
  else [].

Definition formWarnings (entry : string * VariableMap number) : list Issue :=
  let (formId, formData) := entry in
  ((if List.length (Js.keys formData) =? 0
    then [{| field := formId; message := "Form has no data" |}]
    else [])
   ++ flat_map (negativeProceeds formId) formData)%list.

Definition validate (data : FormsData number) : ValidationResult :=
  let errors :=
    if List.length (Js.keys data) =? 0
    then [{| field := "forms"; message := "No forms generated" |}]
    else [] in
  let warnings := flat_map formWarnings data in
  createValidationResult (List.length errors =? 0) errors warnings.

(** *** parse *)

(** [None]: an exception leaves [parse]. *)
Definition parse (rows : list (ExcelRow number)) (options : ParseOptions number)
  : option (ParseResult number) :=
  if List.length rows =? 0 then
    Some (createParseResult [] Js.empty
            (createValidationResult false
               [{| field := "sheet"; message := "No data found in sheet" |}] []))
  else
    match parseTransactions rows with
    | None => None
    | Some transactions =>
        if List.length transactions =? 0 then
          Some (createParseResult [] Js.empty
                  (createValidationResult false
                     [{| field := "data"; message := "No valid transactions found" |}]
                     []))
        else
          let shortTerm := filter (fun t => isShortTerm t) transactions in
          let longTerm := filter (fun t => negb (isShortTerm t)) transactions in
          let mapping := getF8949Mapping (year options) in
          let shortTermForms := chunkTransactions shortTerm st mapping in
          let longTermForms := chunkTransactions longTerm lt mapping in
          let formsData := combineForms shortTermForms longTermForms in
          let formIds := Js.keys formsData in
          let validation :=
            if Types.validate options then validate formsData
            else createValidationResult true [] [] in
          Some (createParseResult formIds formsData validation)
    end.

End F8949Parser.

Arguments CapitalTransaction : clear implicits.
Arguments Totals : clear implicits.

End F8949Parser.

(** ** parsers/F1040Parser.ts *)

Module F1040Parser.
Section F1040Parser.

Import Mappings.
Import FormParser.

Context {number : Type} {host : Host number}.

Definition canParse (sheetName : string) : bool :=
  orb (String.eqb (Js.toLowerCase sheetName) "f1040")
      (String.eqb (Js.toLowerCase sheetName) "1040").

Definition getFormConfig : string * string :=
  ("f1040", "Form 1040 - U.S. Individual Income Tax Return").

Definition looksLikeHeader (row : ExcelRow number) : bool :=
  let keys := Js.keys row in
  let hasProperKeys :=
    existsb (fun k => orb (String.eqb (Js.toLowerCase k) "variable")
                          (String.eqb (Js.toLowerCase k) "value")) keys in
  if hasProperKeys then false
  else
    match Js.values row with
    | VString firstValue :: _ =>
        let normalized := Js.trim (Js.toLowerCase firstValue) in
        existsb (fun h => Js.includes normalized h)
          ["variable"; "field"; "line"; "item"]
    | _ => false
    end.

Definition hasColumns (row : ExcelRow number) (expectedColumns : list string)
  : bool :=
  let keys := map (fun k => Js.trim (Js.toLowerCase k)) (Js.keys row) in
  forallb (fun col => existsb (fun k => orb (Js.includes k col) (Js.includes col k)) keys)
    expectedColumns.

(** [const mappedKey = mapping[String(variable)];
    if (mappedKey && !this.isEmpty(value)) fieldValues[mappedKey] = value].
    The mapping is a plain object: for a variable that is the name of a
    property of [Object.prototype], [mappedKey] is that member, which is
    truthy, and the value is stored under its text. *)
Definition store (mapping : FieldMapping) (fieldValues : VariableMap number)
    (variable value : Value number) : VariableMap number :=
  match Js.lookup mapping (String_ variable) with
  | Js.Own mappedKey =>
      if andb (negb (String.eqb mappedKey "")) (negb (isEmpty value))
      then Js.set fieldValues mappedKey value
      else fieldValues
  | Js.Inherited m =>
      if negb (isEmpty value)
      then Js.set fieldValues (memberText m) value
      else fieldValues
  | Js.Absent => fieldValues
  end.

(** The loop of [parseColumnFormat]: [continue] goes on with the rest,
    [break] returns the field values as they are. *)
Fixpoint columnLoop (variableCol valueCol : string) (mapping : FieldMapping)
    (skipEmptyRows : bool) (rows : list (ExcelRow number))
    (fieldValues : VariableMap number) : VariableMap number :=
  match rows with
  | [] => fieldValues
  | row :: rows' =>
      let variable := cell row variableCol in
      let value := cell row valueCol in
      if isEmpty variable then
        if skipEmptyRows
        then columnLoop variableCol valueCol mapping skipEmptyRows rows' fieldValues
        else fieldValues
      else
        columnLoop variableCol valueCol mapping skipEmptyRows rows'
          (store mapping fieldValues variable value)
  end.

(** [if (found)] for the result of [headers.find]. *)
Definition nonEmpty (found : option string) : option string :=
  match found with
  | Some col => if String.eqb col "" then None else Some col
  | None => None
  end.

(** The field values after the call; the source updates them in place. *)
Definition parseColumnFormat (rows : list (ExcelRow number))
    (mapping : FieldMapping) (fieldValues : VariableMap number)
    (skipEmptyRows : bool) : VariableMap number :=
  match rows with
  | [] => fieldValues
  | firstRow :: _ =>
      let headers := Js.keys firstRow in
      let variableCol :=
        find (fun h => orb (Js.includes (Js.toLowerCase h) "variable")
                      (orb (Js.includes (Js.toLowerCase h) "field")
                           (Js.includes (Js.toLowerCase h) "line"))) headers in
      let valueCol :=
        find (fun h => orb (Js.includes (Js.toLowerCase h) "value")
                           (Js.includes (Js.toLowerCase h) "amount")) headers in
      match nonEmpty variableCol, nonEmpty valueCol with
      | Some variableCol, Some valueCol =>
          columnLoop variableCol valueCol mapping skipEmptyRows rows fieldValues
      | _, _ => fieldValues
      end
  end.

(** The loop of [parseSimpleFormat]. *)
Fixpoint simpleLoop (variableCol valueCol : string) (mapping : FieldMapping)
    (rows : list (ExcelRow number)) (fieldValues : VariableMap number)
  : VariableMap number :=
  match rows with
  | [] => fieldValues
  | row :: rows' =>
      let variable := cell row variableCol in
      let value := cell row valueCol in
      if isEmpty variable then fieldValues
      else
        simpleLoop variableCol valueCol mapping rows'
          (store mapping fieldValues variable value)
  end.

Definition parseSimpleFormat (rows : list (ExcelRow number))
    (mapping : FieldMapping) (fieldValues : VariableMap number)
  : VariableMap number :=
  let headers :=
    Js.keys (match rows with firstRow :: _ => firstRow | [] => Js.empty end) in
  match headers with
  | variableCol :: valueCol :: _ =>
      simpleLoop variableCol valueCol mapping rows fieldValues
  | _ => fieldValues
  end.

Definition requiredFields : list string :=
  ["topmostSubform[0].Page1[0].f1_32[0]"].

Definition validate (data : FormsData number) : ValidationResult :=
  match Js.get data "f1040" with
  | Some formData =>
      if List.length (Js.keys formData) =? 0 then
        createValidationResult false
          [{| field := "f1040"; message := "No data found for Form 1040" |}] []
      else
        let warnings :=
          flat_map
            (fun field =>
               if isEmpty (cell formData field)
               then [{| field := field; message := "Required field is empty" |}]
               else [])
            requiredFields in
        createValidationResult true [] warnings
  | None =>
      createValidationResult false
        [{| field := "f1040"; message := "No data found for Form 1040" |}] []
  end.

Definition parse (rows : list (ExcelRow number)) (options : ParseOptions number)
  : option (ParseResult number) :=
  match rows with
  | [] =>
      Some (createParseResult [] Js.empty
              (createValidationResult false
                 [{| field := "sheet"; message := "No data found in sheet" |}] []))
  | firstRow :: rest =>
      let mapping := getF1040Mapping (year options) in
      let fieldValues := Js.empty in
      let hasHeader := looksLikeHeader firstRow in
      let dataRows := if hasHeader then rest else rows in
      let fieldValues :=
        if andb hasHeader (hasColumns firstRow ["variable"; "value"])
        then parseColumnFormat dataRows mapping fieldValues (skipEmptyRows options)
        else parseSimpleFormat dataRows mapping fieldValues in
      let formsData := Js.set Js.empty "f1040" fieldValues in
      let validation :=
        if Types.validate options then validate formsData
        else createValidationResult true [] [] in
      Some (createParseResult ["f1040"] formsData validation)
  end.

End F1040Parser.
End F1040Parser.

(** ** parsers/ParserRegistry.ts *)

(** The public interface of the abstract class [FormParser]. *)
Module Parser.
Section Parser.

Variable number : Type.

Record t : Type := {
  canParse : string -> bool;
  parse : list (ExcelRow number) -> ParseOptions number -> option (ParseResult number);
  getFormConfig : string * string
}.

End Parser.
End Parser.

Module ParserRegistry.
Section ParserRegistry.

Context {number : Type} {host : Host number}.

Definition f8949Parser : Parser.t number :=
  {| Parser.canParse := F8949Parser.canParse;
     Parser.parse := F8949Parser.parse;
     Parser.getFormConfig := F8949Parser.getFormConfig |}.

Definition f1040Parser : Parser.t number :=
  {| Parser.canParse := F1040Parser.canParse;
     Parser.parse := F1040Parser.parse;
     Parser.getFormConfig := F1040Parser.getFormConfig |}.

(** The parsers the constructor registers, in its order. *)
Definition parsers : list (Parser.t number) := [f8949Parser; f1040Parser].

Definition findParser (sheetName : string) : option (Parser.t number) :=
  find (fun p => Parser.canParse p sheetName) parsers.

Definition parse (sheetName : string) (rows : list (ExcelRow number))
    (options : ParseOptions number) : option (ParseResult number) :=
  match findParser sheetName with
  | None =>
      Some {| formIds := [];
              formsData := Js.empty;
              validation :=
                {| isValid := false;
                   errors :=
                     [{| issue :=
                           {| field := "sheet";
                              message := "No parser found for sheet: " ++ sheetName |};
                         severity := error |}];
                   warnings := [] |} |}
  | Some parser => Parser.parse parser rows options
  end.

Definition getSupportedForms : list (string * string) :=
  map (@Parser.getFormConfig number) parsers.

End ParserRegistry.
End ParserRegistry.

(** ** services/ExcelParserService.ts *)

(** [Partial<ParseOptions>]: [None] is an absent option. *)
Module PartialOptions.
Section PartialOptions.

Variable number : Type.

Record t : Type := {
  year : option number;
  validate : option bool;
  skipEmptyRows : option bool
}.

End PartialOptions.
End PartialOptions.

Module ExcelParserService.
Section ExcelParserService.

Context {number : Type} {host : Host number}.

Record ExcelParseResult : Type := {
  formsData : FormsData number;
  validation : ValidationResult;
  sheetsProcessed : list string;
  sheetsFailed : list string
}.

(** [{ year: 2025, validate: true, skipEmptyRows: true, ...options }]. *)
Definition defaultOptions (options : PartialOptions.t number) : ParseOptions number :=
  {| Types.year :=
       match PartialOptions.year options with Some y => y | None => lit 2025 end;
     Types.validate :=
       match PartialOptions.validate options with Some v => v | None => true end;
     Types.skipEmptyRows :=
       match PartialOptions.skipEmptyRows options with Some s => s | None => true end |}.

(** What the loop over the sheets builds. *)
Record State : Type := {
  allFormsData : FormsData number;
  processed : list string;
  failed : list string;
  allErrors : list ValidationIssue;
  allWarnings : list ValidationIssue
}.

(** The message of the only exception of the model, the [TypeError] of
    [Object.keys(undefined)]. *)
Definition errorMessage : string := "Cannot convert undefined or null to object".

(** One turn of [for (const sheetName of workbook.SheetNames)], for a sheet
    whose records [XLSX.utils.sheet_to_json] has returned. *)
Definition sheetStep (defaultOptions : ParseOptions number) (state : State)
    (sheet : string * list (ExcelRow number)) : State :=
  let (sheetName, rows) := sheet in
  if List.length rows =? 0 then state
  else
    match ParserRegistry.parse sheetName rows defaultOptions with
    | Some result =>
        {| allFormsData := Js.assign (allFormsData state) (Types.formsData result);
           processed :=
             if 0 <? List.length (formIds result)
             then (processed state ++ [sheetName])%list
             else processed state;
           failed := failed state;
           allErrors := (allErrors state ++ errors (Types.validation result))%list;
           allWarnings := (allWarnings state ++ warnings (Types.validation result))%list |}
    | None =>
        {| allFormsData := allFormsData state;
           processed := processed state;
           failed := (failed state ++ [sheetName])%list;
           allErrors :=
             (allErrors state ++
              [{| issue :=
                    {| field := sheetName;
                       message := "Failed to parse sheet: " ++ errorMessage |};
                  severity := error |}])%list;
           allWarnings := allWarnings state |}
    end.

(** [parseFile], from the workbook as [XLSX.read] gives it: the sheets in
    the order of [workbook.SheetNames], each with its records. *)
Definition parseFile (workbook : list (string * list (ExcelRow number)))
    (options : PartialOptions.t number) : ExcelParseResult :=
  let state :=
    fold_left (sheetStep (defaultOptions options)) workbook
      {| allFormsData := Js.empty; processed := []; failed := [];
         allErrors := []; allWarnings := [] |} in
  {| formsData := allFormsData state;
     validation :=
       {| isValid := List.length (allErrors state) =? 0;
          errors := allErrors state;
          warnings := allWarnings state |};
     sheetsProcessed := processed state;
     sheetsFailed := failed state |}.

End ExcelParserService.
End ExcelParserService.

(** ** services/PdfService.ts *)

Module PdfService.

(** [s.split(c)[0]]: the text before the first [c]. *)
Fixpoint firstPart (c : ascii) (s : string) : string :=
  match s with
  | EmptyString => EmptyString
  | String a s' => if Ascii.eqb a c then EmptyString else String a (firstPart c s')
  end.

Fixpoint hasChar (c : ascii) (s : string) : bool :=
  match s with
  | EmptyString => false
  | String a s' => orb (Ascii.eqb a c) (hasChar c s')
  end.

(** [s.split(c).pop()]: the text after the last [c]. *)
Fixpoint lastPart (c : ascii) (s : string) : string :=
  match s with
  | EmptyString => EmptyString
  | String a s' =>
      if hasChar c s' then lastPart c s'
      else if Ascii.eqb a c then s' else s
  end.

Fixpoint dropChars (n : nat) (s : string) : string :=
  match n, s with
  | S n', String _ s' => dropChars n' s'
  | _, _ => s
  end.

(** [s.replace(pattern, '')] for a pattern that is a string: the first
    occurrence is removed. *)
Fixpoint removeFirst (pattern s : string) : string :=
  if String.prefix pattern s then dropChars (String.length pattern) s
  else match s with
       | EmptyString => EmptyString
       | String a s' => String a (removeFirst pattern s')
       end.

Definition getPdfPath (formId basePath : string) : string :=
  let baseFormId := firstPart "_" formId in
  basePath ++ "/" ++ baseFormId ++ ".pdf".

Definition extractFormId (pdfPath : string) : string :=
  let fileName :=
    match lastPart "/" pdfPath with
    | EmptyString => pdfPath
    | popped => popped
    end in
  removeFirst ".pdf" fileName.

End PdfService.

(** ** Notions used to state the properties *)

Module Spec.

(** *** The calendar, as ECMAScript defines it *)

(** [DayFromYear(y)]: the day number of the first of January of [y]. *)
Definition DayFromYear (y : Z) : Z :=
  (365 * (y - 1970) + (y - 1969) / 4 - (y - 1901) / 100 + (y - 1601) / 400)%Z.

Definition isLeapYear (y : Z) : bool :=
  orb (andb (y mod 4 =? 0)%Z (negb (y mod 100 =? 0)%Z)) (y mod 400 =? 0)%Z.

(** Days of the year before the first of month [m] (1..12). *)
Definition daysBeforeMonth (leap : bool) (m : Z) : Z :=
  (nth (Z.to_nat (m - 1)) [0; 31; 59; 90; 120; 151; 181; 212; 243; 273; 304; 334] 0
   + (if andb leap (2 <? m) then 1 else 0))%Z.

Definition daysInMonth (y m : Z) : Z :=
  (if m =? 2 then (if isLeapYear y then 29 else 28)
   else if orb (m =? 4) (orb (m =? 6) (orb (m =? 9) (m =? 11))) then 30
   else 31)%Z.

(** The day number of the date [y]-[m]-[d]. *)
Definition daysFromCivil (y m d : Z) : Z :=
  (DayFromYear y + daysBeforeMonth (isLeapYear y) m + d - 1)%Z.

(** A triple is a date of the calendar, and it is day number [z]. *)
Definition isDateOfDay (z : Z) (ymd : Z * Z * Z) : bool :=
  let '(y, m, d) := ymd in
  (andb (andb (1 <=? m) (m <=? 12))
     (andb (andb (1 <=? d) (d <=? daysInMonth y m))
        (daysFromCivil y m d =? z)))%Z.

(** [p] holds at [z], [z + 1], ..., for [fuel] integers. *)
Fixpoint allFrom (fuel : nat) (z : Z) (p : Z -> bool) : bool :=
  match fuel with
  | 0 => true
  | S fuel' => if p z then allFrom fuel' (z + 1)%Z p else false
  end.

(** [MM/DD/YYYY]. *)
Definition dateText (ymd : Z * Z * Z) : string :=
  let '(y, m, d) := ymd in
  Js.padStart2 (Js.string_of_Z m) ++ "/" ++ Js.padStart2 (Js.string_of_Z d)
    ++ "/" ++ Js.string_of_Z y.

(** *** Texts *)

(** The UTF-8 form of a code point. *)
Definition utf8 (cp : N) : string :=
  let byte (n : N) := ascii_of_N n in
  let tail (n : N) := byte (128 + n mod 64)%N in
  (if cp <? 128 then String (byte cp) ""
   else if cp <? 2048 then String (byte (192 + cp / 64)) (String (tail cp) "")
   else if cp <? 65536 then
     String (byte (224 + cp / 4096)) (String (tail (cp / 64)) (String (tail cp) ""))
   else
     String (byte (240 + cp / 262144))
       (String (tail (cp / 4096)) (String (tail (cp / 64)) (String (tail cp) ""))))%N.

(** The code points of [WhiteSpace] and [LineTerminator] in ECMAScript:
    TAB, LF, VT, FF, CR, SPACE, NO-BREAK SPACE, the other space separators
    of Unicode, LINE and PARAGRAPH SEPARATOR and the byte order mark. *)
Definition whiteSpace : list N :=
  [0x9; 0xA; 0xB; 0xC; 0xD; 0x20; 0xA0; 0x1680;
   0x2000; 0x2001; 0x2002; 0x2003; 0x2004; 0x2005; 0x2006; 0x2007; 0x2008;
   0x2009; 0x200A; 0x2028; 0x2029; 0x202F; 0x205F; 0x3000; 0xFEFF]%N.

(** A text of white space only. *)
Inductive Blank : string -> Prop :=
| Blank_empty : Blank ""
| Blank_space : forall cp s, In cp whiteSpace -> Blank s -> Blank (utf8 cp ++ s).

(** [sub] occurs in [s]. *)
Definition Within (sub s : string) : Prop := exists a b, s = a ++ sub ++ b.

(** [t] is [s] without the white space at its two ends. *)
Definition Trimmed (s t : string) : Prop :=
  (exists a b, Blank a /\ Blank b /\ s = a ++ t ++ b) /\
  forall cp r, In cp whiteSpace -> t <> utf8 cp ++ r /\ t <> r ++ utf8 cp.

(** *** Chunks *)

(** The slices the loop of [chunkTransactions] takes from index [i] on. *)
Fixpoint slicesFrom {A} (fuel i : nat) (l : list A) : list (list A) :=
  match fuel with
  | 0 => []
  | S fuel' =>
      if i <? List.length l
      then Js.slice i (i + 14) l :: slicesFrom fuel' (i + 14) l
      else []
  end.

(** The key of document instance [i]. *)
Definition instanceKey (i : nat) : string := "f8949_" ++ Js.string_of_nat i.

(** The logical cell keys of a prefix: 14 rows of 8 columns and 4 totals. *)
Definition logicalKeys (p : Mappings.TypePrefix) : list string :=
  (flat_map (fun i => map (fun j => Mappings.rowKey p i j) (seq 0 8)) (seq 0 14)
   ++ map (Mappings.totalKey p) ["proceed"; "cost"; "gl"; "adj"])%list.

(** The physical fields a mapping sends keys to. *)
Definition fieldsOf (mapping : FieldMapping) (keys : list string) : list string :=
  map (fun key => Js.propertyKey (Js.get mapping key)) keys.

Section Sums.

Context {number : Type} {host : Host number}.

(** The sum of [f] over a list, added up from 0 in the order of the list. *)
Definition sumOver {A} (f : A -> number) (l : list A) : number :=
  fold_left (fun acc x => add acc (f x)) l (lit 0).

Definition gainLoss (t : F8949Parser.CapitalTransaction number) : number :=
  sub (sub (F8949Parser.sellPrice t) (F8949Parser.purchasePrice t))
    (F8949Parser.adjustment t).

(** A record is empty when every cell of it is. *)
Definition emptyRecord (row : ExcelRow number) : bool :=
  forallb (fun v => FormParser.isEmpty v) (Js.values row).

(** Two runs of a parser both return, with the same form ids and the same
    forms data. *)
Definition sameForms (run run' : option (ParseResult number)) : Prop :=
  exists r r',
    run = Some r /\ run' = Some r' /\
    formIds r = formIds r' /\ formsData r = formsData r'.

End Sums.

End Spec.

(** ** Sample inputs, on the integer host *)

Module Samples.

Definition options (validate skipEmptyRows : bool) : ParseOptions IntegerHost.number :=
  {| year := Some 2025%Z; Types.validate := validate; skipEmptyRows := skipEmptyRows |}.

(** A record of a capital-transactions sheet. *)
Definition sale (quantity name : string) (acquired sold : Z) (cost proceeds : string)
  : ExcelRow IntegerHost.number :=
  [("Quantity", VString quantity); ("Name", VString name);
   ("Purchase Date", VNumber (Some acquired)); ("Sell Date", VNumber (Some sold));
   ("Purchase Price", VString cost); ("Sell Price", VString proceeds)].

(** Bought on 2024-01-01; sold after 364 days, not at all (no quantity),
    and after 367 days. *)
Definition sales : list (ExcelRow IntegerHost.number) :=
  [sale "10" "ACME" 45292 45656 "$1,000" "$1,500";
   sale "" "note" 45292 45656 "" "";
   sale "5" "INIT" 45292 45659 "200" "100"].

Definition held (shortTerm : bool) : F8949Parser.CapitalTransaction IntegerHost.number :=
  {| F8949Parser.quantity := Some 1%Z;
     F8949Parser.name := "ACME";
     F8949Parser.purchaseDate := "01/01/2024";
     F8949Parser.sellDate := if shortTerm then "12/30/2024" else "01/02/2025";
     F8949Parser.purchasePrice := Some 100%Z;
     F8949Parser.sellPrice := Some 150%Z;
     F8949Parser.code := "";
     F8949Parser.adjustment := Some 0%Z;
     F8949Parser.isShortTerm := shortTerm |}.

(** The instances of 15 short-term sales (two chunks) and one long-term
    sale (one chunk). *)
Definition twoAndOne : FormsData IntegerHost.number :=
  let mapping := Mappings.getF8949Mapping (Some 2025%Z) in
  F8949Parser.combineForms
    (F8949Parser.chunkTransactions (repeat (held true) 15) Mappings.st mapping)
    (F8949Parser.chunkTransactions (repeat (held false) 1) Mappings.lt mapping).

(** The keys of an instance that are fields of the given page. *)
Definition fieldsOnPage (page : string) (formsData : FormsData IntegerHost.number)
    (instance : string) : list string :=
  match Js.get formsData instance with
  | Some form => filter (fun k => Js.includes k page) (Js.keys form)
  | None => []
  end.

End Samples.

(** ** Notions used to state further properties *)

Module Layout.

(** [l'] is [l] with some elements left out. *)
Inductive Subseq {A : Type} : list A -> list A -> Prop :=
| Subseq_nil : Subseq [] []
| Subseq_skip : forall x l' l, Subseq l' l -> Subseq l' (x :: l)
| Subseq_keep : forall x l' l, Subseq l' l -> Subseq (x :: l') (x :: l).

(** [ceil(n / 14)]. *)
Definition pages (n : nat) : nat := (n + 13) / 14.

(** A list has no two equal strings. *)
Fixpoint distinct (l : list string) : bool :=
  match l with
  | [] => true
  | x :: l' => andb (negb (existsb (String.eqb x) l')) (distinct l')
  end.

Section Cells.

Context {number : Type} {host : Host number}.

(** The eight cells of a transaction, column by column; the code cell is
    absent when the code is empty. *)
Definition rowCells (t : F8949Parser.CapitalTransaction number)
  : list (option (Value number)) :=
  [Some (VString (toString (F8949Parser.quantity t) ++ " sh. " ++ F8949Parser.name t));
   Some (VString (F8949Parser.purchaseDate t));
   Some (VString (F8949Parser.sellDate t));
   Some (VNumber (F8949Parser.sellPrice t));
   Some (VNumber (F8949Parser.purchasePrice t));
   (if String.eqb (F8949Parser.code t) "" then None
    else Some (VString (F8949Parser.code t)));
   Some (VNumber (F8949Parser.adjustment t));
   Some (VNumber (Spec.gainLoss t))].

(** The cells that are present, under their logical keys. *)
Definition present (p : Mappings.TypePrefix) (idx : nat)
    (cells : list (option (Value number))) : list (string * Value number) :=
  flat_map
    (fun jc : nat * option (Value number) =>
       match snd jc with
       | Some v => [(Mappings.rowKey p idx (fst jc), v)]
       | None => []
       end)
    (combine (seq 0 (List.length cells)) cells).

(** The cells of the rows of a chunk, the first of them being row [idx]. *)
Fixpoint rowEntries (p : Mappings.TypePrefix) (idx : nat)
    (chunk : list (F8949Parser.CapitalTransaction number))
  : list (string * Value number) :=
  match chunk with
  | [] => []
  | t :: chunk' => (present p idx (rowCells t) ++ rowEntries p (S idx) chunk')%list
  end.

(** The four totals of a chunk, in the order they are written. *)
Definition totalEntries (p : Mappings.TypePrefix)
    (chunk : list (F8949Parser.CapitalTransaction number))
  : list (string * Value number) :=
  [(Mappings.totalKey p "proceed",
    VNumber (Spec.sumOver (@F8949Parser.sellPrice _) chunk));
   (Mappings.totalKey p "cost",
    VNumber (Spec.sumOver (@F8949Parser.purchasePrice _) chunk));
   (Mappings.totalKey p "gl", VNumber (Spec.sumOver Spec.gainLoss chunk));
   (Mappings.totalKey p "adj",
    VNumber (Spec.sumOver (@F8949Parser.adjustment _) chunk))].

(** Logical cells through a mapping: the entries of a field map. *)
Definition mapped (mapping : FieldMapping) (entries : list (string * Value number))
  : VariableMap number :=
  map (fun kv => (Js.propertyKey (Js.get mapping (fst kv)), snd kv)) entries.

(** The transactions of a record list, or none when there is no record. *)
Definition transactionsOf (rows : list (ExcelRow number))
  : list (F8949Parser.CapitalTransaction number) :=
  match F8949Parser.parseTransactions rows with
  | Some transactions => transactions
  | None => []
  end.

(** The fields a mapping can give: its values. *)
Definition fieldsIn (mapping : FieldMapping) : list string := Js.values mapping.

(** What holds of the field values of the 1040 parser all along: no key
    is there twice, no value is empty, and a key is a field of the mapping
    or the text of a member of [Object.prototype]. *)
Definition wellFilled (mapping : FieldMapping) (fieldValues : VariableMap number)
  : Prop :=
  NoDup (Js.keys fieldValues) /\
  forall k value,
    Js.get fieldValues k = Some value ->
    FormParser.isEmpty value = false /\
    (In k (fieldsIn mapping) \/
     exists name m, Js.inherited name = Some m /\ k = FormParser.memberText m).

(** The field values [F1040Parser.parse] extracts from records that are
    not none, with the mapping of 2025. *)
Definition extracted (firstRow : ExcelRow number) (rest : list (ExcelRow number))
    (skip : bool) : VariableMap number :=
  let hasHeader := F1040Parser.looksLikeHeader firstRow in
  let dataRows := if hasHeader then rest else firstRow :: rest in
  if andb hasHeader (F1040Parser.hasColumns firstRow ["variable"; "value"])
  then F1040Parser.parseColumnFormat dataRows Mappings.f1040_2025 Js.empty skip
  else F1040Parser.parseSimpleFormat dataRows Mappings.f1040_2025 Js.empty.

(** What every result of a parser satisfies: the form ids are the keys of
    the forms data, none twice, and the result is valid exactly when it has
    no error. *)
Definition sound (result : ParseResult number) : Prop :=
  formIds result = Js.keys (formsData result) /\
  NoDup (formIds result) /\
  (isValid (validation result) = true <-> errors (validation result) = []).

(** A sheet that has records and for which the registry returns forms. *)
Definition producesForms (options : ParseOptions number)
    (sheet : string * list (ExcelRow number)) : bool :=
  if List.length (snd sheet) =? 0 then false
  else
    match ParserRegistry.parse (fst sheet) (snd sheet) options with
    | Some result => 0 <? List.length (formIds result)
    | None => false
    end.

(** A key that is [variable] or [value] but for the case of its letters. *)
Definition properKey (k : string) : bool :=
  orb (String.eqb (Js.toLowerCase k) "variable")
      (String.eqb (Js.toLowerCase k) "value").

End Cells.

End Layout.

(** ** Objects *)

Section ObjectFacts.

Variable V : Type.
Implicit Types (o : Js.Obj V) (k : string) (v : V).

Lemma get_set_same o k v : Js.get (Js.set o k v) k = Some v.
Proof.
  induction o as [|[k' v'] o IH]; simpl.
  - now rewrite String.eqb_refl.
  - destruct (String.eqb k' k) eqn:E; simpl.
    + now rewrite String.eqb_refl.
    + now rewrite E.
Qed.

Lemma get_set_other o k k' v : k <> k' -> Js.get (Js.set o k v) k' = Js.get o k'.
Proof.
  intros Hne. induction o as [|[k0 v0] o IH]; simpl.
  - destruct (String.eqb k k') eqn:E; [apply String.eqb_eq in E; contradiction|reflexivity].
  - destruct (String.eqb k0 k) eqn:E; simpl.
    + apply String.eqb_eq in E. subst k0.
      destruct (String.eqb k k') eqn:E'; [apply String.eqb_eq in E'; contradiction|reflexivity].
    + now rewrite IH.
Qed.

Lemma get_set o k k' v :
  Js.get (Js.set o k v) k' = if String.eqb k k' then Some v else Js.get o k'.
Proof.
  destruct (String.eqb k k') eqn:E.
  - apply String.eqb_eq in E. subst. apply get_set_same.
  - apply String.eqb_neq in E. now apply get_set_other.
Qed.

Lemma get_None o k : Js.get o k = None <-> ~ In k (Js.keys o).
Proof.
  induction o as [|[k' v'] o IH]; simpl.
  - tauto.
  - destruct (String.eqb k' k) eqn:E.
    + apply String.eqb_eq in E. split; [discriminate|]. intros H. exfalso. auto.
    + apply String.eqb_neq in E. rewrite IH. tauto.
Qed.

Lemma get_Some_In o k v : Js.get o k = Some v -> In k (Js.keys o).
Proof.
  intros H. destruct (in_dec string_dec k (Js.keys o)) as [|n]; [assumption|].
  apply get_None in n. congruence.
Qed.

Lemma keys_set_In o k v x :
  In x (Js.keys (Js.set o k v)) <-> x = k \/ In x (Js.keys o).
Proof.
  induction o as [|[k' v'] o IH]; simpl.
  - intuition.
  - destruct (String.eqb k' k) eqn:E; simpl.
    + apply String.eqb_eq in E. subst. intuition.
    + rewrite IH. intuition.
Qed.

Lemma set_fresh o k v : ~ In k (Js.keys o) -> Js.set o k v = (o ++ [(k, v)])%list.
Proof.
  induction o as [|[k' v'] o IH]; simpl; intros H.
  - reflexivity.
  - destruct (String.eqb k' k) eqn:E.
    + apply String.eqb_eq in E. subst. exfalso. auto.
    + rewrite IH by tauto. reflexivity.
Qed.

Lemma keys_set_NoDup o k v : NoDup (Js.keys o) -> NoDup (Js.keys (Js.set o k v)).
Proof.
  induction o as [|[k' v'] o IH]; simpl; intros H.
  - constructor; [simpl; tauto|constructor].
  - inversion H as [|? ? Hn Hd]; subst.
    destruct (String.eqb k' k) eqn:E; simpl.
    + apply String.eqb_eq in E. subst. now constructor.
    + apply String.eqb_neq in E. constructor; [|auto].
      intros Hin. apply keys_set_In in Hin. destruct Hin; [congruence|contradiction].
Qed.

Lemma get_assign (t s : Js.Obj V) k :
  NoDup (Js.keys s) ->
  Js.get (Js.assign t s) k =
  match Js.get s k with Some v => Some v | None => Js.get t k end.
Proof.
  unfold Js.assign. revert t.
  induction s as [|[k0 v0] s IH]; simpl; intros t H; [reflexivity|].
  inversion H as [|? ? Hn Hd]; subst.
  rewrite IH by assumption. rewrite get_set.
  destruct (String.eqb k0 k) eqn:E.
  - apply String.eqb_eq in E. subst.
    apply get_None in Hn. now rewrite Hn.
  - reflexivity.
Qed.

Lemma get_spread (a b : Js.Obj V) k :
  NoDup (Js.keys a) -> NoDup (Js.keys b) ->
  Js.get (Js.spread a b) k =
  match Js.get b k with Some v => Some v | None => Js.get a k end.
Proof.
  intros Ha Hb. unfold Js.spread.
  rewrite get_assign by assumption. rewrite get_assign by assumption.
  simpl. destruct (Js.get b k); [reflexivity|]. now destruct (Js.get a k).
Qed.

End ObjectFacts.

Lemma assign_fresh (V : Type) (source : Js.Obj V) :
  forall target : Js.Obj V,
    NoDup (Js.keys source) ->
    (forall k, In k (Js.keys source) -> ~ In k (Js.keys target)) ->
    Js.assign target source = (target ++ source)%list.
Proof.
  unfold Js.assign.
  induction source as [|[k v] source IH]; intros target Hd Hf; simpl.
  - now rewrite List.app_nil_r.
  - inversion Hd as [|? ? Hn Hd']; subst.
    rewrite set_fresh by (apply Hf; now left).
    rewrite IH; [now rewrite <- List.app_assoc|assumption|].
    intros k' Hk' Hin. unfold Js.keys in Hin. rewrite map_app in Hin.
    apply in_app_or in Hin. destruct Hin as [Hin|[E|[]]].
    + apply (Hf k'); [now right|exact Hin].
    + simpl in E. subst. contradiction.
Qed.

(** ** The calendar *)

Section Calendar.

Local Open Scope Z_scope.

Lemma allFrom_spec (fuel : nat) (p : Z -> bool) :
  forall z, Spec.allFrom fuel z p = true ->
  forall k, z <= k < z + Z.of_nat fuel -> p k = true.
Proof.
  induction fuel as [|fuel IH]; intros z H k Hk.
  - lia.
  - simpl in H. destruct (p z) eqn:E; [|discriminate].
    destruct (Z.eq_dec k z) as [->|Hne]; [assumption|].
    apply (IH (z + 1)); [assumption|lia].
Qed.

(** One 400-year cycle, checked day by day. *)
Lemma civil_cycle_checked :
  Spec.allFrom (Z.to_nat 146097) 0
    (fun doe => Spec.isDateOfDay (doe - 719468) (Js.civil_from_days (doe - 719468)))
  = true.
Proof. vm_cast_no_check (eq_refl true). Qed.

Lemma civil_from_days_shift (z e : Z) :
  Js.civil_from_days (z + 146097 * e) =
  let '(y, m, d) := Js.civil_from_days z in (y + 400 * e, m, d).
Proof.
  unfold Js.civil_from_days.
  replace (z + 146097 * e + 719468) with (z + 719468 + e * 146097) by ring.
  rewrite Z.div_add by lia. rewrite Z_mod_plus_full.
  cbv zeta. f_equal. f_equal. ring.
Qed.

Lemma DayFromYear_shift (y e : Z) :
  Spec.DayFromYear (y + 400 * e) = Spec.DayFromYear y + 146097 * e.
Proof.
  unfold Spec.DayFromYear.
  replace (y + 400 * e - 1969) with (y - 1969 + (100 * e) * 4) by ring.
  replace (y + 400 * e - 1901) with (y - 1901 + (4 * e) * 100) by ring.
  replace (y + 400 * e - 1601) with (y - 1601 + e * 400) by ring.
  rewrite !Z.div_add by lia. ring.
Qed.

Lemma isLeapYear_shift (y e : Z) :
  Spec.isLeapYear (y + 400 * e) = Spec.isLeapYear y.
Proof.
  unfold Spec.isLeapYear.
  replace ((y + 400 * e) mod 4) with (y mod 4)
    by (replace (y + 400 * e) with (y + (100 * e) * 4) by ring;
        now rewrite Z_mod_plus_full).
  replace ((y + 400 * e) mod 100) with (y mod 100)
    by (replace (y + 400 * e) with (y + (4 * e) * 100) by ring;
        now rewrite Z_mod_plus_full).
  replace ((y + 400 * e) mod 400) with (y mod 400)
    by (replace (y + 400 * e) with (y + e * 400) by ring;
        now rewrite Z_mod_plus_full).
  reflexivity.
Qed.

Lemma isDateOfDay_shift (z e y m d : Z) :
  Spec.isDateOfDay (z + 146097 * e) (y + 400 * e, m, d) =
  Spec.isDateOfDay z (y, m, d).
Proof.
  unfold Spec.isDateOfDay, Spec.daysFromCivil, Spec.daysInMonth.
  rewrite DayFromYear_shift, isLeapYear_shift.
  f_equal. f_equal.
  destruct (Z.eqb_spec (Spec.DayFromYear y
            + Spec.daysBeforeMonth (Spec.isLeapYear y) m + d - 1) z) as [E|E].
  - apply Z.eqb_eq. lia.
  - apply Z.eqb_neq. lia.
Qed.

(** The date [civil_from_days] gives for a day number is a date of the
    calendar, and the one with that day number. *)
Lemma civil_from_days_correct (z : Z) :
  Spec.isDateOfDay z (Js.civil_from_days z) = true.
Proof.
  set (e := (z + 719468) / 146097).
  set (doe := (z + 719468) mod 146097).
  assert (Hz : z = doe - 719468 + 146097 * e).
  { unfold doe, e. pose proof (Z.div_mod (z + 719468) 146097). lia. }
  assert (Hdoe : 0 <= doe < 146097) by (apply Z.mod_pos_bound; lia).
  pose proof (allFrom_spec _ _ civil_cycle_checked (k := doe)) as Hc.
  cbv beta in Hc.
  rewrite Z2Nat.id in Hc by lia.
  specialize (Hc ltac:(lia)).
  rewrite Hz at 2. rewrite civil_from_days_shift.
  destruct (Js.civil_from_days (doe - 719468)) as [[y m] d].
  rewrite Hz. now rewrite isDateOfDay_shift.
Qed.

End Calendar.

(** ** Decimal text and keys *)

Lemma string_of_nat_inj (a b : nat) :
  Js.string_of_nat a = Js.string_of_nat b -> a = b.
Proof.
  unfold Js.string_of_nat. intros H.
  apply (f_equal NilEmpty.uint_of_string) in H.
  rewrite !NilEmpty.usu in H. injection H as H.
  now apply Unsigned.to_uint_inj.
Qed.

Lemma instanceKey_inj (a b : nat) : Spec.instanceKey a = Spec.instanceKey b -> a = b.
Proof.
  unfold Spec.instanceKey. simpl. intros H.
  apply string_of_nat_inj. congruence.
Qed.

(** ** Slices *)

Section Slices.

Variable A : Type.
Implicit Types (l : list A).

Lemma slice_14 i l : Js.slice i (i + 14) l = firstn 14 (skipn i l).
Proof. unfold Js.slice. now replace (i + 14 - i) with 14 by lia. Qed.

Lemma slice_14_length i l :
  List.length (Js.slice i (i + 14) l) = Nat.min 14 (List.length l - i).
Proof. rewrite slice_14, length_firstn, length_skipn. reflexivity. Qed.

Lemma slicesFrom_concat fuel : forall i l,
  List.length l - i <= fuel -> List.concat (Spec.slicesFrom fuel i l) = skipn i l.
Proof.
  induction fuel as [|fuel IH]; intros i l H; simpl.
  - symmetry. apply skipn_all2. lia.
  - destruct (Nat.ltb_spec i (List.length l)) as [Hlt|Hge].
    + simpl. rewrite IH by lia. rewrite slice_14.
      replace (i + 14) with (14 + i) by lia.
      rewrite <- skipn_skipn. apply firstn_skipn.
    + symmetry. apply skipn_all2. lia.
Qed.

Lemma slicesFrom_lengths fuel : forall i l,
  Forall (fun c => 1 <= List.length c <= 14) (Spec.slicesFrom fuel i l).
Proof.
  induction fuel as [|fuel IH]; intros i l; simpl; [constructor|].
  destruct (Nat.ltb_spec i (List.length l)) as [Hlt|Hge]; [|constructor].
  constructor; [|apply IH]. rewrite slice_14_length. lia.
Qed.

Lemma slicesFrom_nonempty fuel i l :
  Spec.slicesFrom fuel i l <> [] -> i < List.length l.
Proof.
  destruct fuel; simpl; [congruence|].
  destruct (Nat.ltb_spec i (List.length l)); [auto|congruence].
Qed.

Lemma slicesFrom_full fuel : forall i l k,
  S k < List.length (Spec.slicesFrom fuel i l) ->
  List.length (nth k (Spec.slicesFrom fuel i l) []) = 14.
Proof.
  induction fuel as [|fuel IH]; intros i l k H; simpl in *; [lia|].
  destruct (Nat.ltb_spec i (List.length l)) as [Hlt|Hge]; simpl in *; [|lia].
  destruct k as [|k].
  - assert (Hn : i + 14 < List.length l).
    { apply (@slicesFrom_nonempty fuel). intros E. rewrite E in H. simpl in H. lia. }
    rewrite slice_14_length. lia.
  - apply IH. lia.
Qed.

Lemma slicesFrom_20 l :
  List.length l = 20 ->
  map (@List.length A) (Spec.slicesFrom (List.length l) 0 l) = [14; 6].
Proof.
  intros H.
  do 20 (destruct l as [|? l]; [discriminate H|]).
  destruct l; [reflexivity|discriminate H].
Qed.

End Slices.

(** ** Chunks and their field maps *)

Section ChunkFacts.

Import Mappings F8949Parser.

Context {number : Type} {host : Host number}.

Implicit Types (mapping : FieldMapping) (typePrefix : TypePrefix)
  (chunk : list (CapitalTransaction number)) (formData : VariableMap number).

Lemma chunkLoop_slices typePrefix mapping transactions fuel :
  forall i chunks,
    chunkLoop fuel i transactions typePrefix mapping chunks =
    (chunks ++ map (formOfChunk typePrefix mapping)
                 (Spec.slicesFrom fuel i transactions))%list.
Proof.
  induction fuel as [|fuel IH]; intros i chunks; simpl.
  - now rewrite List.app_nil_r.
  - destruct (i <? List.length transactions).
    + unfold MAX_ROWS_PER_FORM. rewrite IH. simpl. now rewrite <- List.app_assoc.
    + now rewrite List.app_nil_r.
Qed.

Lemma chunkTransactions_slices typePrefix mapping transactions :
  chunkTransactions transactions typePrefix mapping =
  map (formOfChunk typePrefix mapping)
    (Spec.slicesFrom (List.length transactions) 0 transactions).
Proof. unfold chunkTransactions. now rewrite chunkLoop_slices. Qed.

Lemma forEach_totals typePrefix mapping chunk :
  forall idx formData totals,
    snd (forEach typePrefix mapping chunk idx (formData, totals)) =
    {| totalProceeds :=
         fold_left (fun acc t => add acc (sellPrice t)) chunk (totalProceeds totals);
       totalCost :=
         fold_left (fun acc t => add acc (purchasePrice t)) chunk (totalCost totals);
       totalGainLoss :=
         fold_left (fun acc t => add acc (Spec.gainLoss t)) chunk (totalGainLoss totals);
       totalAdjustment :=
         fold_left (fun acc t => add acc (adjustment t)) chunk (totalAdjustment totals) |}.
Proof.
  induction chunk as [|t chunk IH]; intros idx formData totals.
  - now destruct totals.
  - cbn [forEach]. unfold rowStep at 1. rewrite IH. reflexivity.
Qed.

Lemma put_keys_In mapping formData key value x :
  In x (Js.keys (put mapping formData key value)) <->
  x = Js.propertyKey (Js.get mapping key) \/ In x (Js.keys formData).
Proof. apply keys_set_In. Qed.

Lemma put_NoDup mapping formData key value :
  NoDup (Js.keys formData) -> NoDup (Js.keys (put mapping formData key value)).
Proof. apply keys_set_NoDup. Qed.

Lemma rowStep_NoDup typePrefix mapping formData totals idx t :
  NoDup (Js.keys formData) ->
  NoDup (Js.keys (fst (rowStep typePrefix mapping (formData, totals) idx t))).
Proof.
  intros H. unfold rowStep. cbn [fst].
  destruct (String.eqb (code t) ""); repeat apply put_NoDup; assumption.
Qed.

Lemma rowStep_keys typePrefix mapping formData totals idx t x :
  In x (Js.keys (fst (rowStep typePrefix mapping (formData, totals) idx t))) ->
  In x (Js.keys formData) \/
  exists j, j < 8 /\ x = Js.propertyKey (Js.get mapping (rowKey typePrefix idx j)).
Proof.
  unfold rowStep. cbn [fst].
  destruct (String.eqb (code t) ""); rewrite !put_keys_In;
    intros H; repeat (destruct H as [H|H]); auto;
    right; eexists; (split; [|exact H]); lia.
Qed.

Lemma forEach_NoDup typePrefix mapping chunk :
  forall idx state,
    NoDup (Js.keys (fst state)) ->
    NoDup (Js.keys (fst (forEach typePrefix mapping chunk idx state))).
Proof.
  induction chunk as [|t chunk IH]; intros idx [formData totals] H; [assumption|].
  cbn [forEach]. apply IH. now apply rowStep_NoDup.
Qed.

Lemma forEach_keys typePrefix mapping chunk x :
  forall idx state,
    In x (Js.keys (fst (forEach typePrefix mapping chunk idx state))) ->
    In x (Js.keys (fst state)) \/
    exists i j, idx <= i < idx + List.length chunk /\ j < 8 /\
      x = Js.propertyKey (Js.get mapping (rowKey typePrefix i j)).
Proof.
  induction chunk as [|t chunk IH]; intros idx [formData totals] H; [now left|].
  cbn [forEach] in H. apply IH in H. destruct H as [H|(i & j & Hi & Hj & ->)].
  - destruct (rowStep typePrefix mapping (formData, totals) idx t) eqn:E.
    pose proof (@rowStep_keys typePrefix mapping formData totals idx t x) as K.
    rewrite E in K. destruct (K H) as [|(j & Hj & ->)]; [now left|].
    right. exists idx, j. simpl. repeat split; auto; lia.
  - right. exists i, j. simpl. repeat split; auto; lia.
Qed.

End ChunkFacts.

Section FormFacts.

Import Mappings F8949Parser.

Context {number : Type} {host : Host number}.

Implicit Types (mapping : FieldMapping) (typePrefix : TypePrefix)
  (chunk : list (CapitalTransaction number)) (formData : VariableMap number).

Lemma formOfChunk_NoDup typePrefix mapping chunk :
  NoDup (Js.keys (formOfChunk typePrefix mapping chunk)).
Proof.
  unfold formOfChunk.
  match goal with |- context [forEach ?p ?m ?c ?i ?s] =>
    pose proof (@forEach_NoDup _ _ p m c i s) as H;
    destruct (forEach p m c i s) as [formData totals] end.
  repeat apply put_NoDup. apply H. constructor.
Qed.

Lemma formOfChunk_keys typePrefix mapping chunk x :
  In x (Js.keys (formOfChunk typePrefix mapping chunk)) ->
  (exists i j, i < List.length chunk /\ j < 8 /\
     x = Js.propertyKey (Js.get mapping (rowKey typePrefix i j))) \/
  (exists name, In name ["proceed"; "cost"; "gl"; "adj"] /\
     x = Js.propertyKey (Js.get mapping (totalKey typePrefix name))).
Proof.
  unfold formOfChunk.
  match goal with |- context [forEach ?p ?m ?c ?i ?s] =>
    pose proof (@forEach_keys _ _ p m c x i s) as H;
    destruct (forEach p m c i s) as [formData totals] end.
  rewrite !put_keys_In. cbn [fst] in H.
  intros [K|[K|[K|[K|K]]]].
  - right. exists "adj". split; [simpl; tauto|exact K].
  - right. exists "gl". split; [simpl; tauto|exact K].
  - right. exists "cost". split; [simpl; tauto|exact K].
  - right. exists "proceed". split; [simpl; tauto|exact K].
  - destruct (H K) as [[]|(i & j & Hi & Hj & ->)].
    left. exists i, j. repeat split; auto; lia.
Qed.

Lemma formOfChunk_totals typePrefix mapping chunk :
  NoDup (map (fun name => Js.propertyKey (Js.get mapping (totalKey typePrefix name)))
           ["proceed"; "cost"; "gl"; "adj"]) ->
  let form := formOfChunk typePrefix mapping chunk in
  let at_ name := Js.get form (Js.propertyKey (Js.get mapping (totalKey typePrefix name))) in
  at_ "proceed" = Some (VNumber (Spec.sumOver (@sellPrice _) chunk)) /\
  at_ "cost" = Some (VNumber (Spec.sumOver (@purchasePrice _) chunk)) /\
  at_ "gl" = Some (VNumber (Spec.sumOver Spec.gainLoss chunk)) /\
  at_ "adj" = Some (VNumber (Spec.sumOver (@adjustment _) chunk)).
Proof.
  intros Hd. cbn zeta. unfold formOfChunk. cbv zeta.
  match goal with |- context [forEach ?p ?m ?c ?i (?f, ?t)] =>
    destruct (forEach p m c i (f, t)) as [formData totals] eqn:E end.
  assert (H : totals = snd (formData, totals)) by reflexivity.
  rewrite <- E in H.
  pose proof (eq_trans H (forEach_totals _ _ _ _ _ _)) as Ht. clear H E.
  subst totals. cbn [totalProceeds totalCost totalGainLoss totalAdjustment].
  simpl map in Hd.
  set (kp := Js.propertyKey (Js.get mapping (totalKey typePrefix "proceed"))) in *.
  set (kc := Js.propertyKey (Js.get mapping (totalKey typePrefix "cost"))) in *.
  set (kg := Js.propertyKey (Js.get mapping (totalKey typePrefix "gl"))) in *.
  set (ka := Js.propertyKey (Js.get mapping (totalKey typePrefix "adj"))) in *.
  assert (kp <> kc /\ kp <> kg /\ kp <> ka /\ kc <> kg /\ kc <> ka /\ kg <> ka)
    as (n1 & n2 & n3 & n4 & n5 & n6).
  { inversion Hd as [|? ? H1 Hd1]; subst. inversion Hd1 as [|? ? H2 Hd2]; subst.
    inversion Hd2 as [|? ? H3 Hd3]; subst. simpl in *. repeat split; intros E; tauto || (rewrite E in *; tauto) || (rewrite <- E in *; tauto). }
  unfold put. fold kp kc kg ka. unfold Spec.sumOver.
  repeat split.
  - rewrite get_set_other, get_set_other, get_set_other by congruence. apply get_set_same.
  - rewrite get_set_other, get_set_other by congruence. apply get_set_same.
  - rewrite get_set_other by congruence. apply get_set_same.
  - apply get_set_same.
Qed.

End FormFacts.

(** ** The generated mapping table *)

Section MappingFacts.

Import Mappings.

Lemma mapping_rows_checked :
  forallb (fun p =>
    forallb (fun i =>
      forallb (fun j =>
        match Js.get generateF8949Mapping (rowKey p i j) with
        | Some f => String.eqb f (rowField p i j)
        | None => false
        end) (seq 0 8)) (seq 0 14)) [st; lt] = true.
Proof. vm_compute. reflexivity. Qed.

Lemma mapping_row (p : TypePrefix) (i j : nat) :
  i < 14 -> j < 8 ->
  Js.get generateF8949Mapping (rowKey p i j) = Some (rowField p i j).
Proof.
  intros Hi Hj. pose proof mapping_rows_checked as H.
  rewrite forallb_forall in H.
  assert (Hp : In p [st; lt]) by (destruct p; simpl; auto).
  specialize (H p Hp). rewrite forallb_forall in H.
  specialize (H i ltac:(apply in_seq; lia)). rewrite forallb_forall in H.
  specialize (H j ltac:(apply in_seq; lia)).
  destruct (Js.get generateF8949Mapping (rowKey p i j)); [|discriminate].
  apply String.eqb_eq in H. now subst.
Qed.

Lemma fields_defined_checked :
  forallb (fun p =>
    forallb (fun f => negb (String.eqb f "undefined"))
      (Spec.fieldsOf generateF8949Mapping (Spec.logicalKeys p))) [st; lt] = true.
Proof. vm_compute. reflexivity. Qed.

Lemma fields_disjoint_checked :
  forallb (fun f =>
    negb (existsb (String.eqb f)
            (Spec.fieldsOf generateF8949Mapping (Spec.logicalKeys lt))))
    (Spec.fieldsOf generateF8949Mapping (Spec.logicalKeys st)) = true.
Proof. vm_compute. reflexivity. Qed.

Lemma field_defined (p : TypePrefix) (f : string) :
  In f (Spec.fieldsOf generateF8949Mapping (Spec.logicalKeys p)) -> f <> "undefined".
Proof.
  intros Hin. pose proof fields_defined_checked as H.
  rewrite forallb_forall in H.
  assert (Hp : In p [st; lt]) by (destruct p; simpl; auto).
  specialize (H p Hp). rewrite forallb_forall in H. specialize (H f Hin).
  apply negb_true_iff, String.eqb_neq in H. exact H.
Qed.

Lemma fields_disjoint (f : string) :
  In f (Spec.fieldsOf generateF8949Mapping (Spec.logicalKeys st)) ->
  In f (Spec.fieldsOf generateF8949Mapping (Spec.logicalKeys lt)) -> False.
Proof.
  intros Hs Hl. pose proof fields_disjoint_checked as H.
  rewrite forallb_forall in H. specialize (H f Hs).
  apply negb_true_iff in H.
  assert (E : existsb (String.eqb f)
                (Spec.fieldsOf generateF8949Mapping (Spec.logicalKeys lt)) = true).
  { apply existsb_exists. exists f. split; [assumption|apply String.eqb_refl]. }
  congruence.
Qed.

Lemma rowKey_logical (p : TypePrefix) (i j : nat) :
  i < 14 -> j < 8 -> In (rowKey p i j) (Spec.logicalKeys p).
Proof.
  intros Hi Hj. unfold Spec.logicalKeys. apply in_or_app. left.
  apply in_flat_map. exists i. split; [apply in_seq; lia|].
  apply in_map. apply in_seq. lia.
Qed.

Lemma totalKey_logical (p : TypePrefix) (name : string) :
  In name ["proceed"; "cost"; "gl"; "adj"] -> In (totalKey p name) (Spec.logicalKeys p).
Proof.
  intros H. unfold Spec.logicalKeys. apply in_or_app. right. now apply in_map.
Qed.

Lemma total_fields_distinct (p : TypePrefix) :
  NoDup (map (fun name => Js.propertyKey (Js.get generateF8949Mapping (totalKey p name)))
           ["proceed"; "cost"; "gl"; "adj"]).
Proof.
  destruct p; vm_compute;
    repeat (constructor; [simpl; intuition discriminate|]); constructor.
Qed.

End MappingFacts.

(** ** Chunk sequences under the generated mapping *)

Section PipelineFacts.

Import Mappings F8949Parser.

Context {number : Type} {host : Host number}.

Lemma getF8949Mapping_generated (year : number) :
  getF8949Mapping year = generateF8949Mapping.
Proof.
  unfold getF8949Mapping, f8949Mappings, f8949_2025, Js.get.
  destruct (String.eqb "2025" (toString year)); reflexivity.
Qed.

Lemma chunk_form_In (transactions : list (CapitalTransaction number))
    (typePrefix : TypePrefix) (mapping : FieldMapping) (form : VariableMap number) :
  In form (chunkTransactions transactions typePrefix mapping) ->
  exists chunk, form = formOfChunk typePrefix mapping chunk /\
    1 <= List.length chunk <= 14.
Proof.
  rewrite chunkTransactions_slices. intros H.
  apply in_map_iff in H. destruct H as (chunk & <- & Hin).
  exists chunk. split; [reflexivity|].
  pose proof (slicesFrom_lengths (List.length transactions) 0 transactions) as F.
  rewrite Forall_forall in F. now apply F.
Qed.

Lemma formAt_chunk (transactions : list (CapitalTransaction number))
    (typePrefix : TypePrefix) (mapping : FieldMapping) (i : nat) :
  formAt (chunkTransactions transactions typePrefix mapping) i = Js.empty \/
  exists chunk,
    formAt (chunkTransactions transactions typePrefix mapping) i
      = formOfChunk typePrefix mapping chunk /\
    List.length chunk <= 14.
Proof.
  unfold formAt.
  destruct (nth_error (chunkTransactions transactions typePrefix mapping) i)
    as [form|] eqn:E; [|now left].
  right. apply nth_error_In, chunk_form_In in E.
  destruct E as (chunk & -> & Hl). exists chunk. split; [reflexivity|lia].
Qed.

Lemma chunk_keys_fields (typePrefix : TypePrefix)
    (chunk : list (CapitalTransaction number)) (x : string) :
  List.length chunk <= 14 ->
  In x (Js.keys (formOfChunk typePrefix generateF8949Mapping chunk)) ->
  In x (Spec.fieldsOf generateF8949Mapping (Spec.logicalKeys typePrefix)).
Proof.
  intros Hl H. apply formOfChunk_keys in H.
  unfold Spec.fieldsOf.
  destruct H as [(i & j & Hi & Hj & ->)|(name & Hn & ->)].
  - apply (in_map (fun key => Js.propertyKey (Js.get generateF8949Mapping key))).
    apply rowKey_logical; lia.
  - apply (in_map (fun key => Js.propertyKey (Js.get generateF8949Mapping key))).
    now apply totalKey_logical.
Qed.

Lemma formAt_keys_fields (transactions : list (CapitalTransaction number))
    (typePrefix : TypePrefix) (i : nat) (x : string) :
  In x (Js.keys (formAt (chunkTransactions transactions typePrefix generateF8949Mapping) i)) ->
  In x (Spec.fieldsOf generateF8949Mapping (Spec.logicalKeys typePrefix)).
Proof.
  destruct (formAt_chunk transactions typePrefix generateF8949Mapping i)
    as [E|(chunk & E & Hl)]; rewrite E.
  - intros [].
  - now apply chunk_keys_fields.
Qed.

Lemma formAt_NoDup (transactions : list (CapitalTransaction number))
    (typePrefix : TypePrefix) (mapping : FieldMapping) (i : nat) :
  NoDup (Js.keys (formAt (chunkTransactions transactions typePrefix mapping) i)).
Proof.
  destruct (formAt_chunk transactions typePrefix mapping i)
    as [E|(chunk & E & Hl)]; rewrite E.
  - constructor.
  - apply formOfChunk_NoDup.
Qed.

End PipelineFacts.

(** ** Document instances *)

Section InstanceFacts.

Variable V : Type.

Lemma fold_set_fresh (key : nat -> string) (val : nat -> V) (l : list nat) :
  forall acc : Js.Obj V,
    NoDup (map key l) ->
    (forall i, In i l -> ~ In (key i) (Js.keys acc)) ->
    fold_left (fun result i => Js.set result (key i) (val i)) l acc =
    (acc ++ map (fun i => (key i, val i)) l)%list.
Proof.
  induction l as [|a l IH]; intros acc Hd Hf; simpl.
  - now rewrite List.app_nil_r.
  - inversion Hd as [|? ? Hn Hd']; subst.
    rewrite set_fresh by (apply Hf; now left).
    rewrite IH; [now rewrite <- List.app_assoc| assumption |].
    intros i Hi Hin. unfold Js.keys in Hin. rewrite map_app in Hin.
    apply in_app_or in Hin. destruct Hin as [Hin|[E|[]]].
    + apply (Hf i); [now right|exact Hin].
    + simpl in E. apply Hn. rewrite E. now apply in_map.
Qed.

Lemma get_map_inj (key : nat -> string) (val : nat -> V) (l : list nat) (i : nat) :
  (forall a b, key a = key b -> a = b) ->
  In i l ->
  Js.get (map (fun i => (key i, val i)) l) (key i) = Some (val i).
Proof.
  intros Hinj. induction l as [|a l IH]; intros Hin; [destruct Hin|].
  simpl. destruct (String.eqb (key a) (key i)) eqn:E.
  - apply String.eqb_eq, Hinj in E. now subst.
  - destruct Hin as [->|Hin]; [now rewrite String.eqb_refl in E|auto].
Qed.

End InstanceFacts.

Lemma NoDup_map_injective (A B : Type) (f : A -> B) (l : list A) :
  (forall a b, f a = f b -> a = b) -> NoDup l -> NoDup (map f l).
Proof.
  intros Hinj. induction 1 as [|a l Hn Hd IH]; simpl; constructor; [|exact IH].
  intros Hin. apply in_map_iff in Hin. destruct Hin as (b & E & Hb).
  apply Hinj in E. now subst.
Qed.

Section CombineFacts.

Import F8949Parser.

Context {number : Type} {host : Host number}.

Lemma instanceKeys_NoDup (n : nat) :
  NoDup (map (fun i => "f8949_" ++ Js.string_of_nat (i + 1)) (seq 0 n)).
Proof.
  apply NoDup_map_injective; [|apply seq_NoDup].
  intros a b H. apply (@instanceKey_inj (a + 1) (b + 1)) in H. lia.
Qed.

Lemma combineForms_entries (shortTermForms longTermForms : list (VariableMap number)) :
  combineForms shortTermForms longTermForms =
  map (fun i => (Spec.instanceKey (i + 1),
                 Js.spread (formAt shortTermForms i) (formAt longTermForms i)))
    (seq 0 (Nat.max (List.length shortTermForms) (List.length longTermForms))).
Proof.
  unfold combineForms.
  rewrite (fold_set_fresh (fun i => "f8949_" ++ Js.string_of_nat (i + 1))
             (fun i => Js.spread (formAt shortTermForms i) (formAt longTermForms i))).
  - reflexivity.
  - apply instanceKeys_NoDup.
  - intros i _ [].
Qed.

Lemma formAt_nth (forms : list (VariableMap number)) (i : nat) :
  formAt forms i = nth i forms Js.empty.
Proof.
  unfold formAt. revert i.
  induction forms as [|form forms IH]; intros [|i]; simpl; auto.
Qed.

Lemma spread_empty_r (a : VariableMap number) :
  NoDup (Js.keys a) -> Js.spread a Js.empty = a.
Proof.
  intros Ha. unfold Js.spread. change (Js.assign (Js.assign Js.empty a) Js.empty)
    with (Js.assign Js.empty a).
  rewrite assign_fresh; [reflexivity|exact Ha|]. intros k _ [].
Qed.

Lemma spread_empty_l (b : VariableMap number) :
  NoDup (Js.keys b) -> Js.spread Js.empty b = b.
Proof.
  intros Hb. unfold Js.spread. change (Js.assign Js.empty Js.empty)
    with (@Js.empty (Value number)).
  rewrite assign_fresh; [reflexivity|exact Hb|]. intros k _ [].
Qed.

End CombineFacts.

(** ** Records and transactions *)

Section RowFacts.

Import Mappings FormParser F8949Parser.

Context {number : Type} {host : Host number}.

Lemma transactionsLoop_filter (columnMap : Js.Obj string)
    (rows : list (ExcelRow number)) :
  forall transactions,
    transactionsLoop columnMap rows transactions =
    (transactions ++
     map (transactionOfRow columnMap)
       (filter (fun row => negb (isEmpty (column columnMap row "quantity"))) rows))%list.
Proof.
  induction rows as [|row rows IH]; intros transactions; simpl.
  - now rewrite List.app_nil_r.
  - destruct (isEmpty (column columnMap row "quantity")); simpl.
    + apply IH.
    + rewrite IH. now rewrite <- List.app_assoc.
Qed.

Lemma isEmpty_spec (value : Value number) :
  isEmpty value = true <-> value = VNull \/ value = VUndefined \/ value = VString "".
Proof.
  destruct value as [| |s|n|t|m]; simpl; split; intros H; auto;
    try discriminate; try (destruct H as [H|[H|H]]; discriminate).
  - apply String.eqb_eq in H. subst. auto.
  - destruct H as [H|[H|H]]; try discriminate. injection H as ->. reflexivity.
Qed.

End RowFacts.

(** ** Serial dates *)

Section DateFacts.

Import FormParser.

Context {number : Type} {host : Host number}.

Lemma TimeClip_days (days : Z) :
  Js.TimeClip (days * 86400 * 1000) =
  if (Z.abs days <=? 100000000)%Z then Some (days * Js.msPerDay)%Z else None.
Proof.
  unfold Js.TimeClip, Js.msPerDay.
  destruct (Z.leb_spec (Z.abs days) 100000000);
    destruct (Z.leb_spec (Z.abs (days * 86400 * 1000)) 8640000000000000);
    try (f_equal; ring); lia.
Qed.

Lemma Day_days (days : Z) : Js.Day (days * Js.msPerDay) = days.
Proof. unfold Js.Day, Js.msPerDay. apply Z.div_mul. lia. Qed.

Lemma two_digits_checked :
  Spec.allFrom 31 1 (fun d => String.length (Js.padStart2 (Js.string_of_Z d)) =? 2)
  = true.
Proof. vm_compute. reflexivity. Qed.

Lemma four_digits_checked :
  Spec.allFrom (Z.to_nat 9000) 1000 (fun y => String.length (Js.string_of_Z y) =? 4) = true.
Proof. vm_compute. reflexivity. Qed.

Lemma dateText_shape (z y m d : Z) :
  Spec.isDateOfDay z (y, m, d) = true ->
  (1000 <= y <= 9999)%Z ->
  String.length (Spec.dateText (y, m, d)) = 10 /\
  String.get 2 (Spec.dateText (y, m, d)) = Some "/"%char /\
  String.get 5 (Spec.dateText (y, m, d)) = Some "/"%char.
Proof.
  intros H Hy. unfold Spec.isDateOfDay in H.
  apply andb_true_iff in H. destruct H as [Hm H].
  apply andb_true_iff in H. destruct H as [Hd _].
  apply andb_true_iff in Hm. destruct Hm as [Hm1 Hm2].
  apply andb_true_iff in Hd. destruct Hd as [Hd1 Hd2].
  apply Z.leb_le in Hm1, Hm2, Hd1, Hd2.
  assert (Hd3 : (d <= 31)%Z).
  { unfold Spec.daysInMonth in Hd2.
    destruct (m =? 2)%Z; [destruct (Spec.isLeapYear y); lia|].
    destruct ((m =? 4) || ((m =? 6) || ((m =? 9) || (m =? 11))))%Z%bool; lia. }
  pose proof (allFrom_spec _ _ two_digits_checked (k := m) ltac:(lia)) as Lm.
  pose proof (allFrom_spec _ _ two_digits_checked (k := d) ltac:(lia)) as Ld.
  pose proof (allFrom_spec _ _ four_digits_checked (k := y) ltac:(lia)) as Ly.
  cbv beta in Lm, Ld, Ly. apply Nat.eqb_eq in Lm, Ld, Ly.
  unfold Spec.dateText.
  destruct (Js.padStart2 (Js.string_of_Z m)) as [|m1 [|m2 [|? ?]]]; try discriminate Lm.
  destruct (Js.padStart2 (Js.string_of_Z d)) as [|d1 [|d2 [|? ?]]]; try discriminate Ld.
  cbn. rewrite Ly. repeat split.
Qed.

Lemma excelDateToString_days (serial : number) :
  excelDateToString serial =
  match floor (sub serial (lit 25569)) with
  | Some days =>
      if (Z.abs days <=? 100000000)%Z
      then Spec.dateText (Js.civil_from_days days)
      else "NaN/NaN/NaN"
  | None => "NaN/NaN/NaN"
  end.
Proof.
  unfold excelDateToString, dateOfSerial.
  destruct (floor (sub serial (lit 25569))) as [days|]; [|reflexivity].
  rewrite TimeClip_days.
  destruct (Z.abs days <=? 100000000)%Z; [|reflexivity].
  unfold getUTCMonth, getUTCDate, getUTCFullYear, option_map.
  unfold Js.MonthFromTime1, Js.DateFromTime, Js.YearFromTime.
  rewrite Day_days.
  destruct (Js.civil_from_days days) as [[y m] d]. cbn [fst snd Spec.dateText].
  replace (1 + (m - 1))%Z with m by ring. reflexivity.
Qed.

End DateFacts.

(** ** Parsers and the registry *)

Section ParseFacts.

Import Mappings FormParser.

Context {number : Type} {host : Host number}.

Lemma F8949_parse_frame (rows : list (ExcelRow number)) (year : number) (skip : bool) :
  Spec.sameForms
    (F8949Parser.parse rows {| year := year; validate := true; skipEmptyRows := skip |})
    (F8949Parser.parse rows {| year := year; validate := false; skipEmptyRows := skip |}).
Proof.
  unfold Spec.sameForms, F8949Parser.parse.
  destruct rows as [|firstRow rest]; cbn [List.length Nat.eqb].
  - do 2 eexists. repeat split.
  - unfold F8949Parser.parseTransactions.
    destruct (F8949Parser.detectColumns firstRow) as [columnMap|].
    + destruct (List.length (F8949Parser.transactionsLoop columnMap (firstRow :: rest) []) =? 0);
        do 2 eexists; repeat split.
    + cbn [List.length Nat.eqb]. do 2 eexists. repeat split.
Qed.

Lemma F1040_parse_frame (rows : list (ExcelRow number)) (year : number) (skip : bool) :
  Spec.sameForms
    (F1040Parser.parse rows {| year := year; validate := true; skipEmptyRows := skip |})
    (F1040Parser.parse rows {| year := year; validate := false; skipEmptyRows := skip |}).
Proof.
  unfold Spec.sameForms, F1040Parser.parse.
  destruct rows as [|firstRow rest]; do 2 eexists; repeat split.
Qed.

Lemma findParser_cases (sheetName : string) :
  ParserRegistry.findParser sheetName =
  if F8949Parser.canParse sheetName then Some ParserRegistry.f8949Parser
  else if F1040Parser.canParse sheetName then Some ParserRegistry.f1040Parser
  else None.
Proof. reflexivity. Qed.

End ParseFacts.

(** ** The line-oriented formats *)

Section LineFacts.

Import Mappings FormParser F1040Parser.

Context {number : Type} {host : Host number}.

Lemma getF1040Mapping_2025 (year : number) : getF1040Mapping year = f1040_2025.
Proof.
  unfold getF1040Mapping, f1040Mappings, Js.get.
  destruct (String.eqb "2025" (toString year)); reflexivity.
Qed.

Lemma columnLoop_skip (variableCol valueCol : string) (mapping : FieldMapping)
    (row : ExcelRow number) (after : list (ExcelRow number)) :
  isEmpty (cell row variableCol) = true ->
  forall before fieldValues,
    columnLoop variableCol valueCol mapping true (before ++ row :: after) fieldValues =
    columnLoop variableCol valueCol mapping true (before ++ after) fieldValues.
Proof.
  intros He. induction before as [|r before IH]; intros fieldValues; simpl.
  - now rewrite He.
  - destruct (isEmpty (cell r variableCol)); apply IH.
Qed.

Lemma columnLoop_break (variableCol valueCol : string) (mapping : FieldMapping)
    (row : ExcelRow number) (after : list (ExcelRow number)) :
  isEmpty (cell row variableCol) = true ->
  forall before fieldValues,
    columnLoop variableCol valueCol mapping false (before ++ row :: after) fieldValues =
    columnLoop variableCol valueCol mapping false before fieldValues.
Proof.
  intros He. induction before as [|r before IH]; intros fieldValues; simpl.
  - now rewrite He.
  - destruct (isEmpty (cell r variableCol)); [reflexivity|apply IH].
Qed.

Lemma simpleLoop_break (variableCol valueCol : string) (mapping : FieldMapping)
    (row : ExcelRow number) (after : list (ExcelRow number)) :
  isEmpty (cell row variableCol) = true ->
  forall before fieldValues,
    simpleLoop variableCol valueCol mapping (before ++ row :: after) fieldValues =
    simpleLoop variableCol valueCol mapping before fieldValues.
Proof.
  intros He. induction before as [|r before IH]; intros fieldValues; simpl.
  - now rewrite He.
  - destruct (isEmpty (cell r variableCol)); [reflexivity|apply IH].
Qed.

Lemma emptyRecord_cell (row : ExcelRow number) (k : string) :
  Spec.emptyRecord row = true -> Js.inherited k = None ->
  isEmpty (cell row k) = true.
Proof.
  unfold Spec.emptyRecord, cell, Js.lookup, Js.values. intros H Hk. rewrite Hk.
  induction row as [|[k' v] row IH]; simpl in *; [reflexivity|].
  apply andb_true_iff in H. destruct H as [Hv Hr].
  destruct (String.eqb k' k); [exact Hv|now apply IH].
Qed.

End LineFacts.

(** ** What is read through the prototype *)

Section PrototypeFacts.

Import FormParser F8949Parser.

Context {number : Type} {host : Host number}.

Lemma inherited_In (k : string) (m : Js.Member) :
  Js.inherited k = Some m -> In k (Js.keys Js.objectPrototype).
Proof. apply get_Some_In. Qed.

Lemma get_In_entry (V : Type) (o : Js.Obj V) (k : string) (v : V) :
  Js.get o k = Some v -> In (k, v) o.
Proof.
  induction o as [|[k' v'] o IH]; simpl; [discriminate|].
  destruct (String.eqb k' k) eqn:E.
  - apply String.eqb_eq in E. intros [= ->]. subst. now left.
  - intros H. right. now apply IH.
Qed.

(** No name of [Object.prototype] matches a known header. *)
Lemma inherited_unmatched_checked :
  forallb
    (fun entry : string * list string =>
       forallb (fun k => negb (headerMatches (snd entry) k))
         (Js.keys Js.objectPrototype))
    EXPECTED_HEADERS = true.
Proof. vm_compute. reflexivity. Qed.

Lemma findColumn_own (firstRow : ExcelRow number) (key h : string) :
  findColumn firstRow key = Some h -> Js.inherited h = None.
Proof.
  unfold findColumn. intros H. apply find_some in H. destruct H as [_ Hm].
  destruct (Js.inherited h) as [m|] eqn:E; [exfalso|reflexivity].
  apply inherited_In in E.
  destruct (Js.get EXPECTED_HEADERS key) as [names|] eqn:G; [|discriminate].
  apply get_In_entry in G.
  pose proof inherited_unmatched_checked as C.
  rewrite forallb_forall in C. specialize (C _ G). cbn [snd] in C.
  rewrite forallb_forall in C. specialize (C _ E).
  rewrite Hm in C. discriminate.
Qed.

Lemma foundColumn_own (firstRow : ExcelRow number) (key h : string) :
  foundColumn (findColumn firstRow key) = Some h -> Js.inherited h = None.
Proof.
  unfold foundColumn. destruct (findColumn firstRow key) as [col|] eqn:F;
    [|discriminate].
  destruct (String.eqb col ""); [discriminate|]. intros [= <-].
  exact (findColumn_own _ _ F).
Qed.

Lemma requiredLoop_own (firstRow : ExcelRow number) (roles : list string) :
  forall columnMap columnMap',
    (forall role h, Js.get columnMap role = Some h -> Js.inherited h = None) ->
    requiredLoop firstRow roles columnMap = Some columnMap' ->
    forall role h, Js.get columnMap' role = Some h -> Js.inherited h = None.
Proof.
  induction roles as [|key roles IH]; intros columnMap columnMap' Inv; cbn [requiredLoop].
  - intros [= <-]. exact Inv.
  - destruct (foundColumn (findColumn firstRow key)) as [found|] eqn:F;
      [|discriminate].
    apply IH. intros role h. rewrite get_set.
    destruct (String.eqb key role); [|apply Inv].
    intros [= <-]. exact (foundColumn_own _ _ F).
Qed.

Lemma optionalLoop_own (firstRow : ExcelRow number) (roles : list string) :
  forall columnMap,
    (forall role h, Js.get columnMap role = Some h -> Js.inherited h = None) ->
    forall role h,
      Js.get (optionalLoop firstRow roles columnMap) role = Some h ->
      Js.inherited h = None.
Proof.
  unfold optionalLoop.
  induction roles as [|key roles IH]; intros columnMap Inv; cbn [fold_left].
  - exact Inv.
  - apply IH.
    destruct (foundColumn (findColumn firstRow key)) as [found|] eqn:F;
      [|exact Inv].
    intros role h. rewrite get_set.
    destruct (String.eqb key role); [|apply Inv].
    intros [= <-]. exact (foundColumn_own _ _ F).
Qed.

(** The column of a role is a header of the first record or the key
    [undefined], and neither is a name of [Object.prototype]: a cell read
    through the column map is a cell of the record or [undefined]. *)
Lemma detectColumns_own (firstRow : ExcelRow number) (columnMap : Js.Obj string)
    (role : string) :
  detectColumns firstRow = Some columnMap ->
  Js.inherited (Js.propertyKey (Js.get columnMap role)) = None.
Proof.
  unfold detectColumns.
  destruct (requiredLoop firstRow requiredColumns Js.empty) as [required|] eqn:R;
    [|discriminate].
  intros E.
  assert (Hc : columnMap = optionalLoop firstRow optionalColumns required)
    by congruence.
  rewrite Hc. clear E Hc.
  destruct (Js.get (optionalLoop firstRow optionalColumns required) role)
    as [h|] eqn:G; [|reflexivity].
  cbn [Js.propertyKey].
  eapply optionalLoop_own; [|exact G].
  eapply requiredLoop_own; [|exact R].
  intros r h'. discriminate.
Qed.

Lemma emptyRecord_column (firstRow row : ExcelRow number)
    (columnMap : Js.Obj string) (role : string) :
  detectColumns firstRow = Some columnMap ->
  Spec.emptyRecord row = true ->
  isEmpty (column columnMap row role) = true.
Proof.
  intros Hc He. unfold column. apply emptyRecord_cell; [exact He|].
  now apply detectColumns_own with (firstRow := firstRow).
Qed.

End PrototypeFacts.

(** ** The properties of the specification *)

Section Claims.

Import Mappings FormParser F8949Parser.

Context {number : Type} {host : Host number}.

(** C1.  A transaction is short-term exactly when both dates are valid and
    the sell date is less than 365 x 24 x 3600 x 1000 milliseconds after
    the purchase date, and the flag of the transaction read from a record
    is this test on its two parsed dates.  Counted in days, 364 days are
    short-term, and 365 days and 367 days are long-term: a holding from
    2024-01-01 to 2024-12-31, still within one calendar year of the
    purchase, is long-term. *)
Theorem isShortTerm_fixed_threshold :
  (forall purchaseDate sellDate : Js.TimeValue,
     isShortTermGain purchaseDate sellDate = true <->
     exists p s : Z,
       purchaseDate = Some p /\ sellDate = Some s /\
       (s - p < 365 * 24 * 3600 * 1000)%Z) /\
  (forall (columnMap : Js.Obj string) (row : ExcelRow number),
     isShortTerm (transactionOfRow columnMap row) =
     isShortTermGain (parseDate (column columnMap row "purchaseDate"))
                     (parseDate (column columnMap row "sellDate"))) /\
  (forall (p : Z) (days : Z),
     isShortTermGain (Some p) (Some (p + days * Js.msPerDay)%Z) = (days <? 365)%Z) /\
  (let date serial := parseDate (VNumber (lit serial)) in
   formatDate (VNumber (lit 45292)) = "01/01/2024" /\
   formatDate (VNumber (lit 45656)) = "12/30/2024" /\
   formatDate (VNumber (lit 45657)) = "12/31/2024" /\
   formatDate (VNumber (lit 45659)) = "01/02/2025" /\
   isShortTermGain (date 45292%Z) (date 45656%Z) = true /\
   isShortTermGain (date 45292%Z) (date 45657%Z) = false /\
   isShortTermGain (date 45292%Z) (date 45659%Z) = false).
Proof.
  split; [|split; [|split]].
  - intros purchaseDate sellDate. unfold isShortTermGain, timeDifference.
    destruct sellDate as [s|], purchaseDate as [p|]; split;
      try discriminate; try (intros (p' & s' & Hp & Hs & _); discriminate).
    + intros H. apply Z.ltb_lt in H. exists p, s. repeat split. exact H.
    + intros (p' & s' & Hp & Hs & Hlt). injection Hp as <-. injection Hs as <-.
      apply Z.ltb_lt. exact Hlt.
  - reflexivity.
  - intros p days. unfold isShortTermGain, timeDifference, ONE_YEAR_MS, Js.msPerDay.
    destruct (Z.ltb_spec days 365); [apply Z.ltb_lt|apply Z.ltb_ge]; lia.
  - cbv zeta. unfold formatDate, parseDate, excelDateToString, dateOfSerial.
    rewrite !floor_sub_lit by (vm_compute; discriminate).
    repeat split; vm_compute; reflexivity.
Qed.

(** C2.  Whatever the mapping, the transactions are cut into consecutive
    chunks of 1 to 14, all but the last of 14, in their order (20
    transactions: 14 and 6), and [chunkTransactions] gives one field map
    per chunk.  When the mapping sends [{prefix}_total_proceed],
    [_total_cost], [_total_gl] and [_total_adj] to four different fields,
    as the mapping of every year does for both prefixes, these fields hold
    the sums over that chunk of the sell prices, the purchase prices, the
    gains (sell price - purchase price - adjustment) and the adjustments. *)
Theorem chunkTransactions_partition_totals
    (mapping : FieldMapping) (typePrefix : TypePrefix)
    (transactions : list (CapitalTransaction number)) :
  let forms := chunkTransactions transactions typePrefix mapping in
  let totalField name := Js.propertyKey (Js.get mapping (totalKey typePrefix name)) in
  (exists chunks : list (list (CapitalTransaction number)),
     List.concat chunks = transactions /\
     Forall (fun chunk => 1 <= List.length chunk <= 14) chunks /\
     (forall k, S k < List.length chunks -> List.length (nth k chunks []) = 14) /\
     (List.length transactions = 20 -> map (@List.length _) chunks = [14; 6]) /\
     forms = map (formOfChunk typePrefix mapping) chunks /\
     (NoDup (map totalField ["proceed"; "cost"; "gl"; "adj"]) ->
      Forall2
        (fun chunk form =>
           Js.get form (totalField "proceed")
             = Some (VNumber (Spec.sumOver (@sellPrice _) chunk)) /\
           Js.get form (totalField "cost")
             = Some (VNumber (Spec.sumOver (@purchasePrice _) chunk)) /\
           Js.get form (totalField "gl")
             = Some (VNumber (Spec.sumOver Spec.gainLoss chunk)) /\
           Js.get form (totalField "adj")
             = Some (VNumber (Spec.sumOver (@adjustment _) chunk)))
        chunks forms)) /\
  (forall (year : number) (p : TypePrefix),
     NoDup (map (fun name =>
                   Js.propertyKey (Js.get (getF8949Mapping year) (totalKey p name)))
              ["proceed"; "cost"; "gl"; "adj"])).
Proof.
  cbv zeta. split.
  - exists (Spec.slicesFrom (List.length transactions) 0 transactions).
    split; [|split; [|split; [|split; [|split]]]].
    + rewrite slicesFrom_concat by lia. reflexivity.
    + apply slicesFrom_lengths.
    + apply slicesFrom_full.
    + apply slicesFrom_20.
    + apply chunkTransactions_slices.
    + intros Hd. rewrite chunkTransactions_slices.
      induction (Spec.slicesFrom (List.length transactions) 0 transactions)
        as [|chunk chunks IH]; cbn [map]; constructor; [|exact IH].
      now apply (formOfChunk_totals typePrefix mapping chunk).
  - intros year p. rewrite getF8949Mapping_generated.
    apply total_fields_distinct.
Qed.

(** C3.  For chunk sequences of lengths m and n, [combineForms] gives the
    instances [f8949_1], ..., [f8949_max(m,n)], in this order and no
    other.  Instance [i] is [{...short[i-1], ...long[i-1]}], with the
    chunks at index [i - 1] of the two sequences, an absent chunk counting
    as the empty map.  For the chunks of short-term and of long-term
    transactions no field is in both (the short-term fields are on page 1,
    the long-term ones on page 2), so the instance holds exactly the
    entries of the one and of the other, merging in the other order gives
    the same entries, and where one of the two chunks is absent the
    instance is the other chunk. *)
Theorem combineForms_union
    (year : number) (shortTerm longTerm : list (CapitalTransaction number)) :
  (forall shortTermForms longTermForms : list (VariableMap number),
     let total := Nat.max (List.length shortTermForms) (List.length longTermForms) in
     let formsData := combineForms shortTermForms longTermForms in
     Js.keys formsData = map Spec.instanceKey (seq 1 total) /\
     (forall i, 1 <= i <= total ->
        Js.get formsData (Spec.instanceKey i) =
        Some (Js.spread (nth (i - 1) shortTermForms Js.empty)
                (nth (i - 1) longTermForms Js.empty))) /\
     (forall i, i = 0 \/ total < i ->
        Js.get formsData (Spec.instanceKey i) = None)) /\
  let mapping := getF8949Mapping year in
  let shortTermForms := chunkTransactions shortTerm st mapping in
  let longTermForms := chunkTransactions longTerm lt mapping in
  forall i,
    let short := nth (i - 1) shortTermForms Js.empty in
    let long := nth (i - 1) longTermForms Js.empty in
    (forall field, Js.get short field = None \/ Js.get long field = None) /\
    (forall field v,
       Js.get (Js.spread short long) field = Some v <->
       Js.get short field = Some v \/ Js.get long field = Some v) /\
    (forall field,
       Js.get (Js.spread long short) field = Js.get (Js.spread short long) field) /\
    (List.length longTermForms < i -> Js.spread short long = short) /\
    (List.length shortTermForms < i -> Js.spread short long = long).
Proof.
  split.
  - intros shortTermForms longTermForms. cbv zeta.
    set (total := Nat.max _ _).
    rewrite combineForms_entries. fold total.
    assert (Hk : Js.keys
                   (map (fun i => (Spec.instanceKey (i + 1),
                                   Js.spread (formAt shortTermForms i)
                                     (formAt longTermForms i)))
                      (seq 0 total)) = map Spec.instanceKey (seq 1 total)).
    { unfold Js.keys. rewrite map_map. cbn [fst].
      rewrite <- seq_shift, map_map. apply map_ext. intros i. f_equal. lia. }
    split; [exact Hk|split].
    + intros i Hi. rewrite <- !formAt_nth.
      replace i with (i - 1 + 1) at 1 by lia.
      apply (get_map_inj (fun i => Spec.instanceKey (i + 1))
               (fun i => Js.spread (formAt shortTermForms i) (formAt longTermForms i))).
      * intros a b E. apply instanceKey_inj in E. lia.
      * apply in_seq. lia.
    + intros i Hi. apply get_None. intros Hin.
      unfold Js.keys in Hin. rewrite map_map in Hin.
      apply in_map_iff in Hin. destruct Hin as (j & E & Hj). cbn [fst] in E.
      apply instanceKey_inj in E. apply in_seq in Hj. lia.
  - cbv zeta. rewrite getF8949Mapping_generated.
    set (shortTermForms := chunkTransactions shortTerm st generateF8949Mapping).
    set (longTermForms := chunkTransactions longTerm lt generateF8949Mapping).
    intros i. rewrite <- !formAt_nth.
    assert (Hdisj : forall field,
               Js.get (formAt shortTermForms (i - 1)) field = None \/
               Js.get (formAt longTermForms (i - 1)) field = None).
    { intros field.
      destruct (Js.get (formAt shortTermForms (i - 1)) field) as [v|] eqn:Es;
        [|now left].
      destruct (Js.get (formAt longTermForms (i - 1)) field) as [w|] eqn:El;
        [|now right].
      exfalso. apply (@fields_disjoint field).
      - apply (formAt_keys_fields shortTerm st (i - 1)). eapply get_Some_In; eassumption.
      - apply (formAt_keys_fields longTerm lt (i - 1)). eapply get_Some_In; eassumption. }
    pose proof (formAt_NoDup shortTerm st generateF8949Mapping (i - 1)) as Ns.
    pose proof (formAt_NoDup longTerm lt generateF8949Mapping (i - 1)) as Nl.
    fold shortTermForms in Ns. fold longTermForms in Nl.
    split; [exact Hdisj|split; [|split; [|split]]].
    + intros field v. rewrite get_spread by assumption.
      destruct (Hdisj field) as [E|E]; rewrite E.
      * destruct (Js.get (formAt longTermForms (i - 1)) field);
          split; intros H; auto; destruct H as [H|H]; congruence.
      * split; intros H; auto. destruct H as [H|H]; congruence.
    + intros field. rewrite !get_spread by assumption.
      destruct (Hdisj field) as [E|E]; rewrite E.
      * now destruct (Js.get (formAt longTermForms (i - 1)) field).
      * now destruct (Js.get (formAt shortTermForms (i - 1)) field).
    + intros Hl. rewrite (formAt_nth longTermForms).
      rewrite (nth_overflow longTermForms) by lia.
      now apply spread_empty_r.
    + intros Hs. rewrite (formAt_nth shortTermForms).
      rewrite (nth_overflow shortTermForms) by lia.
      now apply spread_empty_l.
Qed.

(** C10.  The generated table, which [getF8949Mapping] returns for every
    year, has an entry for [st_r{i}_c{j}] and [lt_r{i}_c{j}] for all
    [i < 14] and [j < 8], and for the four totals of each prefix.  A chunk
    has at most 14 rows, so every key [chunkTransactions] looks up is in
    the table, and no field map it returns has the key ["undefined"]. *)
Theorem mapping_covers_chunk_keys :
  (forall year : number, getF8949Mapping year = generateF8949Mapping) /\
  (forall (p : TypePrefix) (i j : nat),
     i < 14 -> j < 8 ->
     Js.get generateF8949Mapping (rowKey p i j) = Some (rowField p i j)) /\
  (forall (p : TypePrefix) (name : string),
     In name ["proceed"; "cost"; "gl"; "adj"] ->
     exists f, Js.get generateF8949Mapping (totalKey p name) = Some f) /\
  (forall (year : number) (p : TypePrefix)
          (transactions : list (CapitalTransaction number)) (form : VariableMap number),
     In form (chunkTransactions transactions p (getF8949Mapping year)) ->
     ~ In "undefined" (Js.keys form) /\ Js.get form "undefined" = None).
Proof.
  split; [exact getF8949Mapping_generated|split; [exact mapping_row|split]].
  - intros p name H. simpl in H.
    destruct p; destruct H as [<-|[<-|[<-|[<-|[]]]]]; vm_compute; eauto.
  - intros year p transactions form H.
    rewrite getF8949Mapping_generated in H.
    apply chunk_form_In in H. destruct H as (chunk & -> & Hl).
    assert (Hn : ~ In "undefined" (Js.keys (formOfChunk p generateF8949Mapping chunk))).
    { intros Hin. apply chunk_keys_fields in Hin; [|lia].
      now apply field_defined in Hin. }
    split; [exact Hn|]. now apply get_None.
Qed.

(** C7.  A cell is empty when it is null, undefined or the empty string.
    When the columns of the first record are detected, the transactions
    are those of the records whose quantity cell is not empty, one for
    each and in the order of the records; a record whose quantity cell is
    empty gives none, and the records after it are read as if it were not
    there.  When the columns are not detected there is no transaction. *)
Theorem parseTransactions_skips_empty_quantity
    (firstRow : ExcelRow number) (rest : list (ExcelRow number)) :
  (forall value : Value number,
     isEmpty value = true <->
     value = VNull \/ value = VUndefined \/ value = VString "") /\
  (detectColumns firstRow = None -> parseTransactions (firstRow :: rest) = Some []) /\
  forall columnMap,
    detectColumns firstRow = Some columnMap ->
    let skipped row := isEmpty (column columnMap row "quantity") in
    parseTransactions (firstRow :: rest) =
      Some (map (transactionOfRow columnMap)
              (filter (fun row => negb (skipped row)) (firstRow :: rest))) /\
    forall before row after,
      skipped row = true ->
      parseTransactions (firstRow :: before ++ row :: after) =
      parseTransactions (firstRow :: before ++ after).
Proof.
  split; [exact isEmpty_spec|split].
  { intros Hc. unfold parseTransactions. now rewrite Hc. }
  intros columnMap Hc. cbv zeta.
  assert (Hp : forall rows,
             parseTransactions (firstRow :: rows) =
             Some (map (transactionOfRow columnMap)
                     (filter (fun row => negb (isEmpty (column columnMap row "quantity")))
                        (firstRow :: rows)))).
  { intros rows. unfold parseTransactions. rewrite Hc.
    now rewrite transactionsLoop_filter. }
  split; [apply Hp|].
  intros before row after Hs. rewrite !Hp.
  do 2 f_equal. cbn [filter].
  destruct (negb (isEmpty (column columnMap firstRow "quantity")));
    rewrite !filter_app; cbn [filter]; rewrite Hs; reflexivity.
Qed.

(** C8.  The text [excelDateToString] gives depends on the serial only
    through the whole number of days [Math.floor(serial - 25569)]: two
    serials with the same number of days give the same text, and so do two
    hosts (two time zones, say) that agree on that number.  The date
    converted is midnight UTC of that many days after 1970-01-01, and for
    up to 100,000,000 days either way the text is month/day/year of the
    date of the calendar with that day number; past that, or for a serial
    that is not finite, the date is invalid and the text is NaN/NaN/NaN.
    In the years 1000 to 9999 the text has ten characters, two digits, a
    slash, two digits, a slash and the year.  Serial 45658 gives
    01/01/2025. *)
Theorem excelDateToString_is_pure :
  (forall serial serial' : number,
     floor (sub serial (lit 25569)) = floor (sub serial' (lit 25569)) ->
     excelDateToString serial = excelDateToString serial') /\
  (forall (host' : Host number) (serial : number),
     @floor _ host' (@sub _ host' serial (@lit _ host' 25569)) =
       @floor _ host (@sub _ host serial (@lit _ host 25569)) ->
     @excelDateToString _ host' serial = @excelDateToString _ host serial) /\
  (forall (serial : number) (days : Z),
     floor (sub serial (lit 25569)) = Some days ->
     (Z.abs days <= 100000000)%Z ->
     dateOfSerial serial = Some (days * Js.msPerDay)%Z /\
     ((days * Js.msPerDay) mod Js.msPerDay = 0)%Z /\
     Js.Day (days * Js.msPerDay) = days /\
     excelDateToString serial = Spec.dateText (Js.civil_from_days days) /\
     Spec.isDateOfDay days (Js.civil_from_days days) = true) /\
  (forall (serial : number) (days : Z),
     floor (sub serial (lit 25569)) = Some days ->
     (100000000 < Z.abs days)%Z ->
     dateOfSerial serial = None /\ excelDateToString serial = "NaN/NaN/NaN") /\
  (forall serial : number,
     floor (sub serial (lit 25569)) = None ->
     dateOfSerial serial = None /\ excelDateToString serial = "NaN/NaN/NaN") /\
  (forall (serial : number) (days : Z),
     floor (sub serial (lit 25569)) = Some days ->
     (Z.abs days <= 100000000)%Z ->
     (1000 <= Js.YearFromTime (days * Js.msPerDay) <= 9999)%Z ->
     String.length (excelDateToString serial) = 10 /\
     String.get 2 (excelDateToString serial) = Some "/"%char /\
     String.get 5 (excelDateToString serial) = Some "/"%char) /\
  excelDateToString (lit 45658) = "01/01/2025" /\
  parseDate (VNumber (lit 45658)) = Some 1735689600000%Z.
Proof.
  split; [|split; [|split; [|split; [|split; [|split; [|split]]]]]].
  - intros serial serial' H. rewrite !excelDateToString_days. now rewrite H.
  - intros host' serial H.
    rewrite (@excelDateToString_days _ host'), (@excelDateToString_days _ host).
    now rewrite H.
  - intros serial days H Hd. rewrite excelDateToString_days.
    unfold dateOfSerial. rewrite H, TimeClip_days.
    destruct (Z.leb_spec (Z.abs days) 100000000); [|lia].
    repeat split.
    + apply Z.mod_mul. unfold Js.msPerDay. lia.
    + apply Day_days.
    + apply civil_from_days_correct.
  - intros serial days H Hd. rewrite excelDateToString_days.
    unfold dateOfSerial. rewrite H, TimeClip_days.
    destruct (Z.leb_spec (Z.abs days) 100000000); [lia|]. now split.
  - intros serial H. rewrite excelDateToString_days.
    unfold dateOfSerial. rewrite H. now split.
  - intros serial days H Hd Hy. rewrite excelDateToString_days, H.
    destruct (Z.leb_spec (Z.abs days) 100000000); [|lia].
    unfold Js.YearFromTime in Hy. rewrite Day_days in Hy.
    pose proof (civil_from_days_correct days) as Hc.
    destruct (Js.civil_from_days days) as [[y m] d]. cbn [fst] in Hy.
    exact (@dateText_shape days y m d Hc Hy).
  - rewrite excelDateToString_days.
    rewrite floor_sub_lit by (vm_compute; discriminate). reflexivity.
  - unfold parseDate, dateOfSerial.
    rewrite floor_sub_lit by (vm_compute; discriminate). reflexivity.
Qed.

(** C9.  With [validate] true and with [validate] false, on the same rows
    and the same other options, each parser, and the registry for every
    sheet name, returns the same form ids and the same forms data: the
    option decides the validation result only. *)
Theorem validate_option_frame
    (sheetName : string) (rows : list (ExcelRow number)) (year : number)
    (skip : bool) :
  let options v := {| year := year; Types.validate := v; skipEmptyRows := skip |} in
  Spec.sameForms (F8949Parser.parse rows (options true))
                 (F8949Parser.parse rows (options false)) /\
  Spec.sameForms (F1040Parser.parse rows (options true))
                 (F1040Parser.parse rows (options false)) /\
  Spec.sameForms (ParserRegistry.parse sheetName rows (options true))
                 (ParserRegistry.parse sheetName rows (options false)).
Proof.
  cbv zeta. split; [apply F8949_parse_frame|split; [apply F1040_parse_frame|]].
  unfold ParserRegistry.parse. rewrite findParser_cases.
  destruct (F8949Parser.canParse sheetName); [apply F8949_parse_frame|].
  destruct (F1040Parser.canParse sheetName); [apply F1040_parse_frame|].
  do 2 eexists. repeat split.
Qed.

(** C6.  A sheet name that no registered parser accepts gives a result, not
    an exception: no form id, no forms data, and one error, of field
    [sheet] and message [No parser found for sheet: ] followed by the name.
    A parser accepts a name when its lower-case form is one of the parser's
    names, so the names are matched whole and without regard to case:
    [F8949] goes to the 8949 parser and [unknown_sheet] to none. *)
Theorem registry_dispatch :
  (forall (sheetName : string) (rows : list (ExcelRow number))
          (options : ParseOptions number),
     (forall parser, In parser ParserRegistry.parsers ->
                     Parser.canParse parser sheetName = false) ->
     ParserRegistry.parse sheetName rows options =
     Some {| formIds := [];
             formsData := Js.empty;
             validation :=
               {| isValid := false;
                  errors :=
                    [{| issue :=
                          {| field := "sheet";
                             message := "No parser found for sheet: " ++ sheetName |};
                        severity := error |}];
                  warnings := [] |} |}) /\
  (forall sheetName : string,
     F8949Parser.canParse sheetName = true <->
     Js.toLowerCase sheetName = "f8949" \/ Js.toLowerCase sheetName = "8949") /\
  (forall sheetName : string,
     F1040Parser.canParse sheetName = true <->
     Js.toLowerCase sheetName = "f1040" \/ Js.toLowerCase sheetName = "1040") /\
  (forall sheetName sheetName' : string,
     Js.toLowerCase sheetName = Js.toLowerCase sheetName' ->
     F8949Parser.canParse sheetName = F8949Parser.canParse sheetName' /\
     F1040Parser.canParse sheetName = F1040Parser.canParse sheetName') /\
  (forall (rows : list (ExcelRow number)) (options : ParseOptions number),
     ParserRegistry.parse "F8949" rows options = F8949Parser.parse rows options) /\
  (forall parser : Parser.t number,
     In parser ParserRegistry.parsers ->
     Parser.canParse parser "unknown_sheet" = false).
Proof.
  split; [|split; [|split; [|split; [|split]]]].
  - intros sheetName rows options H.
    unfold ParserRegistry.parse. rewrite findParser_cases.
    pose proof (H ParserRegistry.f8949Parser (or_introl eq_refl)) as H1.
    pose proof (H ParserRegistry.f1040Parser (or_intror (or_introl eq_refl))) as H2.
    cbn [Parser.canParse ParserRegistry.f8949Parser ParserRegistry.f1040Parser] in H1, H2.
    now rewrite H1, H2.
  - intros sheetName. unfold F8949Parser.canParse.
    rewrite orb_true_iff, !String.eqb_eq. reflexivity.
  - intros sheetName. unfold F1040Parser.canParse.
    rewrite orb_true_iff, !String.eqb_eq. reflexivity.
  - intros sheetName sheetName' H.
    unfold F8949Parser.canParse, F1040Parser.canParse. now rewrite H.
  - reflexivity.
  - intros parser [<-|[<-|[]]]; reflexivity.
Qed.

(** C5.  In the labeled format a record with an empty variable cell is
    passed over when [skipEmptyRows] is true and ends the scan when it is
    false.  In the two-column format such a record ends the scan whatever
    [skipEmptyRows] is: with the option true, the records
    Line 1a = 100, an empty one, Line 1b = 200 under the headers Variable
    and Value give the field of line 1a only. *)
Theorem empty_variable_in_both_formats :
  (forall variableCol valueCol mapping (row : ExcelRow number) before after fieldValues,
     isEmpty (cell row variableCol) = true ->
     F1040Parser.columnLoop variableCol valueCol mapping true
       (before ++ row :: after) fieldValues =
     F1040Parser.columnLoop variableCol valueCol mapping true
       (before ++ after) fieldValues) /\
  (forall variableCol valueCol mapping (row : ExcelRow number) before after fieldValues,
     isEmpty (cell row variableCol) = true ->
     F1040Parser.columnLoop variableCol valueCol mapping false
       (before ++ row :: after) fieldValues =
     F1040Parser.columnLoop variableCol valueCol mapping false before fieldValues) /\
  (forall variableCol valueCol mapping (row : ExcelRow number) before after fieldValues,
     isEmpty (cell row variableCol) = true ->
     F1040Parser.simpleLoop variableCol valueCol mapping
       (before ++ row :: after) fieldValues =
     F1040Parser.simpleLoop variableCol valueCol mapping before fieldValues) /\
  (forall year : number,
     let record variable value : ExcelRow number :=
       [("Variable", VString variable); ("Value", VString value)] in
     option_map (@formsData number)
       (F1040Parser.parse
          [record "Line 1a" "100"; record "" ""; record "Line 1b" "200"]
          {| year := year; Types.validate := false; skipEmptyRows := true |}) =
     Some [("f1040", [("topmostSubform[0].Page1[0].f1_47[0]", VString "100")])]) /\
  (forall (year : number) (skip : bool),
     let record variable value : ExcelRow number :=
       [("Variable Name", VString variable); ("Value ($)", VString value)] in
     option_map (@formsData number)
       (F1040Parser.parse
          [record "Line" "Amount"; record "Line 1a" "100"; record "" "";
           record "Line 1b" "200"]
          {| year := year; Types.validate := false; skipEmptyRows := skip |}) =
     Some [("f1040",
            if skip
            then [("topmostSubform[0].Page1[0].f1_47[0]", VString "100");
                  ("topmostSubform[0].Page1[0].f1_48[0]", VString "200")]
            else [("topmostSubform[0].Page1[0].f1_47[0]", VString "100")])]).
Proof.
  split; [|split; [|split; [|split]]].
  - intros. now apply columnLoop_skip.
  - intros. now apply columnLoop_break.
  - intros. now apply simpleLoop_break.
  - intros year. cbv zeta. unfold F1040Parser.parse.
    rewrite getF1040Mapping_2025. vm_compute. reflexivity.
  - intros year skip. cbv zeta. unfold F1040Parser.parse.
    rewrite getF1040Mapping_2025. destruct skip; vm_compute; reflexivity.
Qed.

(** C4.  Both parsers answer an empty list of records with no form id and
    the error [No data found in sheet], and the 8949 parser answers
    records that give no transaction, such as records that are all empty,
    with no form id and the error [No valid transactions found].  The 1040
    parser returns the form id [f1040] for every list of records that is
    not empty: for one record whose cells are all empty, without
    validation, the result is valid, has no error, and its form has no
    field. *)
Theorem no_data_results :
  (forall options : ParseOptions number,
     F8949Parser.parse [] options =
       Some (createParseResult [] Js.empty
               (createValidationResult false
                  [{| field := "sheet"; message := "No data found in sheet" |}] [])) /\
     F1040Parser.parse [] options =
       Some (createParseResult [] Js.empty
               (createValidationResult false
                  [{| field := "sheet"; message := "No data found in sheet" |}] []))) /\
  (forall (firstRow : ExcelRow number) rest (options : ParseOptions number),
     F8949Parser.parseTransactions (firstRow :: rest) = Some [] ->
     F8949Parser.parse (firstRow :: rest) options =
       Some (createParseResult [] Js.empty
               (createValidationResult false
                  [{| field := "data"; message := "No valid transactions found" |}] []))) /\
  (forall (firstRow : ExcelRow number) rest,
     forallb Spec.emptyRecord (firstRow :: rest) = true ->
     F8949Parser.parseTransactions (firstRow :: rest) = Some []) /\
  (forall (firstRow : ExcelRow number) rest (options : ParseOptions number),
     option_map (@formIds number) (F1040Parser.parse (firstRow :: rest) options)
     = Some ["f1040"]) /\
  (forall year skip,
     let emptyRow : ExcelRow number := [("Variable", VString ""); ("Value", VString "")] in
     Spec.emptyRecord emptyRow = true /\
     F1040Parser.parse [emptyRow]
       {| year := year; Types.validate := false; skipEmptyRows := skip |} =
     Some {| formIds := ["f1040"];
             formsData := [("f1040", [])];
             validation := {| isValid := true; errors := []; warnings := [] |} |} /\
     F1040Parser.parse [emptyRow]
       {| year := year; Types.validate := true; skipEmptyRows := skip |} =
     Some {| formIds := ["f1040"];
             formsData := [("f1040", [])];
             validation :=
               createValidationResult false
                 [{| field := "f1040"; message := "No data found for Form 1040" |}]
                 [] |}).
Proof.
  split; [|split; [|split; [|split]]].
  - intros options. split; reflexivity.
  - intros firstRow rest options H. unfold F8949Parser.parse.
    cbn [List.length Nat.eqb]. rewrite H. reflexivity.
  - intros firstRow rest H. unfold F8949Parser.parseTransactions.
    destruct (F8949Parser.detectColumns firstRow) as [columnMap|] eqn:Hc;
      [|reflexivity].
    rewrite transactionsLoop_filter. f_equal. cbn [app].
    rewrite forallb_forall in H.
    induction (firstRow :: rest) as [|row rows IH]; [reflexivity|].
    cbn [filter].
    rewrite (@emptyRecord_column _ firstRow row columnMap "quantity" Hc)
      by (apply H; now left).
    cbn [negb]. apply IH. intros r Hr. apply H. now right.
  - intros firstRow rest options. reflexivity.
  - intros year skip. cbv zeta. split; [reflexivity|].
    unfold F1040Parser.parse. rewrite getF1040Mapping_2025. split; reflexivity.
Qed.


End Claims.

(** ** Texts *)

Section TextFacts.

Lemma prefix_app (p s : string) :
  String.prefix p s = true <-> exists b, s = p ++ b.
Proof.
  revert s. induction p as [|c p IH]; intros s.
  - split; [intros _; now exists s|intros _; now destruct s].
  - destruct s as [|d s]; cbn [String.prefix append].
    + split; [discriminate|intros (b & E); discriminate].
    + destruct (ascii_dec c d) as [->|N].
      * rewrite IH. split; intros (b & E); exists b; congruence.
      * split; [discriminate|intros (b & E); congruence].
Qed.

Lemma includes_Within (s sub : string) :
  Js.includes s sub = true <-> Spec.Within sub s.
Proof.
  unfold Spec.Within. induction s as [|c s IH]; cbn [Js.includes].
  - destruct (String.prefix sub "") eqn:P.
    + apply prefix_app in P. destruct P as (b & E).
      split; [intros _; now exists "", b|reflexivity].
    + split; [discriminate|]. intros (a & b & E).
      destruct a; [|discriminate].
      assert (P' : String.prefix sub "" = true) by (apply prefix_app; now exists b).
      congruence.
  - destruct (String.prefix sub (String c s)) eqn:P.
    + apply prefix_app in P. destruct P as (b & E).
      split; [intros _; now exists "", b|reflexivity].
    + rewrite IH. split; intros (a & b & E).
      * exists (String c a), b. cbn [append]. now rewrite E.
      * destruct a as [|d a].
        -- assert (P' : String.prefix sub (String c s) = true)
             by (apply prefix_app; now exists b).
           congruence.
        -- exists a, b. cbn [append] in E. congruence.
Qed.

Lemma append_assoc' (a b c : string) : (a ++ b) ++ c = a ++ b ++ c.
Proof. induction a as [|x a IH]; cbn [append]; [reflexivity|now rewrite IH]. Qed.

Lemma append_empty_r (a : string) : a ++ "" = a.
Proof. induction a as [|x a IH]; cbn [append]; [reflexivity|now rewrite IH]. Qed.

Lemma toLowerCase_app (a b : string) :
  Js.toLowerCase (a ++ b) = Js.toLowerCase a ++ Js.toLowerCase b.
Proof.
  induction a as [|x a IH]; cbn [append Js.toLowerCase]; [reflexivity|now rewrite IH].
Qed.

(** [Js.blank] and [Js.trimStart] on the UTF-8 form of each white space. *)
Lemma space_bytes (cp : N) (s : string) :
  In cp Spec.whiteSpace ->
  Js.trimStart (Spec.utf8 cp ++ s) = Js.trimStart s /\
  Js.blank (Spec.utf8 cp ++ s) = Js.blank s /\
  Js.toLowerCase (Spec.utf8 cp) = Spec.utf8 cp /\
  Spec.utf8 cp <> "".
Proof.
  intros H. cbn [Spec.whiteSpace In] in H.
  repeat (destruct H as [<-|H];
          [split; [reflexivity|split; [reflexivity|split; [reflexivity|discriminate]]]|]).
  destruct H.
Qed.

Lemma Blank_app (a b : string) : Spec.Blank a -> Spec.Blank b -> Spec.Blank (a ++ b).
Proof.
  induction 1 as [|cp a Hc Ha IH]; intros Hb; [exact Hb|].
  rewrite append_assoc'. apply Spec.Blank_space; auto.
Qed.

Lemma Blank_bytes (a s : string) :
  Spec.Blank a ->
  Js.trimStart (a ++ s) = Js.trimStart s /\
  Js.blank (a ++ s) = Js.blank s /\
  Js.toLowerCase a = a.
Proof.
  induction 1 as [|cp a Hc Ha IH]; [now repeat split|].
  destruct (space_bytes (a ++ s) Hc) as (T & B & L & _).
  destruct IH as (T' & B' & L').
  rewrite append_assoc', T, B, toLowerCase_app, L, L'. now repeat split.
Qed.

Lemma Blank_blank (a : string) : Spec.Blank a -> Js.blank a = true.
Proof.
  intros H. destruct (Blank_bytes "" H) as (_ & B & _).
  now rewrite append_empty_r in B.
Qed.


Lemma ascii_of_code (c : ascii) (n : nat) : nat_of_ascii c = n -> c = ascii_of_nat n.
Proof. intros <-. now rewrite ascii_nat_embedding. Qed.

(** Each test of [Js.trim] holds of the UTF-8 form of a white space only. *)
Lemma is_space_utf8 (c : ascii) :
  Js.is_space c = true ->
  exists cp, In cp Spec.whiteSpace /\ forall s, String c s = Spec.utf8 cp ++ s.
Proof.
  unfold Js.is_space. cbv zeta. intros H.
  assert (E : nat_of_ascii c = 9 \/ nat_of_ascii c = 10 \/ nat_of_ascii c = 11 \/
              nat_of_ascii c = 12 \/ nat_of_ascii c = 13 \/ nat_of_ascii c = 32).
  { apply orb_true_iff in H. destruct H as [H|H].
    - apply andb_true_iff in H. destruct H as [H1 H2].
      apply Nat.leb_le in H1, H2. lia.
    - apply Nat.eqb_eq in H. lia. }
  clear H.
  destruct E as [E|[E|[E|[E|[E|E]]]]]; apply ascii_of_code in E; subst c;
    [exists 0x9%N|exists 0xA%N|exists 0xB%N|exists 0xC%N|exists 0xD%N|exists 0x20%N];
    (split; [cbn [Spec.whiteSpace In]; tauto|reflexivity]).
Qed.

Lemma is_space2_utf8 (c1 c2 : ascii) :
  Js.is_space2 c1 c2 = true ->
  exists cp,
    In cp Spec.whiteSpace /\ forall s, String c1 (String c2 s) = Spec.utf8 cp ++ s.
Proof.
  unfold Js.is_space2. intros H.
  apply andb_true_iff in H. rewrite !Nat.eqb_eq in H. destruct H as [E1 E2].
  apply ascii_of_code in E1, E2. subst.
  exists 0xA0%N. split; [cbn [Spec.whiteSpace In]; tauto|reflexivity].
Qed.

Lemma is_space3_utf8 (c1 c2 c3 : ascii) :
  Js.is_space3 c1 c2 c3 = true ->
  exists cp,
    In cp Spec.whiteSpace /\
    forall s, String c1 (String c2 (String c3 s)) = Spec.utf8 cp ++ s.
Proof.
  unfold Js.is_space3. cbv zeta. intros H.
  repeat (rewrite orb_true_iff in H || rewrite andb_true_iff in H).
  rewrite !Nat.leb_le, !Nat.eqb_eq in H.
  assert (E : exists n1 n2 n3 cp,
             nat_of_ascii c1 = n1 /\ nat_of_ascii c2 = n2 /\ nat_of_ascii c3 = n3 /\
             In (n1, n2, n3, cp)
               [(225, 154, 128, 0x1680%N); (226, 128, 128, 0x2000%N);
                (226, 128, 129, 0x2001%N); (226, 128, 130, 0x2002%N);
                (226, 128, 131, 0x2003%N); (226, 128, 132, 0x2004%N);
                (226, 128, 133, 0x2005%N); (226, 128, 134, 0x2006%N);
                (226, 128, 135, 0x2007%N); (226, 128, 136, 0x2008%N);
                (226, 128, 137, 0x2009%N); (226, 128, 138, 0x200A%N);
                (226, 128, 168, 0x2028%N); (226, 128, 169, 0x2029%N);
                (226, 128, 175, 0x202F%N); (226, 129, 159, 0x205F%N);
                (227, 128, 128, 0x3000%N); (239, 187, 191, 0xFEFF%N)]).
  { destruct H as [(E1 & E2 & E3)|[(E1 & E2 & E3)|[(E1 & E2 & E3)|[(E1 & E2 & E3)|(E1 & E2 & E3)]]]];
      rewrite E1, E2.
    - rewrite E3. do 4 eexists. repeat split. cbn [In]. tauto.
    - assert (K : nat_of_ascii c3 = 128 \/ nat_of_ascii c3 = 129 \/
                  nat_of_ascii c3 = 130 \/ nat_of_ascii c3 = 131 \/
                  nat_of_ascii c3 = 132 \/ nat_of_ascii c3 = 133 \/
                  nat_of_ascii c3 = 134 \/ nat_of_ascii c3 = 135 \/
                  nat_of_ascii c3 = 136 \/ nat_of_ascii c3 = 137 \/
                  nat_of_ascii c3 = 138 \/ nat_of_ascii c3 = 168 \/
                  nat_of_ascii c3 = 169 \/ nat_of_ascii c3 = 175) by lia.
      clear E3.
      repeat (destruct K as [K|K];
              [rewrite K; do 4 eexists; repeat split; cbn [In]; tauto|]).
      rewrite K. do 4 eexists. repeat split. cbn [In]. tauto.
    - rewrite E3. do 4 eexists. repeat split. cbn [In]. tauto.
    - rewrite E3. do 4 eexists. repeat split. cbn [In]. tauto.
    - rewrite E3. do 4 eexists. repeat split. cbn [In]. tauto. }
  destruct E as (n1 & n2 & n3 & cp & E1 & E2 & E3 & Hin).
  apply ascii_of_code in E1, E2, E3. subst c1 c2 c3. exists cp.
  cbn [In] in Hin.
  repeat (destruct Hin as [Hin|Hin];
          [injection Hin as <- <- <- <-;
           split; [cbn [Spec.whiteSpace In]; tauto|reflexivity]|]).
  destruct Hin.
Qed.

Lemma trimStart_head (s : string) :
  forall c1 s1,
    Js.trimStart s = String c1 s1 ->
    Js.is_space c1 = false /\
    forall c2 s2,
      s1 = String c2 s2 ->
      Js.is_space2 c1 c2 = false /\
      forall c3 s3, s2 = String c3 s3 -> Js.is_space3 c1 c2 c3 = false.
Proof.
  assert (G : forall n s, String.length s <= n ->
              forall c1 s1,
                Js.trimStart s = String c1 s1 ->
                Js.is_space c1 = false /\
                forall c2 s2,
                  s1 = String c2 s2 ->
                  Js.is_space2 c1 c2 = false /\
                  forall c3 s3, s2 = String c3 s3 -> Js.is_space3 c1 c2 c3 = false).
  { induction n as [|n IH]; intros s0 Hl c1 s1.
    - destruct s0; [discriminate|cbn [String.length] in Hl; lia].
    - destruct s0 as [|a1 t1]; [discriminate|]. cbn [String.length] in Hl.
      cbn [Js.trimStart].
      destruct (Js.is_space a1) eqn:E1; [apply IH; lia|].
      destruct t1 as [|a2 t2].
      { intros [= <- <-]. split; [exact E1|discriminate]. }
      cbn [String.length] in Hl.
      destruct (Js.is_space2 a1 a2) eqn:E2; [apply IH; lia|].
      destruct t2 as [|a3 t3].
      { intros [= <- <-]. split; [exact E1|].
        intros c2 s2 [= <- <-]. split; [exact E2|discriminate]. }
      cbn [String.length] in Hl.
      destruct (Js.is_space3 a1 a2 a3) eqn:E3; [apply IH; lia|].
      intros [= <- <-]. split; [exact E1|].
      intros c2 s2 [= <- <-]. split; [exact E2|].
      intros c3 s3 [= <- <-]. exact E3. }
  exact (G (String.length s) s (le_n _)).
Qed.

Lemma trimStart_not_space (s r : string) (cp : N) :
  In cp Spec.whiteSpace -> Js.trimStart s <> Spec.utf8 cp ++ r.
Proof.
  intros H E. cbn [Spec.whiteSpace In] in H.
  repeat (destruct H as [<-|H];
          [match type of E with
           | _ = ?t => let v := eval vm_compute in t in change t with v in E
           end;
           apply trimStart_head in E; destruct E as (A & B);
           try discriminate A;
           destruct (B _ _ eq_refl) as (A2 & B2); try discriminate A2;
           discriminate (B2 _ _ eq_refl)|]).
  destruct H.
Qed.

(** What [Js.trimStart] removes is white space. *)
Lemma trimStart_split (s : string) :
  exists a, Spec.Blank a /\ s = a ++ Js.trimStart s.
Proof.
  assert (G : forall n s, String.length s <= n ->
              exists a, Spec.Blank a /\ s = a ++ Js.trimStart s).
  { induction n as [|n IH]; intros s0 Hl.
    - destruct s0; [|cbn [String.length] in Hl; lia].
      exists "". split; [constructor|reflexivity].
    - destruct s0 as [|a1 t1]; [exists ""; split; [constructor|reflexivity]|].
      cbn [String.length] in Hl. cbn [Js.trimStart].
      destruct (Js.is_space a1) eqn:E1.
      { destruct (is_space_utf8 _ E1) as (cp & Hc & Hs).
        destruct (IH t1) as (a & Ha & E); [lia|].
        exists (Spec.utf8 cp ++ a). split; [now constructor|].
        rewrite append_assoc', <- E. apply Hs. }
      destruct t1 as [|a2 t2]; [exists ""; split; [constructor|reflexivity]|].
      cbn [String.length] in Hl.
      destruct (Js.is_space2 a1 a2) eqn:E2.
      { destruct (is_space2_utf8 _ _ E2) as (cp & Hc & Hs).
        destruct (IH t2) as (a & Ha & E); [lia|].
        exists (Spec.utf8 cp ++ a). split; [now constructor|].
        rewrite append_assoc', <- E. apply Hs. }
      destruct t2 as [|a3 t3]; [exists ""; split; [constructor|reflexivity]|].
      cbn [String.length] in Hl.
      destruct (Js.is_space3 a1 a2 a3) eqn:E3.
      { destruct (is_space3_utf8 _ _ _ E3) as (cp & Hc & Hs).
        destruct (IH t3) as (a & Ha & E); [lia|].
        exists (Spec.utf8 cp ++ a). split; [now constructor|].
        rewrite append_assoc', <- E. apply Hs. }
      exists "". split; [constructor|reflexivity]. }
  exact (G (String.length s) s (le_n _)).
Qed.

Lemma blank_Blank (s : string) : Js.blank s = true -> Spec.Blank s.
Proof.
  assert (G : forall n s, String.length s <= n -> Js.blank s = true -> Spec.Blank s).
  { induction n as [|n IH]; intros s0 Hl.
    - destruct s0; [constructor|cbn [String.length] in Hl; lia].
    - destruct s0 as [|a1 t1]; [constructor|].
      cbn [String.length] in Hl. cbn [Js.blank].
      destruct (Js.is_space a1) eqn:E1.
      { destruct (is_space_utf8 _ E1) as (cp & Hc & Hs). intros Hb.
        rewrite Hs. constructor; [exact Hc|]. apply IH; [lia|exact Hb]. }
      destruct t1 as [|a2 t2]; [discriminate|].
      cbn [String.length] in Hl.
      destruct (Js.is_space2 a1 a2) eqn:E2.
      { destruct (is_space2_utf8 _ _ E2) as (cp & Hc & Hs). intros Hb.
        rewrite Hs. constructor; [exact Hc|]. apply IH; [lia|exact Hb]. }
      destruct t2 as [|a3 t3]; [discriminate|].
      cbn [String.length] in Hl.
      destruct (Js.is_space3 a1 a2 a3) eqn:E3; [|discriminate].
      destruct (is_space3_utf8 _ _ _ E3) as (cp & Hc & Hs). intros Hb.
      rewrite Hs. constructor; [exact Hc|]. apply IH; [lia|exact Hb]. }
  exact (G (String.length s) s (le_n _)).
Qed.

(** What [Js.trimEnd] removes is white space. *)
Lemma trimEnd_split (s : string) :
  exists b, Spec.Blank b /\ s = Js.trimEnd s ++ b.
Proof.
  induction s as [|c s IH].
  - exists "". split; [constructor|reflexivity].
  - cbn [Js.trimEnd]. destruct (Js.blank (String c s)) eqn:B.
    + exists (String c s). split; [now apply blank_Blank|reflexivity].
    + destruct IH as (b & Hb & E). exists b. split; [exact Hb|].
      cbn [append]. now rewrite <- E.
Qed.

Lemma trimEnd_not_space (s r : string) (cp : N) :
  In cp Spec.whiteSpace -> Js.trimEnd s <> r ++ Spec.utf8 cp.
Proof.
  intros Hc. revert r. induction s as [|c s IH]; intros r.
  - cbn [Js.trimEnd]. destruct (space_bytes "" Hc) as (_ & _ & _ & Hn).
    destruct r; cbn [append]; [congruence|discriminate].
  - cbn [Js.trimEnd]. destruct (Js.blank (String c s)) eqn:B.
    + destruct (space_bytes "" Hc) as (_ & _ & _ & Hn).
      destruct r; cbn [append]; [congruence|discriminate].
    + destruct r as [|d r]; cbn [append].
      * intros E.
        destruct (trimEnd_split (String c s)) as (b & Hb & Es).
        cbn [Js.trimEnd] in Es. rewrite B, E in Es.
        destruct (space_bytes b Hc) as (_ & Bb & _).
        rewrite Es, Bb, (Blank_blank Hb) in B. discriminate.
      * intros E. injection E as _ E. exact (IH _ E).
Qed.

(** [Js.trim] gives the text without the white space at its two ends. *)
Lemma trim_Trimmed (s : string) : Spec.Trimmed s (Js.trim s).
Proof.
  unfold Spec.Trimmed, Js.trim.
  destruct (trimStart_split s) as (a & Ha & Ea).
  destruct (trimEnd_split (Js.trimStart s)) as (b & Hb & Eb).
  split.
  - exists a, b. split; [exact Ha|split; [exact Hb|]].
    now rewrite <- Eb.
  - intros cp r Hc. split; [|now apply trimEnd_not_space].
    intros E. apply (@trimStart_not_space s (r ++ b) cp Hc).
    now rewrite Eb, E, append_assoc'.
Qed.

Lemma trim_Blank (s : string) : Spec.Blank s -> Js.trim (Js.toLowerCase s) = "".
Proof.
  intros H. unfold Js.trim.
  destruct (Blank_bytes "" H) as (T & _ & L).
  rewrite L. rewrite append_empty_r in T. now rewrite T.
Qed.

End TextFacts.

(** ** Column detection *)

Section ColumnFacts.

Import FormParser F8949Parser.

Context {number : Type} {host : Host number}.

Lemma find_first (A : Type) (f : A -> bool) (l : list A) (x : A) :
  find f l = Some x ->
  f x = true /\
  exists before after,
    l = (before ++ x :: after)%list /\ forall y, In y before -> f y = false.
Proof.
  induction l as [|a l IH]; simpl; [discriminate|].
  destruct (f a) eqn:E.
  - intros H. injection H as <-. split; [exact E|].
    exists [], l. split; [reflexivity|intros y []].
  - intros H. destruct (IH H) as (Hx & before & after & -> & Hb).
    split; [exact Hx|]. exists (a :: before), after. split; [reflexivity|].
    intros y [<-|Hy]; [exact E|now apply Hb].
Qed.

Lemma requiredLoop_Some (firstRow : ExcelRow number) (roles : list string) :
  forall columnMap result,
    NoDup roles ->
    requiredLoop firstRow roles columnMap = Some result ->
    (forall role, In role roles ->
       exists h, foundColumn (findColumn firstRow role) = Some h /\
                 Js.get result role = Some h) /\
    (forall role, ~ In role roles -> Js.get result role = Js.get columnMap role).
Proof.
  induction roles as [|key roles IH]; intros columnMap result Hd H; simpl in H.
  - injection H as <-. split; [intros role []|reflexivity].
  - inversion Hd as [|? ? Hn Hd']; subst.
    destruct (foundColumn (findColumn firstRow key)) as [found|] eqn:E; [|discriminate].
    destruct (IH _ _ Hd' H) as [Hin Hout]. split.
    + intros role [<-|Hr]; [|now apply Hin].
      exists found. split; [exact E|].
      rewrite Hout by exact Hn. apply get_set_same.
    + intros role Hr. rewrite Hout by (intros K; apply Hr; now right).
      apply get_set_other. intros ->. apply Hr. now left.
Qed.

Lemma requiredLoop_None (firstRow : ExcelRow number) (roles : list string) :
  forall columnMap,
    requiredLoop firstRow roles columnMap = None <->
    exists role, In role roles /\ foundColumn (findColumn firstRow role) = None.
Proof.
  induction roles as [|key roles IH]; intros columnMap; simpl.
  - split; [discriminate|intros (role & [] & _)].
  - destruct (foundColumn (findColumn firstRow key)) as [found|] eqn:E.
    + rewrite IH. split; intros (role & Hr & Hf).
      * exists role. split; [now right|exact Hf].
      * destruct Hr as [<-|Hr]; [congruence|]. exists role. now split.
    + split; [|reflexivity]. intros _. exists key. split; [now left|exact E].
Qed.

Lemma optionalLoop_spec (firstRow : ExcelRow number) (roles : list string) :
  forall columnMap,
    NoDup roles ->
    (forall role, In role roles ->
       Js.get (optionalLoop firstRow roles columnMap) role =
       match foundColumn (findColumn firstRow role) with
       | Some h => Some h
       | None => Js.get columnMap role
       end) /\
    (forall role, ~ In role roles ->
       Js.get (optionalLoop firstRow roles columnMap) role = Js.get columnMap role).
Proof.
  unfold optionalLoop.
  induction roles as [|key roles IH]; intros columnMap Hd; simpl.
  - split; [intros role []|reflexivity].
  - inversion Hd as [|? ? Hn Hd']; subst.
    destruct (IH (match foundColumn (findColumn firstRow key) with
                  | Some found => Js.set columnMap key found
                  | None => columnMap
                  end) Hd') as [Hin Hout].
    split.
    + intros role [<-|Hr].
      * rewrite Hout by exact Hn.
        destruct (foundColumn (findColumn firstRow key));
          [apply get_set_same|reflexivity].
      * rewrite (Hin role Hr).
        destruct (foundColumn (findColumn firstRow role)); [reflexivity|].
        destruct (foundColumn (findColumn firstRow key)); [|reflexivity].
        apply get_set_other. intros ->. contradiction.
    + intros role Hr. rewrite Hout by (intros K; apply Hr; now right).
      destruct (foundColumn (findColumn firstRow key)); [|reflexivity].
      apply get_set_other. intros ->. apply Hr. now left.
Qed.

Lemma roles_NoDup : NoDup requiredColumns /\ NoDup optionalColumns.
Proof.
  split; unfold requiredColumns, optionalColumns;
    repeat (constructor; [simpl; intuition discriminate|]); constructor.
Qed.

Lemma find_app_first (A : Type) (f : A -> bool) (before after : list A) (x : A) :
  (forall y, In y before -> f y = false) -> f x = true ->
  find f (before ++ x :: after) = Some x.
Proof.
  intros Hb Hx. induction before as [|a before IH]; cbn [app find].
  - now rewrite Hx.
  - rewrite (Hb a) by now left. apply IH. intros y Hy. apply Hb. now right.
Qed.

(** X1.  When [detectColumns] succeeds, every required role has the header
    it resolves to, the optional roles have theirs when they resolve and
    are absent otherwise, and nothing else is in the map; it fails exactly
    when a required role does not resolve.  A role resolves to a header
    exactly when that header is the first, in the order of the keys of the
    first record, that matches one of the known names of the role, and is
    not the empty string.  A header matches a name when, in lower case and
    without the white space at its two ends, it contains the name or the
    name contains it. *)
Theorem detectColumns_resolution (firstRow : ExcelRow number) :
  let resolved role := foundColumn (findColumn firstRow role) in
  let normalized h := Js.trim (Js.toLowerCase h) in
  (forall columnMap,
     detectColumns firstRow = Some columnMap ->
     (forall role, In role requiredColumns ->
        exists h, resolved role = Some h /\ Js.get columnMap role = Some h) /\
     (forall role, In role optionalColumns ->
        Js.get columnMap role = resolved role) /\
     (forall role, ~ In role (requiredColumns ++ optionalColumns)%list ->
        Js.get columnMap role = None)) /\
  (detectColumns firstRow = None <->
   exists role, In role requiredColumns /\ resolved role = None) /\
  (forall role h,
     resolved role = Some h <->
     h <> "" /\
     exists names before after,
       Js.get EXPECTED_HEADERS role = Some names /\
       Js.keys firstRow = (before ++ h :: after)%list /\
       headerMatches names h = true /\
       forall k, In k before -> headerMatches names k = false) /\
  (forall names h,
     headerMatches names h = true <->
     exists ph,
       In ph names /\
       (Spec.Within ph (normalized h) \/ Spec.Within (normalized h) ph)) /\
  (forall h, Spec.Trimmed (Js.toLowerCase h) (normalized h)).
Proof.
  cbv zeta. destruct roles_NoDup as [Nr No]. split; [|split; [|split; [|split]]].
  - intros columnMap H. unfold detectColumns in H.
    destruct (requiredLoop firstRow requiredColumns Js.empty) as [cm|] eqn:E;
      [|discriminate].
    assert (Hc : columnMap = optionalLoop firstRow optionalColumns cm) by congruence.
    rewrite Hc. clear H Hc columnMap.
    destruct (@requiredLoop_Some _ _ _ _ Nr E) as [Rin Rout].
    destruct (@optionalLoop_spec firstRow optionalColumns cm No) as [Oin Oout].
    split; [|split].
    + intros role Hr. destruct (Rin role Hr) as (h & Hh & Hg).
      exists h. split; [exact Hh|]. rewrite Oout; [exact Hg|].
      unfold requiredColumns, optionalColumns in *. simpl in *.
      intuition (subst; discriminate).
    + intros role Hr. rewrite (Oin role Hr).
      destruct (foundColumn (findColumn firstRow role)); [reflexivity|].
      rewrite Rout; [reflexivity|].
      unfold requiredColumns, optionalColumns in *. simpl in *.
      intuition (subst; discriminate).
    + intros role Hr. rewrite Oout, Rout; [reflexivity| |];
        intros K; apply Hr; apply in_or_app; auto.
  - unfold detectColumns. rewrite <- requiredLoop_None with (columnMap := Js.empty).
    destruct (requiredLoop firstRow requiredColumns Js.empty); split;
      congruence.
  - intros role h. split.
    + intros H. unfold foundColumn in H.
      destruct (findColumn firstRow role) as [col|] eqn:E; [|discriminate].
      destruct (String.eqb_spec col ""); [discriminate|]. injection H as <-.
      split; [assumption|]. unfold findColumn in E.
      destruct (Js.get EXPECTED_HEADERS role) as [names|] eqn:G.
      * apply find_first in E. destruct E as (Hm & before & after & Hk & Hb).
        exists names, before, after. auto.
      * apply find_first in E. destruct E as (Hm & _). discriminate Hm.
    + intros (Hne & names & before & after & G & Hk & Hm & Hb).
      unfold foundColumn, findColumn. rewrite G, Hk.
      rewrite (find_app_first _ before after h Hb Hm).
      apply String.eqb_neq in Hne. now rewrite Hne.
  - intros names h. unfold headerMatches. rewrite existsb_exists.
    split; intros (ph & Hin & H); exists ph; (split; [exact Hin|]).
    + apply orb_true_iff in H.
      destruct H as [H|H]; apply includes_Within in H; auto.
    + apply orb_true_iff.
      destruct H as [H|H]; apply includes_Within in H; auto.
  - intros h. apply trim_Trimmed.
Qed.

Lemma headerMatches_blank (names : list string) (k : string) :
  names <> [] -> Js.trim (Js.toLowerCase k) = "" -> headerMatches names k = true.
Proof.
  intros Hn Hk. unfold headerMatches. rewrite Hk.
  destruct names as [|ph names]; [congruence|]. simpl.
  assert (E : Js.includes ph "" = true) by (destruct ph; reflexivity).
  rewrite E. now rewrite orb_true_r.
Qed.

(** X2.  A first header of white space only (spaces, tabs, line ends,
    no-break spaces, byte order marks and the other white space of
    ECMAScript), or empty, matches the known names of every role.  When it
    is the empty string detection fails; otherwise all eight roles resolve
    to it. *)
Theorem blank_first_header (k : string) (v : Value number) (rest : ExcelRow number) :
  Spec.Blank k ->
  (k = "" -> detectColumns ((k, v) :: rest) = None) /\
  (k <> "" ->
   detectColumns ((k, v) :: rest) =
   Some [("quantity", k); ("name", k); ("purchaseDate", k); ("sellDate", k);
         ("purchasePrice", k); ("sellPrice", k); ("code", k); ("adjustment", k)]).
Proof.
  intros Hb. pose proof (trim_Blank Hb) as Hk.
  assert (F : forall role names,
             Js.get EXPECTED_HEADERS role = Some names -> names <> [] ->
             findColumn ((k, v) :: rest) role = Some k).
  { intros role names G Hn. unfold findColumn. rewrite G. simpl.
    now rewrite headerMatches_blank. }
  assert (Fq := F "quantity" _ eq_refl ltac:(discriminate)).
  assert (Fn := F "name" _ eq_refl ltac:(discriminate)).
  assert (Fp := F "purchaseDate" _ eq_refl ltac:(discriminate)).
  assert (Fs := F "sellDate" _ eq_refl ltac:(discriminate)).
  assert (Fpp := F "purchasePrice" _ eq_refl ltac:(discriminate)).
  assert (Fsp := F "sellPrice" _ eq_refl ltac:(discriminate)).
  assert (Fc := F "code" _ eq_refl ltac:(discriminate)).
  assert (Fa := F "adjustment" _ eq_refl ltac:(discriminate)).
  split.
  - intros ->. unfold detectColumns, requiredColumns. cbn [requiredLoop].
    rewrite Fq. reflexivity.
  - intros Hne. unfold detectColumns, requiredColumns, optionalColumns, optionalLoop.
    cbn [requiredLoop fold_left].
    rewrite Fq, Fn, Fp, Fs, Fpp, Fsp, Fc, Fa. unfold foundColumn.
    apply String.eqb_neq in Hne. rewrite Hne. reflexivity.
Qed.

End ColumnFacts.

Lemma blank_first_header_witness :
  let k := Spec.utf8 0xA0 in
  F8949Parser.detectColumns ([(k, VString "x")] : ExcelRow IntegerHost.number) =
  Some [("quantity", k); ("name", k); ("purchaseDate", k); ("sellDate", k);
        ("purchasePrice", k); ("sellPrice", k); ("code", k); ("adjustment", k)].
Proof.
  cbv zeta.
  apply (proj2 (@blank_first_header IntegerHost.number (Spec.utf8 0xA0)
                  (VString "x") []
                  (@Spec.Blank_space 0xA0 ""
                     ltac:(cbn [Spec.whiteSpace In]; tauto) Spec.Blank_empty))).
  discriminate.
Defined.

(** ** The layout of a chunk *)

Section SubseqFacts.

Variable A : Type.
Implicit Types (l : list A).

Lemma Subseq_refl l : Layout.Subseq l l.
Proof. induction l; constructor; assumption. Qed.

Lemma Subseq_nil_l l : Layout.Subseq [] l.
Proof. induction l; constructor; assumption. Qed.

Lemma Subseq_app l1 l1' l2 l2' :
  Layout.Subseq l1' l1 -> Layout.Subseq l2' l2 ->
  Layout.Subseq (l1' ++ l2')%list (l1 ++ l2)%list.
Proof.
  intros H1 H2. induction H1; simpl; [assumption| |]; constructor; assumption.
Qed.

Lemma Subseq_In l' l x : Layout.Subseq l' l -> In x l' -> In x l.
Proof.
  intros H. induction H; simpl; [tauto| |]; intuition.
Qed.

Lemma Subseq_NoDup l' l : Layout.Subseq l' l -> NoDup l -> NoDup l'.
Proof.
  intros H. induction H; intros Hd; [assumption| |];
    inversion Hd as [|? ? Hn Hd']; subst; [auto|].
  constructor; [|auto]. intros Hin. apply Hn. eapply Subseq_In; eassumption.
Qed.

End SubseqFacts.

Lemma Subseq_map (A B : Type) (f : A -> B) (l' l : list A) :
  Layout.Subseq l' l -> Layout.Subseq (map f l') (map f l).
Proof. intros H. induction H; simpl; constructor; assumption. Qed.

Lemma distinct_NoDup (l : list string) : Layout.distinct l = true -> NoDup l.
Proof.
  induction l as [|x l IH]; simpl; intros H; constructor.
  - apply andb_true_iff in H. destruct H as [H _].
    apply negb_true_iff in H. intros Hin.
    assert (E : existsb (String.eqb x) l = true).
    { apply existsb_exists. exists x. split; [assumption|apply String.eqb_refl]. }
    congruence.
  - apply IH. apply andb_true_iff in H. tauto.
Qed.

Lemma get_In_NoDup (V : Type) (o : Js.Obj V) (k : string) (v : V) :
  NoDup (Js.keys o) -> In (k, v) o -> Js.get o k = Some v.
Proof.
  induction o as [|[k' v'] o IH]; simpl; intros Hd Hin; [destruct Hin|].
  inversion Hd as [|? ? Hn Hd']; subst.
  destruct Hin as [E|Hin].
  - injection E as -> ->. now rewrite String.eqb_refl.
  - destruct (String.eqb_spec k' k) as [->|_]; [|auto].
    exfalso. apply Hn. change k with (fst (k, v)). now apply in_map.
Qed.

Section LayoutFacts.

Import Mappings F8949Parser.

Context {number : Type} {host : Host number}.

Implicit Types (mapping : FieldMapping) (p : TypePrefix)
  (chunk : list (CapitalTransaction number)) (formData : VariableMap number).

(** Writing logical cells one after the other. *)
Lemma puts_assign mapping (entries : list (string * Value number)) :
  forall formData,
    fold_left (fun fd kv => put mapping fd (fst kv) (snd kv)) entries formData =
    Js.assign formData (Layout.mapped mapping entries).
Proof.
  unfold Js.assign, Layout.mapped.
  induction entries as [|[k v] entries IH]; intros formData; simpl; [reflexivity|].
  now rewrite IH.
Qed.

Lemma rowStep_present p mapping formData totals idx t :
  fst (rowStep p mapping (formData, totals) idx t) =
  fold_left (fun fd kv => put mapping fd (fst kv) (snd kv))
    (Layout.present p idx (Layout.rowCells t)) formData.
Proof.
  unfold rowStep, Layout.present, Layout.rowCells. cbn [fst].
  destruct (String.eqb (code t) ""); reflexivity.
Qed.

Lemma forEach_entries p mapping chunk :
  forall idx formData totals,
    fst (forEach p mapping chunk idx (formData, totals)) =
    fold_left (fun fd kv => put mapping fd (fst kv) (snd kv))
      (Layout.rowEntries p idx chunk) formData.
Proof.
  induction chunk as [|t chunk IH]; intros idx formData totals; [reflexivity|].
  cbn [forEach Layout.rowEntries]. rewrite fold_left_app.
  rewrite <- (rowStep_present p mapping formData totals idx t).
  destruct (rowStep p mapping (formData, totals) idx t) as [fd tot].
  apply IH.
Qed.

Lemma formOfChunk_assign p mapping chunk :
  formOfChunk p mapping chunk =
  Js.assign Js.empty
    (Layout.mapped mapping (Layout.rowEntries p 0 chunk ++ Layout.totalEntries p chunk)).
Proof.
  rewrite <- puts_assign, fold_left_app.
  unfold formOfChunk. cbv zeta.
  match goal with |- context [forEach ?p ?m ?c ?i (?f, ?t)] =>
    pose proof (forEach_entries p m c i f t) as He;
    pose proof (forEach_totals p m c i f t) as Ht;
    destruct (forEach p m c i (f, t)) as [formData totals] eqn:E end.
  assert (He' : formData = fst (formData, totals)) by reflexivity.
  assert (Ht' : totals = snd (formData, totals)) by reflexivity.
  rewrite <- E in He', Ht'.
  pose proof (eq_trans He' He) as H1. pose proof (eq_trans Ht' Ht) as H2.
  clear He Ht He' Ht' E. subst formData totals. reflexivity.
Qed.

Lemma present_keys p idx (cells : list (option (Value number))) :
  forall a,
    Layout.Subseq
      (map fst
         (flat_map
            (fun jc : nat * option (Value number) =>
               match snd jc with
               | Some v => [(rowKey p idx (fst jc), v)]
               | None => []
               end)
            (combine (seq a (List.length cells)) cells)))
      (map (rowKey p idx) (seq a (List.length cells))).
Proof.
  induction cells as [|c cells IH]; intros a; simpl; [constructor|].
  destruct c; simpl; constructor; apply IH.
Qed.

Lemma rowEntries_keys p chunk :
  forall idx,
    Layout.Subseq (map fst (Layout.rowEntries p idx chunk))
      (flat_map (fun i => map (rowKey p i) (seq 0 8)) (seq idx (List.length chunk))).
Proof.
  induction chunk as [|t chunk IH]; intros idx; [constructor|].
  cbn [Layout.rowEntries List.length seq flat_map]. rewrite map_app.
  apply Subseq_app; [|apply IH].
  apply (present_keys p idx (Layout.rowCells t) 0).
Qed.

Lemma entries_keys p chunk :
  List.length chunk <= 14 ->
  Layout.Subseq
    (map fst (Layout.rowEntries p 0 chunk ++ Layout.totalEntries p chunk))
    (Spec.logicalKeys p).
Proof.
  intros Hl. rewrite map_app. unfold Spec.logicalKeys.
  apply Subseq_app; [|apply Subseq_refl].
  replace (seq 0 14)
    with (seq 0 (List.length chunk)
          ++ seq (0 + List.length chunk) (14 - List.length chunk))%list
    by (rewrite <- seq_app; f_equal; lia).
  rewrite flat_map_app.
  rewrite <- (List.app_nil_r (map fst (Layout.rowEntries p 0 chunk))).
  apply Subseq_app; [apply rowEntries_keys|apply Subseq_nil_l].
Qed.

Lemma mapped_keys mapping (entries : list (string * Value number)) :
  Js.keys (Layout.mapped mapping entries) = Spec.fieldsOf mapping (map fst entries).
Proof.
  unfold Js.keys, Layout.mapped, Spec.fieldsOf. rewrite !map_map. reflexivity.
Qed.

(** X3.  When the mapping sends the logical keys of a prefix (14 rows of 8
    cells, 4 totals) to fields that are all different, the field map of a
    chunk of at most 14 transactions is, in this order: for each
    transaction its quantity and name, purchase date, sell date, sell
    price, purchase price, code (left out when empty), adjustment and
    gain, then the four totals; each of them is found under its field. *)
Theorem chunk_form_layout mapping p chunk :
  NoDup (Spec.fieldsOf mapping (Spec.logicalKeys p)) ->
  List.length chunk <= 14 ->
  let cells := (Layout.rowEntries p 0 chunk ++ Layout.totalEntries p chunk)%list in
  formOfChunk p mapping chunk = Layout.mapped mapping cells /\
  forall key value,
    In (key, value) cells ->
    Js.get (formOfChunk p mapping chunk) (Js.propertyKey (Js.get mapping key))
    = Some value.
Proof.
  intros Hd Hl. cbv zeta.
  assert (Hk : NoDup (Js.keys (Layout.mapped mapping
                (Layout.rowEntries p 0 chunk ++ Layout.totalEntries p chunk)))).
  { rewrite mapped_keys. unfold Spec.fieldsOf in *.
    eapply Subseq_NoDup; [|exact Hd]. apply Subseq_map. now apply entries_keys. }
  assert (E : formOfChunk p mapping chunk =
              Layout.mapped mapping
                (Layout.rowEntries p 0 chunk ++ Layout.totalEntries p chunk)).
  { rewrite formOfChunk_assign. rewrite assign_fresh; [reflexivity|exact Hk|].
    intros k _ []. }
  split; [exact E|].
  intros key value Hin. rewrite E. apply get_In_NoDup; [exact Hk|].
  unfold Layout.mapped.
  apply (in_map (fun kv => (Js.propertyKey (Js.get mapping (fst kv)), snd kv))) in Hin.
  exact Hin.
Qed.

End LayoutFacts.

Lemma generated_fields_distinct :
  forallb (fun p =>
    Layout.distinct (Spec.fieldsOf Mappings.generateF8949Mapping (Spec.logicalKeys p)))
    [Mappings.st; Mappings.lt] = true.
Proof. vm_compute. reflexivity. Qed.

Lemma generated_fields_NoDup (p : Mappings.TypePrefix) :
  NoDup (Spec.fieldsOf Mappings.generateF8949Mapping (Spec.logicalKeys p)).
Proof.
  apply distinct_NoDup. pose proof generated_fields_distinct as H.
  rewrite forallb_forall in H. apply H. destruct p; simpl; auto.
Qed.

Lemma chunk_form_layout_witness :
  let chunk := [Samples.held true] in
  let cells :=
    (Layout.rowEntries Mappings.st 0 chunk ++ Layout.totalEntries Mappings.st chunk)%list in
  F8949Parser.formOfChunk Mappings.st Mappings.generateF8949Mapping chunk
  = Layout.mapped Mappings.generateF8949Mapping cells /\
  forall key value,
    In (key, value) cells ->
    Js.get (F8949Parser.formOfChunk Mappings.st Mappings.generateF8949Mapping chunk)
      (Js.propertyKey (Js.get Mappings.generateF8949Mapping key))
    = Some value.
Proof.
  apply (@chunk_form_layout _ integerHost Mappings.generateF8949Mapping Mappings.st
           [Samples.held true] (generated_fields_NoDup Mappings.st)).
  simpl. lia.
Defined.

(** ** Pages *)

Section PageFacts.

Variable A : Type.
Implicit Types (l : list A).

Lemma pages_step (n : nat) : 0 < n -> Layout.pages n = S (Layout.pages (n - 14)).
Proof.
  intros Hn. unfold Layout.pages.
  destruct (Nat.le_gt_cases 14 n) as [H|H].
  - replace (n + 13) with (n - 14 + 13 + 1 * 14) by lia.
    rewrite Nat.div_add by lia. lia.
  - replace (n - 14) with 0 by lia.
    replace ((0 + 13) / 14) with 0 by reflexivity.
    symmetry. apply Nat.div_unique with (r := n - 1); lia.
Qed.

Lemma slicesFrom_length fuel : forall i l,
  List.length l - i <= fuel ->
  List.length (Spec.slicesFrom fuel i l) = Layout.pages (List.length l - i).
Proof.
  induction fuel as [|fuel IH]; intros i l H; simpl.
  - replace (List.length l - i) with 0 by lia. reflexivity.
  - destruct (Nat.ltb_spec i (List.length l)) as [Hlt|Hge]; simpl.
    + rewrite IH by lia. rewrite (@pages_step (List.length l - i)) by lia.
      f_equal. f_equal. lia.
    + replace (List.length l - i) with 0 by lia. reflexivity.
Qed.

Lemma slicesFrom_nth fuel : forall i l k,
  List.length l - i <= fuel ->
  k < Layout.pages (List.length l - i) ->
  nth_error (Spec.slicesFrom fuel i l) k
  = Some (Js.slice (i + 14 * k) (i + 14 * k + 14) l).
Proof.
  induction fuel as [|fuel IH]; intros i l k H Hk; simpl.
  - replace (List.length l - i) with 0 in Hk by lia. inversion Hk.
  - destruct (Nat.ltb_spec i (List.length l)) as [Hlt|Hge].
    + destruct k as [|k]; simpl.
      * now replace (i + 0) with i by lia.
      * rewrite IH.
        -- do 2 f_equal; lia.
        -- lia.
        -- rewrite (@pages_step (List.length l - i)) in Hk by lia.
           replace (List.length l - (i + 14)) with (List.length l - i - 14) by lia.
           lia.
    + replace (List.length l - i) with 0 in Hk by lia. inversion Hk.
Qed.

Lemma slice_nth l (n : nat) (x : A) :
  nth_error l n = Some x ->
  nth_error (Js.slice (14 * (n / 14)) (14 * (n / 14) + 14) l) (n mod 14) = Some x.
Proof.
  intros H. rewrite slice_14.
  assert (Hm : n mod 14 < 14) by (apply Nat.mod_upper_bound; lia).
  rewrite nth_error_firstn.
  destruct (Nat.ltb_spec (n mod 14) 14); [|lia].
  rewrite nth_error_skipn. rewrite <- H. f_equal.
  symmetry. apply Nat.div_mod_eq.
Qed.

End PageFacts.

Section PageClaims.

Import Mappings F8949Parser.

Context {number : Type} {host : Host number}.

(** X4.  [chunkTransactions] gives ceil(n / 14) field maps for [n]
    transactions (none for none); the map number [k], from 0, is the one
    of the transactions [14 k] to [14 k + 13], and the transaction at
    index [n] is transaction [n mod 14] of chunk [n / 14]. *)
Theorem chunkTransactions_pages
    (transactions : list (CapitalTransaction number)) (p : TypePrefix)
    (mapping : FieldMapping) :
  let forms := chunkTransactions transactions p mapping in
  List.length forms = Layout.pages (List.length transactions) /\
  (forall k, k < Layout.pages (List.length transactions) ->
     nth_error forms k
     = Some (formOfChunk p mapping (Js.slice (14 * k) (14 * k + 14) transactions))) /\
  (forall n t, nth_error transactions n = Some t ->
     n / 14 < Layout.pages (List.length transactions) /\
     nth_error (Js.slice (14 * (n / 14)) (14 * (n / 14) + 14) transactions) (n mod 14)
     = Some t).
Proof.
  cbv zeta. rewrite chunkTransactions_slices. split; [|split].
  - rewrite length_map, slicesFrom_length by lia. f_equal. lia.
  - intros k Hk. rewrite nth_error_map.
    rewrite slicesFrom_nth; [reflexivity|lia|].
    now replace (List.length transactions - 0) with (List.length transactions) by lia.
  - intros n t H. split; [|now apply slice_nth].
    assert (Hn : n < List.length transactions).
    { apply nth_error_Some. congruence. }
    unfold Layout.pages.
    apply Nat.Div0.div_lt_upper_bound.
    pose proof (Nat.div_mod_eq (List.length transactions + 13) 14) as E.
    pose proof (Nat.mod_upper_bound (List.length transactions + 13) 14) as B.
    lia.
Qed.

End PageClaims.

(** ** The 8949 pipeline, end to end *)

Lemma keys_assign_In (V : Type) (t s : Js.Obj V) (x : string) :
  In x (Js.keys (Js.assign t s)) <-> In x (Js.keys t) \/ In x (Js.keys s).
Proof.
  unfold Js.assign. revert t.
  induction s as [|[k v] s IH]; simpl; intros t.
  - tauto.
  - rewrite IH, keys_set_In. intuition.
Qed.

Lemma flat_map_nil (A B : Type) (f : A -> list B) (l : list A) :
  (forall x, In x l -> f x = []) -> flat_map f l = [].
Proof.
  induction l as [|a l IH]; simpl; intros H; [reflexivity|].
  rewrite (H a) by now left. apply IH. intros x Hx. apply H. now right.
Qed.

Lemma pages_positive (n : nat) : 0 < n -> 0 < Layout.pages n.
Proof. intros H. rewrite (@pages_step n H). lia. Qed.

Lemma no_proceeds_marker_checked :
  forallb (fun p =>
    forallb (fun f => negb (Js.includes f "_c3"))
      (Spec.fieldsOf Mappings.generateF8949Mapping (Spec.logicalKeys p)))
    [Mappings.st; Mappings.lt] = true.
Proof. vm_compute. reflexivity. Qed.

Lemma no_proceeds_marker (p : Mappings.TypePrefix) (f : string) :
  In f (Spec.fieldsOf Mappings.generateF8949Mapping (Spec.logicalKeys p)) ->
  Js.includes f "_c3" = false.
Proof.
  intros Hin. pose proof no_proceeds_marker_checked as H.
  rewrite forallb_forall in H.
  assert (Hp : In p [Mappings.st; Mappings.lt]) by (destruct p; simpl; auto).
  specialize (H p Hp). rewrite forallb_forall in H. specialize (H f Hin).
  now apply negb_true_iff in H.
Qed.

Section PipelineOutcome.

Import Mappings FormParser F8949Parser.

Context {number : Type} {host : Host number}.

Lemma formOfChunk_has_total (p : TypePrefix) (mapping : FieldMapping)
    (chunk : list (CapitalTransaction number)) :
  In (Js.propertyKey (Js.get mapping (totalKey p "adj")))
     (Js.keys (formOfChunk p mapping chunk)).
Proof.
  rewrite formOfChunk_assign. apply keys_assign_In. right.
  rewrite mapped_keys. unfold Spec.fieldsOf.
  apply (in_map (fun key => Js.propertyKey (Js.get mapping key))).
  rewrite map_app. apply in_or_app. right. simpl. auto.
Qed.

Lemma combineForms_keys (shortTermForms longTermForms : list (VariableMap number)) :
  Js.keys (combineForms shortTermForms longTermForms) =
  map Spec.instanceKey
    (seq 1 (Nat.max (List.length shortTermForms) (List.length longTermForms))).
Proof.
  rewrite combineForms_entries. unfold Js.keys. rewrite map_map. cbn [fst].
  rewrite <- seq_shift, map_map. apply map_ext. intros i. f_equal. lia.
Qed.

Lemma chunkTransactions_length (transactions : list (CapitalTransaction number))
    (p : TypePrefix) (mapping : FieldMapping) :
  List.length (chunkTransactions transactions p mapping)
  = Layout.pages (List.length transactions).
Proof.
  rewrite chunkTransactions_slices, length_map, slicesFrom_length by lia.
  f_equal. lia.
Qed.

Lemma formAt_present (transactions : list (CapitalTransaction number))
    (p : TypePrefix) (mapping : FieldMapping) (i : nat) :
  i < List.length (chunkTransactions transactions p mapping) ->
  exists chunk,
    formAt (chunkTransactions transactions p mapping) i = formOfChunk p mapping chunk.
Proof.
  intros Hi. unfold formAt.
  destruct (nth_error (chunkTransactions transactions p mapping) i) as [form|] eqn:E.
  - apply nth_error_In, chunk_form_In in E. destruct E as (chunk & -> & _). eauto.
  - apply nth_error_None in E. lia.
Qed.

(** The validator on the instances of two chunk sequences. *)
Lemma validate_instances (shortTerm longTerm : list (CapitalTransaction number)) :
  let shortTermForms := chunkTransactions shortTerm st generateF8949Mapping in
  let longTermForms := chunkTransactions longTerm lt generateF8949Mapping in
  0 < Nat.max (List.length shortTermForms) (List.length longTermForms) ->
  validate (combineForms shortTermForms longTermForms) =
  createValidationResult true [] [].
Proof.
  cbv zeta.
  set (shortTermForms := chunkTransactions shortTerm st generateF8949Mapping).
  set (longTermForms := chunkTransactions longTerm lt generateF8949Mapping).
  intros Ht. unfold validate.
  rewrite combineForms_keys, length_map, length_seq.
  destruct (Nat.eqb_spec (Nat.max (List.length shortTermForms)
                            (List.length longTermForms)) 0) as [E|_]; [lia|].
  cbn [List.length Nat.eqb].
  rewrite flat_map_nil; [reflexivity|].
  intros [formId form] Hin. rewrite combineForms_entries in Hin.
  apply in_map_iff in Hin. destruct Hin as (i & E & Hi).
  injection E as <- <-. apply in_seq in Hi.
  unfold formWarnings.
  assert (Hne : (List.length
                   (Js.keys (Js.spread (formAt shortTermForms i)
                               (formAt longTermForms i))) =? 0) = false).
  { apply Nat.eqb_neq. intros Hz.
    assert (Hk : exists k, In k (Js.keys (Js.spread (formAt shortTermForms i)
                                            (formAt longTermForms i)))).
    { unfold Js.spread.
      destruct (Nat.lt_ge_cases i (List.length shortTermForms)) as [Hs|Hs].
      - destruct (formAt_present shortTerm st generateF8949Mapping Hs) as (chunk & Ec).
        eexists. apply keys_assign_In. left. apply keys_assign_In. right.
        fold shortTermForms in Ec. rewrite Ec. apply formOfChunk_has_total.
      - assert (Hl : i < List.length longTermForms) by lia.
        destruct (formAt_present longTerm lt generateF8949Mapping Hl) as (chunk & Ec).
        eexists. apply keys_assign_In. right.
        fold longTermForms in Ec. rewrite Ec. apply formOfChunk_has_total. }
    destruct Hk as (k & Hk).
    destruct (Js.keys (Js.spread (formAt shortTermForms i) (formAt longTermForms i)));
      [destruct Hk|discriminate Hz]. }
  rewrite Hne. cbn [app].
  apply flat_map_nil. intros [key value] Hkv. unfold negativeProceeds.
  assert (Hk : In key (Js.keys (Js.spread (formAt shortTermForms i)
                                   (formAt longTermForms i)))).
  { change key with (fst (key, value)). now apply in_map. }
  unfold Js.spread in Hk. apply keys_assign_In in Hk.
  destruct Hk as [Hk|Hk].
  - apply keys_assign_In in Hk. destruct Hk as [[]|Hk].
    apply formAt_keys_fields in Hk. now rewrite (no_proceeds_marker Hk).
  - apply formAt_keys_fields in Hk. now rewrite (no_proceeds_marker Hk).
Qed.

Lemma parseTransactions_Some (firstRow : ExcelRow number) (rest : list (ExcelRow number)) :
  parseTransactions (firstRow :: rest) = Some (Layout.transactionsOf (firstRow :: rest)).
Proof.
  unfold Layout.transactionsOf, parseTransactions.
  now destruct (detectColumns firstRow).
Qed.

Lemma instances_positive (transactions : list (CapitalTransaction number)) :
  List.length transactions <> 0 ->
  0 < Nat.max
        (Layout.pages (List.length (filter (fun t => isShortTerm t) transactions)))
        (Layout.pages
           (List.length (filter (fun t => negb (isShortTerm t)) transactions))).
Proof.
  intros E.
  pose proof (filter_length (fun t => isShortTerm t) transactions) as F.
  destruct (Nat.eq_dec (List.length (filter (fun t => isShortTerm t) transactions)) 0)
    as [Z|Z].
  - assert (P := @pages_positive
                   (List.length (filter (fun t => negb (isShortTerm t)) transactions))
                   ltac:(lia)). lia.
  - assert (P := @pages_positive
                   (List.length (filter (fun t => isShortTerm t) transactions))
                   ltac:(lia)). lia.
Qed.

(** What [parse] returns, by cases. *)
Lemma parse_cases (rows : list (ExcelRow number)) (options : ParseOptions number) :
  let transactions := Layout.transactionsOf rows in
  let shortTerm := filter (fun t => isShortTerm t) transactions in
  let longTerm := filter (fun t => negb (isShortTerm t)) transactions in
  let formsData :=
    combineForms (chunkTransactions shortTerm st generateF8949Mapping)
      (chunkTransactions longTerm lt generateF8949Mapping) in
  parse rows options =
  Some
    (if List.length transactions =? 0
     then
       createParseResult [] Js.empty
         (createValidationResult false
            [{| field := if List.length rows =? 0 then "sheet" else "data";
                message := if List.length rows =? 0 then "No data found in sheet"
                           else "No valid transactions found" |}] [])
     else
       createParseResult (Js.keys formsData) formsData
         (createValidationResult true [] [])).
Proof.
  cbv zeta. unfold parse.
  destruct rows as [|firstRow rest]; [reflexivity|].
  cbn [List.length Nat.eqb]. rewrite parseTransactions_Some.
  set (transactions := Layout.transactionsOf (firstRow :: rest)).
  destruct (List.length transactions =? 0) eqn:E; [reflexivity|].
  rewrite getF8949Mapping_generated.
  destruct (Types.validate options); [|reflexivity].
  rewrite validate_instances; [reflexivity|].
  rewrite !chunkTransactions_length.
  apply Nat.eqb_neq in E. now apply instances_positive.
Qed.

(** X5.  The 8949 parser always returns.  Its form ids are the keys of its
    forms data: [f8949_1], ..., [f8949_n] with [n] the larger of
    ceil(s / 14) and ceil(l / 14) for [s] short-term and [l] long-term
    transactions read from the records, so there is no form exactly when no
    transaction is read. *)
Theorem F8949_parse_instances
    (rows : list (ExcelRow number)) (options : ParseOptions number) :
  let transactions := Layout.transactionsOf rows in
  let s := List.length (filter (fun t => isShortTerm t) transactions) in
  let l := List.length (filter (fun t => negb (isShortTerm t)) transactions) in
  exists result,
    parse rows options = Some result /\
    formIds result = Js.keys (formsData result) /\
    formIds result
      = map Spec.instanceKey (seq 1 (Nat.max (Layout.pages s) (Layout.pages l))) /\
    (formIds result = [] <-> transactions = []).
Proof.
  cbv zeta. rewrite parse_cases. eexists. split; [reflexivity|].
  set (transactions := Layout.transactionsOf rows).
  destruct (List.length transactions =? 0) eqn:E.
  - apply Nat.eqb_eq in E. apply length_zero_iff_nil in E. rewrite E.
    repeat split; reflexivity.
  - apply Nat.eqb_neq in E. cbn [formIds formsData createParseResult].
    rewrite combineForms_keys, !chunkTransactions_length.
    split; [reflexivity|split; [reflexivity|]].
    split.
    + intros H. exfalso. pose proof (@instances_positive _ E) as P.
      destruct (Nat.max _ _); [lia|discriminate H].
    + intros H. rewrite H in E. simpl in E. congruence.
Qed.

(** X6.  Whenever the 8949 parser produces forms, its validation result is
    valid with no error and no warning, whether validation is asked for or
    not: every instance has fields, and no field name of the mapping
    contains [_c3], the mark the negative-proceeds check looks for.  When
    it produces none, the result is invalid with one error. *)
Theorem F8949_validation_outcome
    (rows : list (ExcelRow number)) (options : ParseOptions number) :
  match parse rows options with
  | Some result =>
      (formIds result <> [] ->
       validation result = createValidationResult true [] []) /\
      (formIds result = [] ->
       isValid (validation result) = false /\
       List.length (errors (validation result)) = 1 /\
       warnings (validation result) = [])
  | None => False
  end.
Proof.
  rewrite parse_cases. cbv zeta.
  destruct (List.length (Layout.transactionsOf rows) =? 0) eqn:E; split;
    cbn [formIds validation createParseResult]; intros H.
  - congruence.
  - repeat split.
  - reflexivity.
  - exfalso. rewrite combineForms_keys, !chunkTransactions_length in H.
    apply Nat.eqb_neq in E. pose proof (@instances_positive _ E) as P.
    destruct (Nat.max _ _); [lia|discriminate H].
Qed.

End PipelineOutcome.

(** ** The 1040 pipeline *)

Lemma get_In_values (V : Type) (o : Js.Obj V) (k : string) (v : V) :
  Js.get o k = Some v -> In v (Js.values o).
Proof.
  induction o as [|[k' v'] o IH]; simpl; [discriminate|].
  destruct (String.eqb k' k); [intros H; injection H as ->; now left|auto].
Qed.

(** No name of [Object.prototype] is a line of the 1040 table. *)
Lemma inherited_unmapped_checked :
  forallb (fun name => negb (existsb (String.eqb name) (Js.keys Mappings.f1040_2025)))
    (Js.keys Js.objectPrototype) = true.
Proof. vm_compute. reflexivity. Qed.

Lemma required_field_unmapped_checked :
  forallb (fun required =>
    negb (existsb (String.eqb required) (Layout.fieldsIn Mappings.f1040_2025)))
    F1040Parser.requiredFields = true.
Proof. vm_compute. reflexivity. Qed.

Section LineOutcome.

Import Mappings FormParser F1040Parser.

Context {number : Type} {host : Host number}.

Lemma store_wellFilled mapping fieldValues variable value :
  Layout.wellFilled mapping fieldValues ->
  Layout.wellFilled mapping (store mapping fieldValues variable value).
Proof.
  intros [Hd Hv]. unfold store, Js.lookup.
  destruct (Js.get mapping (String_ variable)) as [mappedKey|] eqn:G.
  - destruct (String.eqb mappedKey ""); [now split|].
    destruct (isEmpty value) eqn:E; [now split|]. cbn [negb andb].
    split; [now apply keys_set_NoDup|].
    intros k v. rewrite get_set.
    destruct (String.eqb_spec mappedKey k) as [<-|_]; [|apply Hv].
    intros H. injection H as <-. split; [exact E|].
    left. eapply get_In_values. exact G.
  - destruct (Js.inherited (String_ variable)) as [m|] eqn:I; [|now split].
    destruct (isEmpty value) eqn:E; [now split|]. cbn [negb].
    split; [now apply keys_set_NoDup|].
    intros k v. rewrite get_set.
    destruct (String.eqb_spec (memberText m) k) as [<-|_]; [|apply Hv].
    intros H. injection H as <-. split; [exact E|].
    right. now exists (String_ variable), m.
Qed.

Lemma columnLoop_wellFilled variableCol valueCol mapping skip rows :
  forall fieldValues,
    Layout.wellFilled mapping fieldValues ->
    Layout.wellFilled mapping (columnLoop variableCol valueCol mapping skip rows fieldValues).
Proof.
  induction rows as [|row rows IH]; intros fieldValues H; simpl; [exact H|].
  destruct (isEmpty (cell row variableCol)).
  - destruct skip; [now apply IH|exact H].
  - apply IH. now apply store_wellFilled.
Qed.

Lemma simpleLoop_wellFilled variableCol valueCol mapping rows :
  forall fieldValues,
    Layout.wellFilled mapping fieldValues ->
    Layout.wellFilled mapping (simpleLoop variableCol valueCol mapping rows fieldValues).
Proof.
  induction rows as [|row rows IH]; intros fieldValues H; simpl; [exact H|].
  destruct (isEmpty (cell row variableCol)); [exact H|].
  apply IH. now apply store_wellFilled.
Qed.

Lemma parseColumnFormat_wellFilled rows mapping fieldValues skip :
  Layout.wellFilled mapping fieldValues ->
  Layout.wellFilled mapping (parseColumnFormat rows mapping fieldValues skip).
Proof.
  intros H. unfold parseColumnFormat. destruct rows as [|firstRow rest]; [exact H|].
  destruct (nonEmpty _); [|exact H]. destruct (nonEmpty _); [|exact H].
  now apply columnLoop_wellFilled.
Qed.

Lemma parseSimpleFormat_wellFilled rows mapping fieldValues :
  Layout.wellFilled mapping fieldValues ->
  Layout.wellFilled mapping (parseSimpleFormat rows mapping fieldValues).
Proof.
  intros H. unfold parseSimpleFormat.
  destruct (Js.keys _) as [|variableCol [|valueCol ?]]; try exact H.
  now apply simpleLoop_wellFilled.
Qed.

Lemma parse_extracted firstRow rest (options : ParseOptions number) :
  F1040Parser.parse (firstRow :: rest) options =
  let fieldValues := Layout.extracted firstRow rest (skipEmptyRows options) in
  let formsData := [("f1040", fieldValues)] in
  Some (createParseResult ["f1040"] formsData
          (if Types.validate options then validate formsData
           else createValidationResult true [] [])).
Proof.
  unfold F1040Parser.parse, Layout.extracted. rewrite getF1040Mapping_2025. reflexivity.
Qed.

Lemma extracted_wellFilled firstRow rest skip :
  Layout.wellFilled f1040_2025 (Layout.extracted firstRow rest skip).
Proof.
  assert (H0 : Layout.wellFilled f1040_2025 (Js.empty : VariableMap number)).
  { split; [constructor|]. intros k value H. discriminate H. }
  unfold Layout.extracted.
  destruct (andb _ _);
    [now apply parseColumnFormat_wellFilled|now apply parseSimpleFormat_wellFilled].
Qed.

End LineOutcome.

Section LineClaims.

Import Mappings FormParser F1040Parser.

Context {number : Type} {host : Host number}.

Lemma memberText_not_required (m : Js.Member) :
  memberText m <> "topmostSubform[0].Page1[0].f1_32[0]".
Proof.
  destruct m as [name|]; [|discriminate]. cbn [memberText]. intros E.
  pose proof (functionText_function name) as P. rewrite E in P. discriminate P.
Qed.

(** A sheet of one record, Variable and Value, whose variable is the name
    of a member of [Object.prototype]. *)
Lemma inherited_variable_stored (name : string) (m : Js.Member)
    (value : Value number) (skip : bool) :
  Js.inherited name = Some m -> isEmpty value = false ->
  Layout.extracted [("Variable", VString name); ("Value", value)] [] skip
  = [(memberText m, value)].
Proof.
  intros Hi He. unfold Layout.extracted.
  change (looksLikeHeader [("Variable", VString name); ("Value", value)]) with false.
  cbn [andb]. unfold parseSimpleFormat. cbn [Js.keys map fst simpleLoop].
  change (cell [("Variable", VString name); ("Value", value)] "Variable")
    with (@VString number name).
  change (cell [("Variable", VString name); ("Value", value)] "Value") with value.
  assert (Hn : isEmpty (@VString number name) = false).
  { cbn [isEmpty]. destruct name; [discriminate Hi|reflexivity]. }
  rewrite Hn. unfold store, Js.lookup. cbn [String_].
  assert (G : Js.get f1040_2025 name = None).
  { apply get_None. intros Hin.
    pose proof inherited_unmapped_checked as C. rewrite forallb_forall in C.
    specialize (C name (inherited_In _ Hi)). apply negb_true_iff in C.
    assert (T : existsb (String.eqb name) (Js.keys f1040_2025) = true).
    { apply existsb_exists. exists name. split; [exact Hin|apply String.eqb_refl]. }
    congruence. }
  rewrite G, Hi, He. reflexivity.
Qed.

(** X7.  In every result of the 1040 parser the form, when there is one,
    has no key twice and no empty value, and each of its keys is a field
    of the mapping or the text of a member of [Object.prototype].  The
    second case occurs: the mapping is a plain object, so a variable named
    as a member of [Object.prototype] ([constructor], [toString], ...) is
    found in it, and its value is stored under the text of that member;
    the value 5 of the variable [constructor] is stored under the text of
    the function [Object]. *)
Theorem F1040_field_values
    (rows : list (ExcelRow number)) (options : ParseOptions number) :
  match F1040Parser.parse rows options with
  | Some result =>
      formIds result = Js.keys (formsData result) /\
      forall fieldValues,
        Js.get (formsData result) "f1040" = Some fieldValues ->
        NoDup (Js.keys fieldValues) /\
        forall k value,
          Js.get fieldValues k = Some value ->
          isEmpty value = false /\
          (In k (Layout.fieldsIn (getF1040Mapping (year options))) \/
           exists name m, Js.inherited name = Some m /\ k = memberText m)
  | None => False
  end /\
  (forall name m value,
     Js.inherited name = Some m -> isEmpty value = false ->
     option_map (@formsData number)
       (F1040Parser.parse
          [([("Variable", VString name); ("Value", value)] : ExcelRow number)]
          options)
     = Some [("f1040", [(memberText m, value)])]) /\
  option_map (@formsData number)
    (F1040Parser.parse
       [([("Variable", VString "constructor"); ("Value", VString "5")]
         : ExcelRow number)]
       options)
  = Some [("f1040", [(functionText "Object", VString "5")])].
Proof.
  assert (S : forall name m value,
             Js.inherited name = Some m -> isEmpty value = false ->
             option_map (@formsData number)
               (F1040Parser.parse
                  [([("Variable", VString name); ("Value", value)] : ExcelRow number)]
                  options)
             = Some [("f1040", [(memberText m, value)])]).
  { intros name m value Hi He. rewrite parse_extracted. cbv zeta.
    cbn [option_map formsData createParseResult].
    now rewrite (@inherited_variable_stored name m value (skipEmptyRows options) Hi He). }
  split; [|split; [exact S|exact (S "constructor" _ (VString "5") eq_refl eq_refl)]].
  destruct rows as [|firstRow rest].
  - cbn. split; [reflexivity|]. intros fieldValues H. discriminate H.
  - rewrite parse_extracted. cbv zeta.
    cbn [formIds formsData createParseResult]. split; [reflexivity|].
    intros fieldValues H. cbn in H. injection H as <-.
    rewrite getF1040Mapping_2025. apply extracted_wellFilled.
Qed.

(** X8.  With validation on, the 1040 parser reports the error
    [No data found for Form 1040] when no field is extracted; otherwise
    the result is valid and carries the warning [Required field is empty]
    for the field [f1_32] of page 1, always: no line of the mapping goes to
    that field, and the text of no member of [Object.prototype] is its
    name. *)
Theorem F1040_validation_outcome
    (firstRow : ExcelRow number) (rest : list (ExcelRow number))
    (year : number) (skip : bool) :
  let fieldValues := Layout.extracted firstRow rest skip in
  F1040Parser.parse (firstRow :: rest)
    {| Types.year := year; Types.validate := true; skipEmptyRows := skip |} =
  Some
    (createParseResult ["f1040"] [("f1040", fieldValues)]
       (if List.length (Js.keys fieldValues) =? 0
        then createValidationResult false
               [{| field := "f1040"; message := "No data found for Form 1040" |}] []
        else createValidationResult true []
               [{| field := "topmostSubform[0].Page1[0].f1_32[0]";
                   message := "Required field is empty" |}])).
Proof.
  cbv zeta. rewrite parse_extracted. cbv zeta.
  cbn [Types.validate skipEmptyRows]. do 2 f_equal.
  unfold validate. cbn [Js.get String.eqb Ascii.eqb Bool.eqb].
  destruct (List.length (Js.keys (Layout.extracted firstRow rest skip)) =? 0);
    [reflexivity|].
  f_equal. unfold requiredFields. cbn [flat_map app].
  assert (G : Js.get (Layout.extracted firstRow rest skip)
                "topmostSubform[0].Page1[0].f1_32[0]" = None).
  { destruct (Js.get (Layout.extracted firstRow rest skip)
                "topmostSubform[0].Page1[0].f1_32[0]") as [v|] eqn:E; [|reflexivity].
    exfalso. apply (extracted_wellFilled firstRow rest skip) in E.
    destruct E as [_ [Hin|(name & m & _ & Hm)]];
      [|now apply (memberText_not_required m)].
    pose proof required_field_unmapped_checked as C.
    unfold requiredFields in C. cbn [forallb] in C.
    rewrite andb_true_r in C. apply negb_true_iff in C.
    assert (T : existsb (String.eqb "topmostSubform[0].Page1[0].f1_32[0]")
                  (Layout.fieldsIn f1040_2025) = true).
    { apply existsb_exists. eexists. split; [exact Hin|apply String.eqb_refl]. }
    congruence. }
  unfold cell, Js.lookup. rewrite G. reflexivity.
Qed.

(** X9.  Unless the records go to the labeled format, [skipEmptyRows] has
    no effect on what the 1040 parser returns; this is the case of every
    sheet whose first record has a key that is [variable] or [value] but
    for the case of its letters. *)
Theorem skipEmptyRows_without_effect
    (firstRow : ExcelRow number) (rest : list (ExcelRow number))
    (year : number) (validate : bool) :
  let run skip :=
    F1040Parser.parse (firstRow :: rest)
      {| Types.year := year; Types.validate := validate; skipEmptyRows := skip |} in
  (existsb Layout.properKey (Js.keys firstRow) = true ->
   looksLikeHeader firstRow = false) /\
  (andb (looksLikeHeader firstRow) (hasColumns firstRow ["variable"; "value"]) = false ->
   run true = run false).
Proof.
  cbv zeta. split.
  - intros H. unfold looksLikeHeader. unfold Layout.properKey in H. now rewrite H.
  - intros H. rewrite !parse_extracted. cbv zeta.
    cbn [Types.validate skipEmptyRows]. unfold Layout.extracted. now rewrite H.
Qed.

(** X10.  When no key of the first record is [variable] or [value] and its
    first cell is a text that contains [variable], [field], [line] or
    [item], the record is taken for a header: its cells are not read as
    data, whatever they hold, and a sheet of this one record gives a form
    without fields. *)
Theorem first_record_taken_as_header
    (firstRow : ExcelRow number) (rest : list (ExcelRow number))
    (options : ParseOptions number) :
  (forall s others,
     existsb Layout.properKey (Js.keys firstRow) = false ->
     Js.values firstRow = VString s :: others ->
     existsb (fun h => Js.includes (Js.trim (Js.toLowerCase s)) h)
       ["variable"; "field"; "line"; "item"] = true ->
     looksLikeHeader firstRow = true) /\
  (looksLikeHeader firstRow = true ->
   (forall firstRow' : ExcelRow number,
      looksLikeHeader firstRow' = true ->
      hasColumns firstRow' ["variable"; "value"]
        = hasColumns firstRow ["variable"; "value"] ->
      F1040Parser.parse (firstRow' :: rest) options
        = F1040Parser.parse (firstRow :: rest) options) /\
   option_map (@formsData number) (F1040Parser.parse [firstRow] options)
     = Some [("f1040", [])]).
Proof.
  split.
  - intros s others Hk Hv Hs. unfold looksLikeHeader.
    unfold Layout.properKey in Hk. now rewrite Hk, Hv.
  - intros H. split.
    + intros firstRow' H' Hc. rewrite !parse_extracted. cbv zeta.
      unfold Layout.extracted. now rewrite H, H', Hc.
    + rewrite parse_extracted. cbv zeta. unfold Layout.extracted. rewrite H.
      cbn [andb]. now destruct (hasColumns firstRow ["variable"; "value"]).
Qed.

End LineClaims.

(** ** The registry and the workbook *)

Section RegistryOutcome.

Import Mappings FormParser.

Context {number : Type} {host : Host number}.

Lemma registry_cases (sheetName : string) (rows : list (ExcelRow number))
    (options : ParseOptions number) :
  ParserRegistry.parse sheetName rows options =
  if F8949Parser.canParse sheetName then F8949Parser.parse rows options
  else if F1040Parser.canParse sheetName then F1040Parser.parse rows options
  else
    Some {| formIds := [];
            formsData := Js.empty;
            validation :=
              {| isValid := false;
                 errors :=
                   [{| issue :=
                         {| field := "sheet";
                            message := "No parser found for sheet: " ++ sheetName |};
                       severity := error |}];
                 warnings := [] |} |}.
Proof.
  unfold ParserRegistry.parse. rewrite findParser_cases.
  destruct (F8949Parser.canParse sheetName); [reflexivity|].
  destruct (F1040Parser.canParse sheetName); reflexivity.
Qed.

Lemma F8949_sound (rows : list (ExcelRow number)) (options : ParseOptions number) :
  exists result, F8949Parser.parse rows options = Some result /\ Layout.sound result.
Proof.
  rewrite parse_cases. cbv zeta. eexists. split; [reflexivity|].
  destruct (List.length (Layout.transactionsOf rows) =? 0); unfold Layout.sound;
    cbn [formIds formsData validation createParseResult createValidationResult
         isValid errors map].
  - split; [reflexivity|split; [constructor|]]. split; discriminate.
  - split; [reflexivity|split; [|tauto]].
    rewrite combineForms_keys. apply NoDup_map_injective; [|apply seq_NoDup].
    intros a b. apply instanceKey_inj.
Qed.


Lemma F1040_sound (rows : list (ExcelRow number)) (options : ParseOptions number) :
  exists result, F1040Parser.parse rows options = Some result /\ Layout.sound result.
Proof.
  destruct rows as [|firstRow rest].
  - eexists. split; [reflexivity|]. unfold Layout.sound. cbn.
    split; [reflexivity|split; [constructor|]]. split; discriminate.
  - rewrite parse_extracted. cbv zeta. eexists. split; [reflexivity|].
    unfold Layout.sound. cbn [formIds formsData validation createParseResult].
    split; [reflexivity|split].
    + constructor; [intros []|constructor].
    + destruct (Types.validate options); [|cbn; tauto].
      unfold F1040Parser.validate. cbn [Js.get String.eqb Ascii.eqb Bool.eqb].
      destruct (List.length (Js.keys _) =? 0); cbn; [split; discriminate|tauto].
Qed.

Lemma registry_sound (sheetName : string) (rows : list (ExcelRow number))
    (options : ParseOptions number) :
  exists result,
    ParserRegistry.parse sheetName rows options = Some result /\ Layout.sound result.
Proof.
  rewrite registry_cases.
  destruct (F8949Parser.canParse sheetName); [apply F8949_sound|].
  destruct (F1040Parser.canParse sheetName); [apply F1040_sound|].
  eexists. split; [reflexivity|]. unfold Layout.sound. cbn.
  split; [reflexivity|split; [constructor|]]. split; discriminate.
Qed.

(** X11.  The registry returns a result for every sheet name, list of
    records and options; it never throws.  In the result the form ids are
    the keys of the forms data, in their order and none twice, and the
    result is valid exactly when it has no error. *)
Theorem registry_results_sound (sheetName : string)
    (rows : list (ExcelRow number)) (options : ParseOptions number) :
  match ParserRegistry.parse sheetName rows options with
  | Some result =>
      formIds result = Js.keys (formsData result) /\
      NoDup (formIds result) /\
      (isValid (validation result) = true <-> errors (validation result) = [])
  | None => False
  end.
Proof.
  destruct (registry_sound sheetName rows options) as (result & E & H).
  rewrite E. exact H.
Qed.

(** X12.  What the 8949 parser returns does not depend on the options at
    all, and what the 1040 parser and the registry return does not depend
    on the year: both mappings fall back to the table of 2025. *)
Theorem options_without_effect (sheetName : string)
    (rows : list (ExcelRow number)) (options : ParseOptions number) :
  (forall options' : ParseOptions number,
     F8949Parser.parse rows options' = F8949Parser.parse rows options) /\
  (forall year' : number,
     let options' :=
       {| year := year'; Types.validate := Types.validate options;
          skipEmptyRows := skipEmptyRows options |} in
     F1040Parser.parse rows options' = F1040Parser.parse rows options /\
     ParserRegistry.parse sheetName rows options'
       = ParserRegistry.parse sheetName rows options).
Proof.
  assert (H8 : forall options' : ParseOptions number,
             F8949Parser.parse rows options' = F8949Parser.parse rows options).
  { intros options'. now rewrite !parse_cases. }
  assert (H1 : forall year' : number,
             F1040Parser.parse rows
               {| year := year'; Types.validate := Types.validate options;
                  skipEmptyRows := skipEmptyRows options |}
             = F1040Parser.parse rows options).
  { intros year'. destruct rows as [|firstRow rest]; [reflexivity|].
    now rewrite !parse_extracted. }
  split; [exact H8|]. intros year'. cbv zeta. split; [apply H1|].
  rewrite !registry_cases.
  destruct (F8949Parser.canParse sheetName); [apply H8|].
  destruct (F1040Parser.canParse sheetName); [apply H1|reflexivity].
Qed.

(** X13.  No sheet name is accepted by both parsers, so the result of the
    registry does not depend on the order in which the two parsers are
    registered. *)
Theorem parsers_disjoint (sheetName : string) :
  andb (F8949Parser.canParse sheetName) (F1040Parser.canParse sheetName) = false /\
  option_map (@Parser.getFormConfig number)
    (find (fun p => Parser.canParse p sheetName) (rev ParserRegistry.parsers))
  = option_map (@Parser.getFormConfig number) (ParserRegistry.findParser sheetName) /\
  forall (rows : list (ExcelRow number)) (options : ParseOptions number),
    match find (fun p => Parser.canParse p sheetName) (rev ParserRegistry.parsers) with
    | Some parser => Parser.parse parser rows options
    | None => ParserRegistry.parse sheetName rows options
    end = ParserRegistry.parse sheetName rows options.
Proof.
  assert (D : andb (F8949Parser.canParse sheetName) (F1040Parser.canParse sheetName)
              = false).
  { unfold F8949Parser.canParse, F1040Parser.canParse.
    destruct (String.eqb_spec (Js.toLowerCase sheetName) "f8949") as [->|];
      [reflexivity|].
    destruct (String.eqb_spec (Js.toLowerCase sheetName) "8949") as [->|];
      reflexivity. }
  split; [exact D|].
  unfold ParserRegistry.findParser, ParserRegistry.parsers. cbn [rev app find].
  cbn [Parser.canParse ParserRegistry.f8949Parser ParserRegistry.f1040Parser].
  split.
  - destruct (F8949Parser.canParse sheetName), (F1040Parser.canParse sheetName);
      try reflexivity; discriminate D.
  - intros rows options. rewrite registry_cases.
    destruct (F8949Parser.canParse sheetName), (F1040Parser.canParse sheetName);
      try reflexivity; discriminate D.
Qed.

End RegistryOutcome.

Section WorkbookOutcome.

Import ExcelParserService.

Context {number : Type} {host : Host number}.

Lemma sheetStep_failed (options : ParseOptions number)
    (sheet : string * list (ExcelRow number)) (state : State) :
  failed (sheetStep options state sheet) = failed state /\
  processed (sheetStep options state sheet) =
    (processed state
     ++ if Layout.producesForms options sheet then [fst sheet] else [])%list.
Proof.
  destruct sheet as [sheetName rows]. unfold sheetStep, Layout.producesForms.
  cbn [fst snd].
  destruct (List.length rows =? 0); [now rewrite List.app_nil_r|].
  destruct (registry_sound sheetName rows options) as (result & E & _).
  rewrite E. cbn [failed processed]. split; [reflexivity|].
  destruct (0 <? List.length (formIds result)); [reflexivity|].
  now rewrite List.app_nil_r.
Qed.

Lemma sheets_fold (options : ParseOptions number)
    (workbook : list (string * list (ExcelRow number))) :
  forall state,
    failed (fold_left (sheetStep options) workbook state) = failed state /\
    processed (fold_left (sheetStep options) workbook state) =
      (processed state
       ++ map fst (filter (Layout.producesForms options) workbook))%list.
Proof.
  induction workbook as [|sheet workbook IH]; intros state; simpl.
  - now rewrite List.app_nil_r.
  - destruct (IH (sheetStep options state sheet)) as [Hf Hp].
    destruct (sheetStep_failed options sheet state) as [Sf Sp].
    rewrite Hf, Hp, Sf, Sp. split; [reflexivity|].
    destruct (Layout.producesForms options sheet); simpl;
      now rewrite <- List.app_assoc.
Qed.

(** X14.  Once the records of the sheets are read, [parseFile] never
    reports a failed sheet: the registry does not throw.  The sheets it
    reports as processed are, in the order of the workbook, those that
    have records and for which the registry returns at least one form. *)
Theorem parseFile_sheets (workbook : list (string * list (ExcelRow number)))
    (options : PartialOptions.t number) :
  sheetsFailed (parseFile workbook options) = [] /\
  sheetsProcessed (parseFile workbook options) =
  map fst (filter (Layout.producesForms (defaultOptions options)) workbook).
Proof.
  unfold parseFile. cbn [sheetsFailed sheetsProcessed].
  match goal with |- context [fold_left ?f ?w ?s] =>
    destruct (sheets_fold (defaultOptions options) workbook s) as [Hf Hp] end.
  rewrite Hf, Hp. split; reflexivity.
Qed.

(** X15.  A sheet added at the end of a workbook adds its forms to those of
    the sheets before it: a form id it shares with them gets the form of
    the added sheet, every other form stays.  A sheet without records
    changes nothing. *)
Theorem parseFile_later_sheet_wins
    (workbook : list (string * list (ExcelRow number))) (sheetName : string)
    (rows : list (ExcelRow number)) (options : PartialOptions.t number) :
  let before := formsData (parseFile workbook options) in
  let after := formsData (parseFile (workbook ++ [(sheetName, rows)]) options) in
  match ParserRegistry.parse sheetName rows (defaultOptions options) with
  | Some result =>
      (rows = [] -> after = before) /\
      (rows <> [] ->
       after = Js.assign before (Types.formsData result) /\
       forall formId,
         Js.get after formId =
         match Js.get (Types.formsData result) formId with
         | Some form => Some form
         | None => Js.get before formId
         end)
  | None => False
  end.
Proof.
  cbv zeta. unfold parseFile. cbn [formsData].
  rewrite fold_left_app. cbn [fold_left].
  set (state := fold_left (sheetStep (defaultOptions options)) workbook _).
  destruct (registry_sound sheetName rows (defaultOptions options))
    as (result & E & Hk & Hd & _).
  rewrite E. split.
  - intros ->. reflexivity.
  - intros Hr. unfold sheetStep.
    destruct rows as [|row rows]; [congruence|].
    cbn [List.length Nat.eqb]. rewrite E. cbn [allFormsData].
    split; [reflexivity|].
    intros formId. apply get_assign. now rewrite <- Hk.
Qed.

End WorkbookOutcome.


(** ** Template paths *)

Section PathFacts.

Import PdfService.

Lemma hasChar_app (c : ascii) (s t : string) :
  hasChar c (s ++ t) = orb (hasChar c s) (hasChar c t).
Proof.
  induction s as [|a s IH]; simpl; [reflexivity|]. now rewrite IH, orb_assoc.
Qed.

Lemma lastPart_app (c : ascii) (s t : string) :
  hasChar c t = false -> lastPart c (s ++ String c t) = t.
Proof.
  intros Ht. induction s as [|a s IH]; simpl.
  - now rewrite Ht, Ascii.eqb_refl.
  - rewrite hasChar_app. simpl. rewrite Ascii.eqb_refl, orb_true_r. exact IH.
Qed.

Lemma prefix_pdf_app (a : ascii) (b : string) :
  String.prefix ".pdf" (String a b) = false ->
  String.prefix ".pdf" (String a (b ++ ".pdf")) = false.
Proof.
  cbn [String.prefix append]. destruct (ascii_dec "." a); [|reflexivity].
  destruct b as [|c1 b]; cbn [String.prefix append]; [reflexivity|].
  destruct (ascii_dec "p" c1); [|reflexivity].
  destruct b as [|c2 b]; cbn [String.prefix append]; [reflexivity|].
  destruct (ascii_dec "d" c2); [|reflexivity].
  destruct b as [|c3 b]; cbn [String.prefix append]; [reflexivity|].
  destruct (ascii_dec "f" c3); [|reflexivity].
  destruct b; discriminate.
Qed.

Lemma removeFirst_suffix (b : string) :
  Js.includes b ".pdf" = false -> removeFirst ".pdf" (b ++ ".pdf") = b.
Proof.
  induction b as [|a b IH]; intros H; [reflexivity|].
  cbn [Js.includes] in H.
  destruct (String.prefix ".pdf" (String a b)) eqn:P; [discriminate|].
  cbn [append removeFirst]. rewrite (prefix_pdf_app a b P). now rewrite IH.
Qed.

(** X16.  Every instance [f8949_i] is filled from the template
    [f8949.pdf] of the base path, and [f1040] from [f1040.pdf].  The form
    id read back from the path of a form is the part of its id before the
    first underscore, when that part has no slash and does not contain
    [.pdf]. *)
Theorem template_paths (basePath : string) :
  (forall i, getPdfPath (Spec.instanceKey i) basePath = basePath ++ "/f8949.pdf") /\
  getPdfPath "f1040" basePath = basePath ++ "/f1040.pdf" /\
  (forall i, extractFormId (getPdfPath (Spec.instanceKey i) basePath) = "f8949") /\
  (forall formId,
     hasChar "/" (firstPart "_" formId) = false ->
     Js.includes (firstPart "_" formId) ".pdf" = false ->
     extractFormId (getPdfPath formId basePath) = firstPart "_" formId).
Proof.
  assert (R : forall formId,
             hasChar "/" (firstPart "_" formId) = false ->
             Js.includes (firstPart "_" formId) ".pdf" = false ->
             extractFormId (getPdfPath formId basePath) = firstPart "_" formId).
  { intros formId Hs Hp. unfold extractFormId, getPdfPath.
    change (basePath ++ "/" ++ firstPart "_" formId ++ ".pdf")
      with (basePath ++ String "/" (firstPart "_" formId ++ ".pdf")).
    rewrite lastPart_app by (rewrite hasChar_app, Hs; reflexivity).
    rewrite <- (removeFirst_suffix _ Hp) at 2.
    now destruct (firstPart "_" formId). }
  split; [reflexivity|split; [reflexivity|split; [|exact R]]].
  intros i. now rewrite R.
Qed.

End PathFacts.

(** ** Cells of a record *)

Section CellFacts.

Import FormParser F8949Parser.

Context {number : Type} {host : Host number}.

Lemma strip_currency_app (a b : string) :
  Js.strip_currency (a ++ b) = Js.strip_currency a ++ Js.strip_currency b.
Proof.
  induction a as [|c a IH]; simpl; [reflexivity|].
  destruct (orb (Ascii.eqb c "$") (Ascii.eqb c ",")); simpl; now rewrite IH.
Qed.

(** X17.  [parseNumber] returns a number as it is.  For any other cell it
    reads the text without its dollar signs and commas, wherever they
    stand, and returns the default when that is not a number: the result
    is NaN only when the default is. *)
Theorem parseNumber_text (defaultValue : number) :
  (forall n, parseNumber (VNumber n) defaultValue = n) /\
  (forall a b,
     parseNumber (VString (a ++ "$" ++ b)) defaultValue
       = parseNumber (VString (a ++ b)) defaultValue /\
     parseNumber (VString (a ++ "," ++ b)) defaultValue
       = parseNumber (VString (a ++ b)) defaultValue) /\
  (forall value,
     isNaN defaultValue = false ->
     (forall n, value <> VNumber n) ->
     isNaN (parseNumber value defaultValue) = false).
Proof.
  split; [reflexivity|split].
  - intros a b. unfold parseNumber, String_.
    rewrite !strip_currency_app. split; reflexivity.
  - intros value Hd Hv. unfold parseNumber.
    destruct value as [| |s|n|t|m]; try (exfalso; now apply (Hv n));
      match goal with |- context [isNaN (parseFloat ?x)] =>
        destruct (isNaN (parseFloat x)) eqn:E; [exact Hd|exact E] end.
Qed.

(** X18.  For a record whose two date cells are numbers, serials of whole
    days [dp] and [ds] within 100,000,000 days of 1970-01-01, the
    transaction is short-term exactly when [ds - dp < 365], and the dates
    written on the form are the dates of the calendar with these day
    numbers: what is printed and what is classified agree. *)
Theorem serial_dates_classified
    (columnMap : Js.Obj string) (row : ExcelRow number)
    (purchase sell : number) (dp ds : Z) :
  column columnMap row "purchaseDate" = VNumber purchase ->
  column columnMap row "sellDate" = VNumber sell ->
  floor (sub purchase (lit 25569)) = Some dp ->
  floor (sub sell (lit 25569)) = Some ds ->
  (Z.abs dp <= 100000000)%Z -> (Z.abs ds <= 100000000)%Z ->
  let t := transactionOfRow columnMap row in
  isShortTerm t = (ds - dp <? 365)%Z /\
  purchaseDate t = Spec.dateText (Js.civil_from_days dp) /\
  sellDate t = Spec.dateText (Js.civil_from_days ds) /\
  Spec.isDateOfDay dp (Js.civil_from_days dp) = true /\
  Spec.isDateOfDay ds (Js.civil_from_days ds) = true.
Proof.
  intros Hp Hs Fp Fs Bp Bs. cbv zeta.
  unfold transactionOfRow. cbn [isShortTerm purchaseDate sellDate].
  rewrite Hp, Hs. unfold parseDate, formatDate.
  rewrite !excelDateToString_days. unfold dateOfSerial.
  rewrite Fp, Fs, !TimeClip_days.
  destruct (Z.leb_spec (Z.abs dp) 100000000); [|lia].
  destruct (Z.leb_spec (Z.abs ds) 100000000); [|lia].
  repeat split; try apply civil_from_days_correct.
  unfold isShortTermGain, timeDifference, ONE_YEAR_MS, Js.msPerDay.
  destruct (Z.ltb_spec (ds - dp) 365); [apply Z.ltb_lt|apply Z.ltb_ge]; lia.
Qed.

End CellFacts.

Lemma serial_dates_classified_witness :
  let columnMap :=
    [("quantity", "Quantity"); ("name", "Name"); ("purchaseDate", "Purchase Date");
     ("sellDate", "Sell Date"); ("purchasePrice", "Purchase Price");
     ("sellPrice", "Sell Price")] in
  let t :=
    F8949Parser.transactionOfRow columnMap
      (Samples.sale "10" "ACME" 45292 45656 "$1,000" "$1,500") in
  F8949Parser.isShortTerm t = (19723 + 364 - 19723 <? 365)%Z /\
  F8949Parser.purchaseDate t = Spec.dateText (Js.civil_from_days 19723) /\
  F8949Parser.sellDate t = Spec.dateText (Js.civil_from_days (19723 + 364)) /\
  Spec.isDateOfDay 19723 (Js.civil_from_days 19723) = true /\
  Spec.isDateOfDay (19723 + 364) (Js.civil_from_days (19723 + 364)) = true.
Proof.
  apply (@serial_dates_classified _ integerHost _
           (Samples.sale "10" "ACME" 45292 45656 "$1,000" "$1,500")
           (Some 45292%Z) (Some 45656%Z) 19723%Z (19723 + 364)%Z);
    try reflexivity; vm_compute; discriminate.
Defined.


(** ** The sample inputs, run *)

Section Runs.

Import Samples.

Example sales_columns :
  option_map (@Js.keys string) (F8949Parser.detectColumns (hd [] sales)) =
  Some ["quantity"; "name"; "purchaseDate"; "sellDate"; "purchasePrice"; "sellPrice"].
Proof. vm_compute. reflexivity. Qed.

Example sales_transactions :
  option_map (map (fun t => (F8949Parser.name t, F8949Parser.isShortTerm t)))
    (F8949Parser.parseTransactions sales) =
  Some [("ACME", true); ("INIT", false)].
Proof. vm_compute. reflexivity. Qed.

Example sales_forms :
  option_map (@formIds _) (ParserRegistry.parse "F8949" sales (options true true)) =
  Some ["f8949_1"].
Proof. vm_compute. reflexivity. Qed.

Example twoAndOne_instances :
  Js.keys twoAndOne = ["f8949_1"; "f8949_2"] /\
  List.length (fieldsOnPage "Page1" twoAndOne "f8949_1") = 102 /\
  List.length (fieldsOnPage "Page2" twoAndOne "f8949_1") = 11 /\
  List.length (fieldsOnPage "Page1" twoAndOne "f8949_2") = 11 /\
  fieldsOnPage "Page2" twoAndOne "f8949_2" = [].
Proof. vm_compute. repeat split. Qed.

Example currency_text :
  FormParser.parseNumber (VString "$1,234") (Some 0%Z) = Some 1234%Z /\
  FormParser.parseNumber (VString "abc") (Some 0%Z) = Some 0%Z.
Proof. vm_compute. split; reflexivity. Qed.

Example no_break_space_headers :
  F8949Parser.headerMatches ["quantity"; "qty"; "shares"; "units"]
    ("Unit" ++ Spec.utf8 0xA0) = true /\
  Js.trim (Spec.utf8 0xFEFF ++ " Qty" ++ Spec.utf8 0x3000) = "Qty" /\
  Js.trim ("a" ++ Spec.utf8 0xE0) = "a" ++ Spec.utf8 0xE0.
Proof. vm_compute. repeat split. Qed.

Example constructor_variable :
  F1040Parser.parse [[("Variable", VString "constructor"); ("Value", VString "5")]]
    (options true true) =
  Some {| formIds := ["f1040"];
          formsData :=
            [("f1040", [("function Object() { [native code] }", VString "5")])];
          validation :=
            FormParser.createValidationResult true []
              [{| field := "topmostSubform[0].Page1[0].f1_32[0]";
                  message := "Required field is empty" |}] |}.
Proof. vm_compute. reflexivity. Qed.

Example ragged_records :
  option_map (@formsData _)
    (F1040Parser.parse
       [[("Variable", VString "Line 1a"); ("valueOf", VString "7")];
        [("Variable", VString "Line 1b")]]
       (options false true)) =
  Some [("f1040",
         [("topmostSubform[0].Page1[0].f1_47[0]", VString "7");
          ("topmostSubform[0].Page1[0].f1_48[0]", VMember (Js.MFunction "valueOf"))])].
Proof. vm_compute. reflexivity. Qed.

End Runs.
